(** * Magnolia Storage competitor price scraper (scraper.py)

    A shallow embedding of [scraper.py]: the five site scrapers, the
    reduction of regex matches to a pricing table, and the merge that
    [main] performs against the persisted [data.json].

    What is outside the program is an input of the model:
    - the network: [http_get] gives the page text of a URL, or [None];
    - the regex engine: [findall3], [findall2], [findall1] give the matches
      of each pattern of the source on a page, as tuples of captured groups;
    - the clock, and the content of [data.json] as [json.load] decodes it.
    The [print] calls are left out.

    Python values keep their Python shape: a dict is an association list in
    insertion order, a float is an IEEE binary64 value ([spec_float] with
    precision 53 and exponent bound 1024, as [SpecFloat] defines its
    arithmetic), [None] is [None] or [JNull], an exception is [Raise].
    Strings are byte strings: page text is taken to write its digits in
    ASCII. *)

From Stdlib Require Import List String Ascii ZArith Bool Lia Permutation.
From Stdlib Require Import Floats.SpecFloat.
Import ListNotations.
Set Warnings "-register-all".
Open Scope string_scope.
Open Scope Z_scope.

(** ** Exceptions and the error monad *)

Inductive exn : Type :=
| ValueError
| OverflowError
| KeyError
| TypeError
| AttributeError
| JSONDecodeError.

Inductive Result (A : Type) : Type :=
| Ok (a : A)
| Raise (e : exn).
Arguments Ok {A} a.
Arguments Raise {A} e.

Definition bind {A B : Type} (m : Result A) (f : A -> Result B) : Result B :=
  match m with
  | Ok a => f a
  | Raise e => Raise e
  end.

Notation "x <- m ;; k" := (bind m (fun x => k))
  (at level 61, m at next level, right associativity).
Notation "' p <- m ;; k" := (bind m (fun x => let 'p := x in k))
  (at level 61, p pattern, m at next level, right associativity).

(** [for x in xs: acc = body(acc, x)], stopping at the first exception. *)
Fixpoint for_each {A S : Type} (xs : list A) (body : S -> A -> Result S) (s : S)
  : Result S :=
  match xs with
  | [] => Ok s
  | x :: xs' => s' <- body s x ;; for_each xs' body s'
  end.

(** ** Python dicts: association lists in insertion order *)

Section Dict.
Context {V : Type}.

Definition dict := list (string * V).

(** [d.get(k)] *)
Fixpoint dict_get (d : dict) (k : string) : option V :=
  match d with
  | [] => None
  | (k', v) :: d' => if String.eqb k k' then Some v else dict_get d' k
  end.

(** [k in d] *)
Definition dict_mem (d : dict) (k : string) : bool :=
  match dict_get d k with Some _ => true | None => false end.

(** [d[k] = v]: an existing key keeps its place, a new key goes last. *)
Fixpoint dict_set (d : dict) (k : string) (v : V) : dict :=
  match d with
  | [] => [(k, v)]
  | (k', v') :: d' =>
      if String.eqb k k' then (k', v) :: d' else (k', v') :: dict_set d' k v
  end.

Definition dict_keys (d : dict) : list string := map fst d.

(** All the items of [d] whose key is not [k]. *)
Definition dict_without (d : dict) (k : string) : dict :=
  filter (fun kv => negb (String.eqb k (fst kv))) d.
End Dict.
Arguments dict V : clear implicits.

(** ** Numbers: [int(s)], [float(s)], [round(x)] *)

Definition binary64 := spec_float.

Definition digit_of_ascii (c : ascii) : option Z :=
  let n := Z.of_N (N_of_ascii c) in
  if (48 <=? n) && (n <=? 57) then Some (n - 48) else None.

(** Value of a run of decimal digits read after the value [acc];
    [None] at the first character that is not a digit. *)
Fixpoint read_digits (s : string) (acc : Z) : option Z :=
  match s with
  | EmptyString => Some acc
  | String c s' =>
      match digit_of_ascii c with
      | Some n => read_digits s' (10 * acc + n)
      | None => None
      end
  end.

(** [int(s)] on the strings a [(\d+)] group captures: one or more digits.
    Any other string raises here; no call site can pass one. *)
Definition py_int (s : string) : Result Z :=
  match s with
  | EmptyString => Raise ValueError
  | _ => match read_digits s 0 with
         | Some n => Ok n
         | None => Raise ValueError
         end
  end.

(** A decimal literal made of digits and at most one dot, read as
    [(mantissa, number of digits after the dot, number of digits)]. *)
Fixpoint read_decimal (s : string) (acc : Z) (frac : option nat) (ndigits : nat)
  : option (Z * nat * nat) :=
  match s with
  | EmptyString =>
      Some (acc, match frac with Some k => k | None => O end, ndigits)
  | String c s' =>
      if Ascii.eqb c "."%char then
        match frac with
        | None => read_decimal s' acc (Some O) ndigits
        | Some _ => None
        end
      else
        match digit_of_ascii c with
        | Some n =>
            read_decimal s' (10 * acc + n)
              (match frac with Some k => Some (S k) | None => None end)
              (S ndigits)
        | None => None
        end
  end.

(** The binary64 nearest to [m / 10^k], ties to even, for [m >= 0]:
    the correctly rounded quotient of the two integers, which is what
    CPython's [float] returns for the literal. *)
Definition float_of_decimal (m : Z) (k : nat) : binary64 :=
  match m with
  | Zpos p =>
      SFdiv 53 1024 (S754_finite false p 0)
                    (S754_finite false (Z.to_pos (10 ^ Z.of_nat k)) 0)
  | _ => S754_zero false
  end.

(** [float(s)] on the strings a [([\d.]+)] or [(\d+(?:\.\d{2})?)] group
    captures, made of digits and dots: ["41"], ["41.0"], ["41.50"], [".5"],
    ["5."] are numbers, ["."] and ["1.2.3"] raise.  Any other string raises
    here; no call site can pass one. *)
Definition py_float (s : string) : Result binary64 :=
  match read_decimal s 0 None O with
  | Some (m, k, S _) => Ok (float_of_decimal m k)
  | _ => Raise ValueError
  end.

(** [x < y] on floats. *)
Definition float_lt (x y : binary64) : bool := SFltb x y.

(** Round half to even of [m / 2^sh] for [m >= 0]. *)
Definition round_half_even_shift (m : Z) (sh : Z) : Z :=
  let d := 2 ^ sh in
  let q := m / d in
  let r := m mod d in
  match Z.compare (2 * r) d with
  | Lt => q
  | Gt => q + 1
  | Eq => if Z.even q then q else q + 1
  end.

(** [int(round(x))]: Python rounds a float half to even and returns an
    [int]; an infinity raises [OverflowError], a NaN [ValueError]. *)
Definition py_int_round (x : binary64) : Result Z :=
  match x with
  | S754_zero _ => Ok 0
  | S754_infinity _ => Raise OverflowError
  | S754_nan => Raise ValueError
  | S754_finite s m e =>
      let a := if 0 <=? e then Z.pos m * 2 ^ e
               else round_half_even_shift (Z.pos m) (- e) in
      Ok (if s then - a else a)
  end.

(** ** The outside world

    [http_get] is what [urlopen(...).read().decode(...)] gives for a URL, or
    [None] when it raises (the [except Exception] of [fetch]).  The
    [findall] functions stand for [re.findall] with the flags of each call
    site; a match is the tuple of its capture groups. *)

(** The patterns of the source, by call site (all with [re.IGNORECASE] and
    [re.DOTALL], except the two of lines 84 and 85, which have no flag):
    - [ps_dims_then_price], line 69, three groups (width, depth, price):
      [(?:(\d+)(?:\'|&#39;|&\#39;)?\s*x\s*(\d+)(?:\'|&#39;|&\#39;)?)[^$]*?data-pricebook-price="([\d.]+)"]
    - [ps_price_then_dims], line 76, three groups (price, width, depth):
      [data-pricebook-price="([\d.]+)"[^>]*>.*?(\d+)(?:\'|&#39;)?\s*x\s*(\d+)]
    - [ps_price_attr], line 84, one group:
      [data-pricebook-price="([\d.]+)"]
    - [ps_dims], line 85, two groups:
      [(\d+)(?:\'|&#x27;|&\#39;|ft)?\s*x\s*(\d+)]
    - [lockaway_dims_price], line 132, three groups (width, depth, price):
      [(\d+)(?:\'|&#39;|&\#39;|ft)?\s*x\s*(\d+)(?:\'|&#39;|&\#39;|ft)?.*?\$(\d+(?:\.\d{2})?)]
    - [dims_price], lines 174, 199 and 229, three groups (width, depth,
      price):
      [(\d+)\s*[\'ft]*\s*x\s*(\d+)\s*[\'ft]*[^$]*?\$(\d+(?:\.\d{2})?)] *)
Inductive pattern : Type :=
| ps_dims_then_price
| ps_price_then_dims
| ps_price_attr
| ps_dims
| lockaway_dims_price
| dims_price.

Record world : Type := {
  http_get : string -> option string;
  findall3 : pattern -> string -> list (string * string * string);
  findall2 : pattern -> string -> list (string * string);
  findall1 : pattern -> string -> list string
}.

(** [fetch(url)] for [url] a well-formed URL or [None]: every exception of
    [urlopen] and of the decoding is caught and gives [None];
    [Request(None)] raises before the [try] is entered. *)
Definition fetch (w : world) (url : option string) : Result (option string) :=
  match url with
  | Some u => Ok (http_get w u)
  | None => Raise ValueError
  end.

(** [not html] for [html] a string or [None]. *)
Definition not_html (html : option string) : bool :=
  match html with
  | None => true
  | Some EmptyString => true
  | Some _ => false
  end.

(** ** Pricing tables *)

Definition canonical_sizes : list string :=
  ["5x10"; "10x10"; "10x15"; "10x20"; "10x30"].

Definition pricing_table := dict (option Z).

(** [{"5x10": None, "10x10": None, "10x15": None, "10x20": None, "10x30": None}] *)
Definition empty_pricing : pricing_table :=
  [("5x10", None); ("10x10", None); ("10x15", None); ("10x20", None);
   ("10x30", None)].

(** [f"{w}x{d}"] *)
Definition size_key (w d : string) : string := w ++ "x" ++ d.

(** [if mapped not in size_prices or price < size_prices[mapped]:
        size_prices[mapped] = price] *)
Definition keep_cheapest (size_prices : dict binary64) (mapped : string)
    (price : binary64) : dict binary64 :=
  match dict_get size_prices mapped with
  | None => dict_set size_prices mapped price
  | Some cur =>
      if float_lt price cur then dict_set size_prices mapped price
      else size_prices
  end.

(** [for size, price in size_prices.items(): pricing[size] = int(round(price))] *)
Definition store_rounded (pricing : pricing_table) (size_prices : dict binary64)
  : Result pricing_table :=
  for_each size_prices
    (fun pricing '(size, price) =>
       r <- py_int_round price ;;
       Ok (dict_set pricing size (Some r)))
    pricing.

(** What a scraper did: the patterns it ran, in order, and what it returned
    ([Ok None] is Python's [return None]). *)
Definition Scraped : Type := list pattern * Result (option pricing_table).

(** The first lines of every scraper:
    [html = fetch(url)], then [if not html: return None]. *)
Definition with_page (w : world) (url : option string) (body : string -> Scraped)
  : Scraped :=
  match fetch w url with
  | Raise e => ([], Raise e)
  | Ok html =>
      if not_html html then ([], Ok None)
      else match html with
           | Some page => body page
           | None => ([], Ok None)
           end
  end.

(** *** Public Storage *)

Definition ps_size_map : list (Z * Z * string) :=
  [ (5, 5, "5x10"); (5, 6, "5x10"); (5, 8, "5x10"); (5, 10, "5x10");
    (5, 14, "5x10"); (5, 15, "5x10");
    (7, 14, "10x10"); (10, 10, "10x10"); (10, 14, "10x10");
    (10, 15, "10x15"); (10, 17, "10x15");
    (10, 19, "10x20"); (10, 20, "10x20");
    (10, 30, "10x30"); (10, 40, "10x30"); (12, 28, "10x30") ].

(** [size_map.get((w, d))] *)
Fixpoint size_map_get (m : list (Z * Z * string)) (w d : Z) : option string :=
  match m with
  | [] => None
  | (w', d', s) :: m' =>
      if (w =? w') && (d =? d') then Some s else size_map_get m' w d
  end.

(** Truth value of a string or [None]. *)
Definition truthy (s : option string) : bool :=
  match s with
  | None => false
  | Some EmptyString => false
  | Some _ => true
  end.

Definition ps_collect (size_prices : dict binary64)
    (b : string * string * string) : Result (dict binary64) :=
  let '(w, d, price) := b in
  w <- py_int w ;;
  d <- py_int d ;;
  price <- py_float price ;;
  match size_map_get ps_size_map w d with
  | Some mapped =>
      if truthy (Some mapped) then Ok (keep_cheapest size_prices mapped price)
      else Ok size_prices
  | None => Ok size_prices
  end.

(** Lines 91 to 115: from the paired matches to the table. *)
Definition ps_reduce (unit_blocks : list (string * string * string))
  : Result (option pricing_table) :=
  size_prices <- for_each unit_blocks ps_collect [] ;;
  pricing <- store_rounded empty_pricing size_prices ;;
  Ok (Some pricing).

Definition scrape_public_storage (w : world) (url : option string) : Scraped :=
  with_page w url (fun html =>
  let unit_blocks := findall3 w ps_dims_then_price html in
  match unit_blocks with
  | _ :: _ => ([ps_dims_then_price], ps_reduce unit_blocks)
  | [] =>
      (* Try alternate pattern: price before dimensions *)
      let unit_blocks :=
        map (fun b : string * string * string =>
               let '(b0, b1, b2) := b in (b1, b2, b0))
            (findall3 w ps_price_then_dims html) in
      match unit_blocks with
      | _ :: _ =>
          ([ps_dims_then_price; ps_price_then_dims], ps_reduce unit_blocks)
      | [] =>
          (* Broader pattern: prices and dimensions, which cannot be paired *)
          let prices_raw := findall1 w ps_price_attr html in
          let dims_raw := findall2 w ps_dims html in
          let tried := [ps_dims_then_price; ps_price_then_dims;
                        ps_price_attr; ps_dims] in
          match prices_raw with
          | [] => (tried, Ok (Some empty_pricing))
          | _ :: _ => (tried, ps_reduce unit_blocks)
          end
      end
  end).

(** *** Lockaway Storage *)

(** [{"8x4": None, "8x8": "5x10", "8x12": "10x10"}] *)
Definition lockaway_map : dict (option string) :=
  [("8x4", None); ("8x8", Some "5x10"); ("8x12", Some "10x10")].

(** [d.get(k)] for a dict whose values may be [None]. *)
Definition dict_get_flat {V : Type} (d : dict (option V)) (k : string) : option V :=
  match dict_get d k with
  | Some v => v
  | None => None
  end.

Definition lockaway_collect_direct (size_prices : dict binary64)
    (b : string * string * string) : Result (dict binary64) :=
  let '(w, d, price) := b in
  let key := size_key w d in
  price_val <- py_float price ;;
  if dict_mem empty_pricing key then Ok (keep_cheapest size_prices key price_val)
  else Ok size_prices.

Definition lockaway_collect_mapped (size_prices : dict binary64)
    (b : string * string * string) : Result (dict binary64) :=
  let '(w, d, price) := b in
  let key := size_key w d in
  let mapped := dict_get_flat lockaway_map key in
  match mapped with
  | Some m =>
      if truthy mapped then
        price_val <- py_float price ;;
        Ok (keep_cheapest size_prices m price_val)
      else Ok size_prices
  | None => Ok size_prices
  end.

(** [for size, price in size_prices.items():
        if size in pricing: pricing[size] = int(round(price))] *)
Definition store_rounded_known (pricing : pricing_table)
    (size_prices : dict binary64) : Result pricing_table :=
  for_each size_prices
    (fun pricing '(size, price) =>
       if dict_mem pricing size then
         r <- py_int_round price ;;
         Ok (dict_set pricing size (Some r))
       else Ok pricing)
    pricing.

Definition lockaway_reduce (blocks : list (string * string * string))
  : Result (option pricing_table) :=
  size_prices <- for_each blocks lockaway_collect_direct [] ;;
  size_prices <- for_each blocks lockaway_collect_mapped size_prices ;;
  pricing <- store_rounded_known empty_pricing size_prices ;;
  Ok (Some pricing).

Definition scrape_lockaway (w : world) (url : option string) : Scraped :=
  with_page w url (fun html =>
  let blocks := findall3 w lockaway_dims_price html in
  ([lockaway_dims_price], lockaway_reduce blocks)).

(** *** Honea Egypt Self Storage *)

Definition honea_store (pricing : pricing_table)
    (b : string * string * string) : Result pricing_table :=
  let '(w, d, price) := b in
  let key := size_key w d in
  if dict_mem pricing key then
    x <- py_float price ;;
    r <- py_int_round x ;;
    Ok (dict_set pricing key (Some r))
  else Ok pricing.

Definition honea_reduce (blocks : list (string * string * string))
  : Result (option pricing_table) :=
  pricing <- for_each blocks honea_store empty_pricing ;;
  Ok (Some pricing).

Definition scrape_honea_egypt (w : world) (url : option string) : Scraped :=
  with_page w url (fun html =>
  let blocks := findall3 w dims_price html in
  ([dims_price], honea_reduce blocks)).

(** *** Montgomery Self Storage *)

Definition montgomery_collect (size_prices : dict binary64)
    (b : string * string * string) : Result (dict binary64) :=
  let '(w, d, price) := b in
  let key := size_key w d in
  price_val <- py_float price ;;
  if dict_mem empty_pricing key then Ok (keep_cheapest size_prices key price_val)
  else Ok size_prices.

Definition montgomery_reduce (blocks : list (string * string * string))
  : Result (option pricing_table) :=
  size_prices <- for_each blocks montgomery_collect [] ;;
  pricing <- store_rounded empty_pricing size_prices ;;
  Ok (Some pricing).

Definition scrape_montgomery (w : world) (url : option string) : Scraped :=
  with_page w url (fun html =>
  let blocks := findall3 w dims_price html in
  ([dims_price], montgomery_reduce blocks)).

(** *** Woodlands Storage & Office *)

Definition woodlands_mapped (key : string) : string :=
  if String.eqb key "12x10" then "10x10"
  else if String.eqb key "12x30" then "10x30"
  else key.

Definition woodlands_collect (size_prices : dict binary64)
    (b : string * string * string) : Result (dict binary64) :=
  let '(w, d, price) := b in
  let key := size_key w d in
  price_val <- py_float price ;;
  let mapped := woodlands_mapped key in
  if dict_mem empty_pricing mapped
  then Ok (keep_cheapest size_prices mapped price_val)
  else Ok size_prices.

Definition woodlands_reduce (blocks : list (string * string * string))
  : Result (option pricing_table) :=
  size_prices <- for_each blocks woodlands_collect [] ;;
  pricing <- store_rounded empty_pricing size_prices ;;
  Ok (Some pricing).

Definition scrape_woodlands_sao (w : world) (url : option string) : Scraped :=
  with_page w url (fun html =>
  let blocks := findall3 w dims_price html in
  ([dims_price], woodlands_reduce blocks)).

(** ** The persisted store and [main] *)

(** What [json.load] builds. *)
Inductive json : Type :=
| JNull
| JBool (b : bool)
| JInt (n : Z)
| JFloat (x : binary64)
| JStr (s : string)
| JList (l : list json)
| JDict (d : list (string * json)).

(** [data.json] when [main] starts: no file, or a file with what
    [json.load] makes of it ([Raise JSONDecodeError] for text that is not
    JSON). *)
Inductive store_file : Type :=
| NoFile
| File (decoded : Result json).

Definition json_of_price (v : option Z) : json :=
  match v with
  | Some n => JInt n
  | None => JNull
  end.

Definition json_of_pricing (p : pricing_table) : json :=
  JDict (map (fun kv => (fst kv, json_of_price (snd kv))) p).

(** The integer a float is equal to, if any. *)
Definition float_integer (x : binary64) : option Z :=
  match x with
  | S754_zero _ => Some 0
  | S754_finite s m e =>
      if 0 <=? e then Some ((if s then -1 else 1) * (Z.pos m * 2 ^ e))
      else if Z.pos m mod 2 ^ (- e) =? 0
           then Some ((if s then -1 else 1) * (Z.pos m / 2 ^ (- e)))
           else None
  | _ => None
  end.

(** [old_val != new_val], for [new_val] an [int] or [None] as the scrapers
    store them: [True == 1] and [59.0 == 59] in Python. *)
Definition py_ne (old_val : json) (new_val : option Z) : bool :=
  match new_val, old_val with
  | None, JNull => false
  | None, _ => true
  | Some n, JInt m => negb (m =? n)
  | Some n, JBool b => negb ((if b then 1 else 0) =? n)
  | Some n, JFloat x =>
      match float_integer x with
      | Some m => negb (m =? n)
      | None => true
      end
  | Some n, _ => true
  end.

(** One line of the change report: the four values the f-string
    [f"  {name} {size}: ${old_val} → ${new_val}"] prints. *)
Record change : Type := {
  ch_name : string;
  ch_size : string;
  ch_old : json;
  ch_new : option Z
}.

Record target : Type := {
  t_name : string;
  t_url : option string;
  t_scraper : option (world -> option string -> Scraped)
}.

Definition scrape_targets : list target :=
  [ {| t_name := "Lockaway Storage";
       t_url := Some "https://www.lockaway-storage.com/storage-units/texas/magnolia/lockaway-storage-1488-411002/";
       t_scraper := Some scrape_lockaway |};
    {| t_name := "Public Storage (FM 1488)";
       t_url := Some "https://www.publicstorage.com/self-storage-tx-magnolia/2360.html";
       t_scraper := Some scrape_public_storage |};
    {| t_name := "Public Storage (FM 2978)";
       t_url := Some "https://www.publicstorage.com/self-storage-tx-the-woodlands/5888.html";
       t_scraper := Some scrape_public_storage |};
    {| t_name := "SmartStop Self Storage";
       t_url := None;
       t_scraper := None |};
    {| t_name := "Honea Egypt Self Storage";
       t_url := Some "https://www.honeaegyptselfstorage.com/find-storage.aspx?id=68";
       t_scraper := Some scrape_honea_egypt |};
    {| t_name := "Montgomery Self Storage";
       t_url := Some "https://montgomeryss.com/locations/magnolia-tx/";
       t_scraper := Some scrape_montgomery |};
    {| t_name := "Woodlands Storage & Office";
       t_url := Some "https://www.woodlandssao.com/units";
       t_scraper := Some scrape_woodlands_sao |};
    {| t_name := "Storage King USA";
       t_url := None;
       t_scraper := None |} ].

(** Lines 265 to 270. *)
Definition load_data (f : store_file) : Result json :=
  match f with
  | File decoded => decoded
  | NoFile => Ok (JDict [("lastUpdated", JNull); ("competitors", JList [])])
  end.

(** [obj.get(key, default)] on a loaded value: only a dict has [get]. *)
Definition json_get (obj : json) (key : string) (default : json) : Result json :=
  match obj with
  | JDict d => Ok (match dict_get d key with Some v => v | None => default end)
  | _ => Raise AttributeError
  end.

(** The values [for c in obj] goes through. *)
Definition json_iter (obj : json) : Result (list json) :=
  match obj with
  | JList l => Ok l
  | JDict d => Ok (map (fun kv => JStr (fst kv)) d)
  | JStr s => Ok (map (fun c => JStr (String c EmptyString)) (list_ascii_of_string s))
  | _ => Raise TypeError
  end.

(** [obj[key]] for a string [key]. *)
Definition json_getitem (obj : json) (key : string) : Result json :=
  match obj with
  | JDict d => match dict_get d key with
               | Some v => Ok v
               | None => Raise KeyError
               end
  | _ => Raise TypeError
  end.

(** [existing[c["name"]] = c].  The lookup is only ever read at the names
    of [scrape_targets], which are strings: an entry filed under a key that
    is not a string can never be read back and is left out; a list or a
    dict is not hashable. *)
Definition index_competitor (existing : dict (dict json)) (c : json)
  : Result (dict (dict json)) :=
  name <- json_getitem c "name" ;;
  match name, c with
  | JStr n, JDict fields => Ok (dict_set existing n fields)
  | JList _, _ | JDict _, _ => Raise TypeError
  | _, _ => Ok existing
  end.

(** [data.get("competitors", [])], as the loop at line 318 goes through it. *)
Definition competitors_of (data : json) : Result (list json) :=
  competitors <- json_get data "competitors" (JList []) ;;
  json_iter competitors.

(** Lines 317 to 319. *)
Definition build_existing (data : json) : Result (dict (dict json)) :=
  items <- competitors_of data ;;
  for_each items index_competitor [].

(** [existing.get(name, {}).get("pricing", {"5x10": None, ...})] *)
Definition old_pricing_of (existing : dict (dict json)) (name : string) : json :=
  let old_data := match dict_get existing name with
                  | Some c => c
                  | None => []
                  end in
  match dict_get old_data "pricing" with
  | Some p => p
  | None => json_of_pricing empty_pricing
  end.

(** Lines 340 to 344, for one size. *)
Definition compare_size (name : string) (old_pricing : json)
    (new_pricing : pricing_table) (changes : list change) (size : string)
  : Result (list change) :=
  old_val <- json_get old_pricing size JNull ;;
  let new_val := dict_get_flat new_pricing size in
  if py_ne old_val new_val
  then Ok (changes ++ [ {| ch_name := name; ch_size := size;
                           ch_old := old_val; ch_new := new_val |} ])%list
  else Ok changes.

(** The body of the loop over [scrape_targets] (lines 325 to 349); the state
    is [(updated_competitors, changes)]. *)
Definition scrape_target (w : world) (existing : dict (dict json))
    (st : list (string * json) * list change) (t : target)
  : Result (list (string * json) * list change) :=
  let '(updated_competitors, changes) := st in
  let name := t_name t in
  let old_pricing := old_pricing_of existing name in
  match t_scraper t with
  | None => Ok ((updated_competitors ++ [(name, old_pricing)])%list, changes)
  | Some scraper =>
      new_pricing <- snd (scraper w (t_url t)) ;;
      match new_pricing with
      | None => Ok ((updated_competitors ++ [(name, old_pricing)])%list, changes)
      | Some new_pricing =>
          changes <- for_each canonical_sizes
                       (compare_size name old_pricing new_pricing) changes ;;
          Ok ((updated_competitors ++ [(name, json_of_pricing new_pricing)])%list,
              changes)
      end
  end.

(** Lines 356 to 363, for one entry [{"name": name, "pricing": pricing}]
    of [updated_competitors]. *)
Definition merge_competitor (existing : dict (dict json))
    (updated : string * json) : json :=
  let '(name, pricing) := updated in
  match dict_get existing name with
  | Some old => JDict (dict_set old "pricing" pricing)
  | None => JDict [("name", JStr name); ("pricing", pricing)]
  end.

(** [main], from the load of [data.json] to what is written back: the new
    content of the file and the list [changes]. *)
Definition main_with (targets : list target) (w : world) (f : store_file)
    (now : string) : Result (json * list change) :=
  data <- load_data f ;;
  existing <- build_existing data ;;
  '(updated_competitors, changes) <-
     for_each targets (scrape_target w existing) ([], []) ;;
  let full_competitors := map (merge_competitor existing) updated_competitors in
  match data with
  | JDict d =>
      let d := dict_set d "lastUpdated" (JStr now) in
      let d := dict_set d "competitors" (JList full_competitors) in
      Ok (JDict d, changes)
  | _ => Raise TypeError
  end.

Definition main : world -> store_file -> string -> Result (json * list change) :=
  main_with scrape_targets.

(** ** Float values

    [nonneg_float x]: [x] is [+0.0], positive and finite, or [+inf].
    [float_is_half x n]: the value of [x] is exactly [n + 1/2]. *)

Definition nonneg_float (x : binary64) : Prop :=
  match x with
  | S754_zero false | S754_infinity false | S754_finite false _ _ => True
  | _ => False
  end.


(** ** Observations: what a scraper reads off one match

    For each scraper, the size under which a match is filed and the price
    it carries, as the loop bodies above compute them: [Ok None] for a match
    whose dimensions the scraper does not track, [Raise] where [int] or
    [float] raises. *)

Definition observation : Type := string * binary64.

Definition ps_observe (b : string * string * string) : Result (option observation) :=
  let '(w, d, price) := b in
  w <- py_int w ;;
  d <- py_int d ;;
  price <- py_float price ;;
  match size_map_get ps_size_map w d with
  | Some mapped => Ok (Some (mapped, price))
  | None => Ok None
  end.

(** First loop of [scrape_lockaway]; also the loop of [scrape_montgomery]
    and, without the rounding, of [scrape_honea_egypt]. *)
Definition direct_observe (b : string * string * string) : Result (option observation) :=
  let '(w, d, price) := b in
  price_val <- py_float price ;;
  if dict_mem empty_pricing (size_key w d)
  then Ok (Some (size_key w d, price_val))
  else Ok None.

(** Second loop of [scrape_lockaway]. *)
Definition lockaway_mapped_observe (b : string * string * string)
  : Result (option observation) :=
  let '(w, d, price) := b in
  match dict_get_flat lockaway_map (size_key w d) with
  | Some m => price_val <- py_float price ;; Ok (Some (m, price_val))
  | None => Ok None
  end.

(** [scrape_honea_egypt] converts the price only when the key is tracked. *)
Definition honea_observe (b : string * string * string) : Result (option observation) :=
  let '(w, d, price) := b in
  if dict_mem empty_pricing (size_key w d)
  then x <- py_float price ;; Ok (Some (size_key w d, x))
  else Ok None.

Definition woodlands_observe (b : string * string * string)
  : Result (option observation) :=
  let '(w, d, price) := b in
  price_val <- py_float price ;;
  if dict_mem empty_pricing (woodlands_mapped (size_key w d))
  then Ok (Some (woodlands_mapped (size_key w d), price_val))
  else Ok None.

(** The observations of a pass over [blocks], in page order. *)
Fixpoint observations (observe : string * string * string -> Result (option observation))
    (blocks : list (string * string * string)) : Result (list observation) :=
  match blocks with
  | [] => Ok []
  | b :: bs =>
      o <- observe b ;;
      rest <- observations observe bs ;;
      Ok (match o with Some kp => kp :: rest | None => rest end)
  end.

(** [scrape_lockaway] goes over the matches twice. *)
Definition lockaway_observations (blocks : list (string * string * string))
  : Result (list observation) :=
  direct <- observations direct_observe blocks ;;
  mapped <- observations lockaway_mapped_observe blocks ;;
  Ok (direct ++ mapped)%list.

(** The prices observed for one size. *)
Definition prices_for (size : string) (obs : list observation) : list binary64 :=
  map snd (filter (fun kp => String.eqb size (fst kp)) obs).

(** [p] is a cheapest price of [ps]: it is one of them and none is below. *)
Definition cheapest (p : binary64) (ps : list binary64) : Prop :=
  In p ps /\ forall q, In q ps -> float_lt q p = false.

(** [p] is the last price of [ps]. *)
Definition latest (p : binary64) (ps : list binary64) : Prop :=
  exists before, ps = (before ++ [p])%list.

(** The table holds, for each size, the price that [select] picks among
    the observations for this size, rounded; and [None] for a size without
    observation. *)
Definition stores_rounded (select : binary64 -> list binary64 -> Prop)
    (obs : list observation) (tbl : pricing_table) : Prop :=
  forall size,
    match dict_get_flat tbl size with
    | None => prices_for size obs = []
    | Some v =>
        exists p, select p (prices_for size obs) /\ py_int_round p = Ok v
    end.

(** A pricing table as the store keeps it: the five sizes, each with
    [None] or an integer that is not negative. *)
Definition price_ok (v : option Z) : Prop :=
  match v with
  | Some n => 0 <= n
  | None => True
  end.

Definition table_ok (tbl : pricing_table) : Prop :=
  dict_keys tbl = canonical_sizes /\ Forall (fun kv => price_ok (snd kv)) tbl.

(** [size_prices] after a pass that saw [obs], starting from [size_prices]. *)
Definition cheapest_of (obs : list observation) (size_prices : dict binary64)
  : dict binary64 :=
  fold_left (fun sp kp => keep_cheapest sp (fst kp) (snd kp)) obs size_prices.

(** A loop body that files each observation with [keep_cheapest]. *)
Definition keeps_cheapest_of
    (collect : dict binary64 -> string * string * string -> Result (dict binary64))
    (observe : string * string * string -> Result (option observation)) : Prop :=
  forall sp b,
    collect sp b =
    (o <- observe b ;;
     Ok (match o with
         | Some kp => keep_cheapest sp (fst kp) (snd kp)
         | None => sp
         end)).

(** Every observation is filed under one of the five sizes and carries a
    price that is not negative. *)
Definition observes_tracked
    (observe : string * string * string -> Result (option observation)) : Prop :=
  forall b k p, observe b = Ok (Some (k, p)) ->
                In k canonical_sizes /\ nonneg_float p.

(** What the four scrapers that keep the cheapest price return. *)
Definition cheapest_result (obs : list observation) (tbl : pricing_table) : Prop :=
  dict_keys tbl = canonical_sizes /\
  stores_rounded cheapest obs tbl /\
  (forall k p, In (k, p) obs -> In k canonical_sizes /\ nonneg_float p).

(** What [scrape_honea_egypt], which overwrites, returns. *)
Definition latest_result (obs : list observation) (tbl : pricing_table) : Prop :=
  dict_keys tbl = canonical_sizes /\
  stores_rounded latest obs tbl /\
  (forall k p, In (k, p) obs -> In k canonical_sizes /\ nonneg_float p).


(** ** Reading a run *)

(** What a scraper returned for a target: [None] when the target has no
    scraper. *)
Definition scraped_by (w : world) (t : target) : option (Result (option pricing_table)) :=
  match t_scraper t with
  | Some scraper => Some (snd (scraper w (t_url t)))
  | None => None
  end.

(** The value of [new_pricing] when the loop body reaches line 346. *)
Definition new_pricing_of (w : world) (existing : dict (dict json)) (t : target)
  : json :=
  match scraped_by w t with
  | Some (Ok (Some tbl)) => json_of_pricing tbl
  | _ => old_pricing_of existing (t_name t)
  end.

(** The fields of the entry that lines 358 to 362 build. *)
Definition entry_fields (existing : dict (dict json)) (updated : string * json)
  : dict json :=
  match dict_get existing (fst updated) with
  | Some old => dict_set old "pricing" (snd updated)
  | None => [("name", JStr (fst updated)); ("pricing", snd updated)]
  end.

(** A pricing object of the store that is a well-formed table: exactly the
    five sizes as keys, in any order, each with [null] or an integer that is
    not negative. *)
Definition pricing_ok (p : json) : Prop :=
  exists tbl,
    p = json_of_pricing tbl /\
    Permutation (dict_keys tbl) canonical_sizes /\
    Forall (fun kv => price_ok (snd kv)) tbl.

(** Every entry of [comps] that has a [pricing] has a well-formed one. *)
Definition competitors_ok (comps : list json) : Prop :=
  forall c p, In (JDict c) comps -> dict_get c "pricing" = Some p -> pricing_ok p.

(** The five scrapers. *)
Definition scrapers : list (world -> option string -> Scraped) :=
  [scrape_lockaway; scrape_public_storage; scrape_honea_egypt;
   scrape_montgomery; scrape_woodlands_sao].

(** [existing] after the entries [updated] were written and loaded again. *)
Definition index_entries (existing : dict (dict json))
    (updated : list (string * json)) (start : dict (dict json)) : dict (dict json) :=
  fold_left (fun e u => dict_set e (fst u) (entry_fields existing u)) updated start.

(** Every entry of [existing] is filed under its own name. *)
Definition filed_by_name (existing : dict (dict json)) : Prop :=
  forall n c, dict_get existing n = Some c -> dict_get c "name" = Some (JStr n).

(** Each scraper with the first pattern it runs. *)
Definition strategies : list ((world -> option string -> Scraped) * pattern) :=
  [(scrape_public_storage, ps_dims_then_price);
   (scrape_lockaway, lockaway_dims_price);
   (scrape_honea_egypt, dims_price);
   (scrape_montgomery, dims_price);
   (scrape_woodlands_sao, dims_price)].

(** In the run from [f] to [out], the competitor [name] kept the pricing it
    had: no change carries its name, and its entry in [out] holds the
    [old_pricing] that line 327 computed from the loaded store. *)
Definition carries_forward (f : store_file) (out : json) (changes : list change)
    (name : string) : Prop :=
  (forall ch, In ch changes -> ch_name ch <> name) /\
  exists prev existing out_comps,
    load_data f = Ok prev /\
    build_existing prev = Ok existing /\
    competitors_of out = Ok out_comps /\
    (exists e, In (JDict e) out_comps /\ dict_get e "name" = Some (JStr name)) /\
    forall e, In (JDict e) out_comps ->
              dict_get e "name" = Some (JStr name) ->
              dict_get e "pricing" = Some (old_pricing_of existing name).


(** ** Worlds and stores used in the examples *)

Definition montgomery_url : string :=
  "https://montgomeryss.com/locations/magnolia-tx/".
Definition honea_url : string :=
  "https://www.honeaegyptselfstorage.com/find-storage.aspx?id=68".
Definition lockaway_url : string :=
  "https://www.lockaway-storage.com/storage-units/texas/magnolia/lockaway-storage-1488-411002/".

(** Every fetch fails. *)
Definition offline_world : world :=
  {| http_get := fun _ => None;
     findall3 := fun _ _ => [];
     findall2 := fun _ _ => [];
     findall1 := fun _ _ => [] |}.

(** Every fetch succeeds with an empty body. *)
Definition empty_page_world : world :=
  {| http_get := fun _ => Some "";
     findall3 := fun _ _ => [];
     findall2 := fun _ _ => [];
     findall1 := fun _ _ => [] |}.

(** Every page is served and no pattern matches anything on it. *)
Definition no_match_world : world :=
  {| http_get := fun _ => Some "<html><body>Call us for rates</body></html>";
     findall3 := fun _ _ => [];
     findall2 := fun _ _ => [];
     findall1 := fun _ _ => [] |}.

(** Only the Montgomery page is served; it lists three sizes.  The two
    text patterns match the three units, and of the Public Storage patterns
    only the unpaired dimensions match. *)
Definition montgomery_world : world :=
  {| http_get := fun u =>
       if String.eqb u montgomery_url
       then Some "<li>5 x 10 $55.00/mo</li><li>10 x 15 $89.00/mo</li><li>10 x 20 $120.00/mo</li>"
       else None;
     findall3 := fun p _ =>
       match p with
       | lockaway_dims_price | dims_price =>
           [("5", "10", "55.00"); ("10", "15", "89.00"); ("10", "20", "120.00")]
       | _ => []
       end;
     findall2 := fun p _ =>
       match p with
       | ps_dims => [("5", "10"); ("10", "15"); ("10", "20")]
       | _ => []
       end;
     findall1 := fun _ _ => [] |}.

(** The Honea Egypt and Montgomery pages both list a 5x10 unit twice, the
    cheaper one first. *)
Definition two_prices_page : string :=
  "<td>5 x 10</td><td>$50.00/month</td><td>5 x 10</td><td>$60.00/month</td>".

Definition two_prices_world : world :=
  {| http_get := fun u =>
       if String.eqb u honea_url || String.eqb u montgomery_url
       then Some two_prices_page
       else None;
     findall3 := fun p _ =>
       match p with
       | lockaway_dims_price | dims_price =>
           [("5", "10", "50.00"); ("5", "10", "60.00")]
       | _ => []
       end;
     findall2 := fun p _ =>
       match p with
       | ps_dims => [("5", "10"); ("5", "10")]
       | _ => []
       end;
     findall1 := fun _ _ => [] |}.

(** Every page lists a 5x10 unit at 40.50 and a 10x10 unit at 41.50, as
    text.  The Lockaway pattern and the pattern of lines 174, 199 and 229
    match the two units; the page has no [data-pricebook-price] attribute,
    so that of the Public Storage patterns only the unpaired dimensions
    match. *)
Definition halves_world : world :=
  {| http_get := fun _ => Some "5'x10' $40.50 10'x10' $41.50";
     findall3 := fun p _ =>
       match p with
       | lockaway_dims_price | dims_price =>
           [("5", "10", "40.50"); ("10", "10", "41.50")]
       | _ => []
       end;
     findall2 := fun p _ =>
       match p with
       | ps_dims => [("5", "10"); ("10", "10")]
       | _ => []
       end;
     findall1 := fun _ _ => [] |}.

Definition public_storage_url : string :=
  "https://www.publicstorage.com/self-storage-tx-magnolia/2360.html".

(** The double quote that delimits an attribute value. *)
Definition dquote : string := String (ascii_of_nat 34) EmptyString.

(** A price attribute, [data-pricebook-price] with its quoted value. *)
Definition price_attr (price : string) : string :=
  "data-pricebook-price=" ++ dquote ++ price ++ dquote.



(** Every page carries a price attribute whose value has two dots, which
    the group [([\d.]+)] of the Public Storage patterns captures. *)
Definition bad_price_page : string := "5'x10' " ++ price_attr "1.2.3".

Definition bad_price_world : world :=
  {| http_get := fun _ => Some bad_price_page;
     findall3 := fun p _ =>
       match p with
       | ps_dims_then_price => [("5", "10", "1.2.3")]
       | _ => []
       end;
     findall2 := fun p _ =>
       match p with
       | ps_dims => [("5", "10")]
       | _ => []
       end;
     findall1 := fun p _ =>
       match p with
       | ps_price_attr => ["1.2.3"]
       | _ => []
       end |}.

(** [{5x10: 59, 10x10: null, 10x15: 89, 10x20: null, 10x30: null}] *)
Definition example_previous : json :=
  JDict [("5x10", JInt 59); ("10x10", JNull); ("10x15", JInt 89);
         ("10x20", JNull); ("10x30", JNull)].

(** [{5x10: 55, 10x10: null, 10x15: 89, 10x20: 120, 10x30: null}] *)
Definition example_new : pricing_table :=
  [("5x10", Some 55); ("10x10", None); ("10x15", Some 89);
   ("10x20", Some 120); ("10x30", None)].

Definition montgomery_fields : dict json :=
  [("name", JStr "Montgomery Self Storage");
   ("address", JStr "33003 FM 2978, Magnolia, TX");
   ("phone", JStr "(281) 555-0142");
   ("pricing", example_previous)].

Definition lockaway_fields : dict json :=
  [("name", JStr "Lockaway Storage");
   ("pricing", example_previous);
   ("address", JStr "1488 FM 1488, Magnolia, TX")].

(** A store with two of the eight competitors. *)
Definition example_store : json :=
  JDict [("lastUpdated", JStr "2025-01-01 06:00 UTC");
         ("competitors", JList [JDict montgomery_fields; JDict lockaway_fields])].

(** A store in which two entries carry the same name. *)
Definition duplicate_store : json :=
  JDict [("lastUpdated", JNull);
         ("competitors",
          JList [JDict [("name", JStr "Lockaway Storage"); ("phone", JStr "1")];
                 JDict [("name", JStr "Lockaway Storage"); ("phone", JStr "2")]])].

Definition montgomery_target : target :=
  {| t_name := "Montgomery Self Storage";
     t_url := Some montgomery_url;
     t_scraper := Some scrape_montgomery |}.

Definition lockaway_target : target :=
  {| t_name := "Lockaway Storage";
     t_url := Some lockaway_url;
     t_scraper := Some scrape_lockaway |}.

(** A store with one entry, for a competitor that is not configured. *)
Definition closed_down_store : json :=
  JDict [("competitors",
          JList [JDict [("name", JStr "Closed Down Storage");
                        ("phone", JStr "3")]])].

(** A store in which Montgomery Self Storage has a negative price. *)
Definition negative_price_store : json :=
  JDict [("lastUpdated", JStr "2025-01-01 06:00 UTC");
         ("competitors",
          JList [JDict [("name", JStr "Montgomery Self Storage");
                        ("pricing",
                         JDict [("5x10", JInt (-5)); ("10x10", JNull);
                                ("10x15", JNull); ("10x20", JNull);
                                ("10x30", JNull)])]])].


(** ** Helpers of the source that [main] does not call *)

(** [extract_between(html, start_marker, end_marker)], lines 36 to 45.
    [html.find(m)] and [html.find(m, i)] are [index 0 m html] and
    [index i m html], with [None] for [-1]; [html[i:]] and [html[i:j]] are
    [substring]. *)
Definition extract_between (html start_marker end_marker : string) : option string :=
  match index 0 start_marker html with
  | None => None
  | Some idx =>
      let idx := (idx + String.length start_marker)%nat in
      match index idx end_marker html with
      | None => Some (substring idx (String.length html - idx) html)
      | Some e => Some (substring idx (e - idx) html)
      end
  end.

(** [sub] occurs in [s]. *)
Definition occurs (sub s : string) : Prop :=
  exists before after, s = before ++ sub ++ after.

(** [sub] occurs in [s] at position [p]. *)
Definition occurs_at (sub s : string) (p : nat) : Prop :=
  exists before after, s = before ++ sub ++ after /\ String.length before = p.

(** ** Price literals *)

(** A run of ["0"] characters, as the cents of a whole price. *)
Fixpoint all_zeros (s : string) : bool :=
  match s with
  | EmptyString => true
  | String c s' => Ascii.eqb c "0"%char && all_zeros s'
  end.

(** ** What a run reports and when it stops *)

(** The changes that lines 340 to 344 report for one competitor: the sizes,
    in the order of [canonical_sizes], whose old and new values differ. *)
Definition changes_for (name : string) (old_pricing : dict json)
    (new_pricing : pricing_table) : list change :=
  flat_map
    (fun size =>
       let old_val := match dict_get old_pricing size with
                      | Some v => v
                      | None => JNull
                      end in
       let new_val := dict_get_flat new_pricing size in
       if py_ne old_val new_val
       then [ {| ch_name := name; ch_size := size;
                 ch_old := old_val; ch_new := new_val |} ]
       else [])
    canonical_sizes.

(** The changes of one target: none unless its scraper returned a table. *)
Definition target_changes (w : world) (existing : dict (dict json)) (t : target)
  : list change :=
  match scraped_by w t, old_pricing_of existing (t_name t) with
  | Some (Ok (Some tbl)), JDict old => changes_for (t_name t) old tbl
  | _, _ => []
  end.

(** The exception that indexing the entry [c] raises, if any: an entry that
    is not an object cannot be subscripted, an object may lack [name], and
    a list or an object is not hashable. *)
Definition index_error (c : json) : option exn :=
  match c with
  | JDict fields =>
      match dict_get fields "name" with
      | None => Some KeyError
      | Some (JList _) | Some (JDict _) => Some TypeError
      | Some _ => None
      end
  | _ => Some TypeError
  end.

(** The scraper of [t] returned a table while the stored pricing of [t] is
    not an object: line 341 calls [get] on it. *)
Definition compares_non_object (w : world) (existing : dict (dict json))
    (t : target) : Prop :=
  (exists tbl, scraped_by w t = Some (Ok (Some tbl))) /\
  forall old, old_pricing_of existing (t_name t) <> JDict old.

(** A run of digits. *)
Fixpoint all_digits (s : string) : bool :=
  match s with
  | EmptyString => true
  | String c s' =>
      match digit_of_ascii c with
      | Some _ => all_digits s'
      | None => false
      end
  end.

(** What the group [(\d+(?:\.\d{2})?)] of the patterns of lines 132, 174,
    199 and 229 captures: one or more digits, then possibly a dot and two
    digits. *)
Definition price_capture (s : string) : Prop :=
  exists whole,
    whole <> "" /\ all_digits whole = true /\
    (s = whole \/
     exists cents, String.length cents = 2%nat /\ all_digits cents = true /\
                   s = whole ++ "." ++ cents).

(** Every match carries a price as the group captures it. *)
Definition captured_prices (blocks : list (string * string * string)) : Prop :=
  Forall (fun b => price_capture (snd b)) blocks.

(** [r] is a table or the exception [OverflowError]. *)
Definition table_or_overflow (r : Result (option pricing_table)) : Prop :=
  (exists tbl, r = Ok (Some tbl)) \/ r = Raise OverflowError.

(** ** What a store holds for a competitor *)

(** The entry [c] of a store carries the name [name]. *)
Definition named (name : string) (c : json) : bool :=
  match c with
  | JDict fields =>
      match dict_get fields "name" with
      | Some (JStr n) => String.eqb n name
      | _ => false
      end
  | _ => false
  end.

(** The entry that the list [comps] of a store holds for [name]: the last
    one that carries this name. *)
Definition previous_entry (comps : list json) (name : string)
  : option (dict json) :=
  match find (named name) (rev comps) with
  | Some (JDict fields) => Some fields
  | _ => None
  end.

(** The pricing that the list [comps] of a store holds for [name]: the
    [pricing] of its entry, as loaded, and the table with every size absent
    when there is no entry for [name] or the entry has no [pricing]. *)
Definition previous_pricing (comps : list json) (name : string) : json :=
  match previous_entry comps name with
  | Some fields =>
      match dict_get fields "pricing" with
      | Some p => p
      | None => json_of_pricing empty_pricing
      end
  | None => json_of_pricing empty_pricing
  end.

(** In the run from [f] to [out], the competitor [name] kept the pricing
    that the loaded store held for it, and no change carries its name. *)
Definition keeps_previous_pricing (f : store_file) (out : json)
    (changes : list change) (name : string) : Prop :=
  (forall ch, In ch changes -> ch_name ch <> name) /\
  exists prev comps out_comps,
    load_data f = Ok prev /\
    competitors_of prev = Ok comps /\
    competitors_of out = Ok out_comps /\
    (exists e, In (JDict e) out_comps /\ dict_get e "name" = Some (JStr name)) /\
    forall e, In (JDict e) out_comps ->
              dict_get e "name" = Some (JStr name) ->
              dict_get e "pricing" = Some (previous_pricing comps name).

(** Every entry of the store loaded from [f] has, in [out], an entry of its
    name with the same items apart from [pricing]. *)
Definition keeps_metadata (f : store_file) (out : json) : Prop :=
  forall prev comps c n,
    load_data f = Ok prev ->
    competitors_of prev = Ok comps ->
    In (JDict c) comps ->
    dict_get c "name" = Some (JStr n) ->
    exists out_comps e,
      competitors_of out = Ok out_comps /\
      In (JDict e) out_comps /\
      dict_get e "name" = Some (JStr n) /\
      dict_without e "pricing" = dict_without c "pricing".

(** Every entry of the store [data] has a well-formed pricing object. *)
Definition store_pricing_ok (data : json) : Prop :=
  exists comps,
    competitors_of data = Ok comps /\
    forall e, In e comps ->
      exists fields p, e = JDict fields /\
                       dict_get fields "pricing" = Some p /\ pricing_ok p.

(** The store holds nothing about the configured competitors: there is no
    file, or the file is an object whose [competitors] (the empty list when
    the key is missing) can be indexed and has no entry named after one of
    them. *)
Definition no_prior_data (f : store_file) : Prop :=
  f = NoFile \/
  exists d comps,
    f = File (Ok (JDict d)) /\
    competitors_of (JDict d) = Ok comps /\
    Forall (fun c => index_error c = None) comps /\
    forall c t, In c comps -> In t scrape_targets -> named (t_name t) c = false.

(** The table written for [t] by a run without prior data: the table of
    its scraper, or the one with every size absent. *)
Definition first_pricing (w : world) (t : target) : pricing_table :=
  match scraped_by w t with
  | Some (Ok (Some tbl)) => tbl
  | _ => empty_pricing
  end.

(** The entry written for [t] by a run without prior data. *)
Definition first_entry (w : world) (t : target) : json :=
  JDict [("name", JStr (t_name t));
         ("pricing", json_of_pricing (first_pricing w t))].

(** The changes reported for [t] by a run without prior data: every price
    found, as a change from [None]. *)
Definition first_changes (w : world) (t : target) : list change :=
  flat_map
    (fun size =>
       match dict_get_flat (first_pricing w t) size with
       | Some v => [ {| ch_name := t_name t; ch_size := size;
                        ch_old := JNull; ch_new := Some v |} ]
       | None => []
       end)
    canonical_sizes.

(** * Properties *)

(** ** The error monad *)

Lemma bind_ok {A B : Type} (m : Result A) (f : A -> Result B) (b : B) :
  bind m f = Ok b -> exists a, m = Ok a /\ f a = Ok b.
Proof.
  destruct m as [a|e]; simpl; intros H; [eauto | discriminate].
Qed.

Ltac bind_inv H :=
  let a := fresh "a" in
  let Ha := fresh "E" in
  apply bind_ok in H; destruct H as (a & Ha & H).

Lemma for_each_app {A S : Type} (xs ys : list A) (body : S -> A -> Result S) s :
  for_each (xs ++ ys) body s = (s' <- for_each xs body s ;; for_each ys body s').
Proof.
  revert s. induction xs as [|x xs IH]; intros s; simpl; [reflexivity|].
  destruct (body s x); simpl; auto.
Qed.

(** ** Dicts *)

Section DictFacts.
Context {V : Type}.
Implicit Types (d : dict V) (k : string) (v : V).

Lemma dict_get_set_same d k v : dict_get (dict_set d k v) k = Some v.
Proof.
  induction d as [|[k' v'] d IH]; simpl.
  - rewrite String.eqb_refl. reflexivity.
  - destruct (String.eqb k k') eqn:E; simpl; rewrite E; auto.
Qed.

Lemma dict_get_set_other d k k' v :
  k <> k' -> dict_get (dict_set d k v) k' = dict_get d k'.
Proof.
  intros Hne. induction d as [|[k0 v0] d IH]; simpl.
  - destruct (String.eqb k' k) eqn:E; [|reflexivity].
    apply String.eqb_eq in E. congruence.
  - destruct (String.eqb k k0) eqn:E; simpl.
    + apply String.eqb_eq in E. subst k0.
      destruct (String.eqb k' k) eqn:E'; [|reflexivity].
      apply String.eqb_eq in E'. congruence.
    + rewrite IH. reflexivity.
Qed.

Lemma dict_get_set d k k' v :
  dict_get (dict_set d k v) k' =
  if String.eqb k k' then Some v else dict_get d k'.
Proof.
  destruct (String.eqb k k') eqn:E.
  - apply String.eqb_eq in E. subst. apply dict_get_set_same.
  - apply String.eqb_neq in E. apply dict_get_set_other. exact E.
Qed.

Lemma dict_keys_set_known d k v :
  dict_mem d k = true -> dict_keys (dict_set d k v) = dict_keys d.
Proof.
  unfold dict_mem, dict_keys.
  induction d as [|[k' v'] d IH]; simpl; [discriminate|].
  destruct (String.eqb k k') eqn:E; simpl; intros H; [reflexivity|].
  rewrite IH; auto.
Qed.

Lemma dict_mem_set d k k' v :
  dict_mem d k' = true -> dict_mem (dict_set d k v) k' = true.
Proof.
  unfold dict_mem. rewrite dict_get_set.
  destruct (String.eqb k k'); auto.
Qed.

Lemma dict_without_set d k v :
  dict_without (dict_set d k v) k = dict_without d k.
Proof.
  unfold dict_without.
  induction d as [|[k' v'] d IH]; simpl.
  - rewrite String.eqb_refl. reflexivity.
  - destruct (String.eqb k k') eqn:E; simpl; rewrite E; simpl; congruence.
Qed.

Lemma dict_get_In d k v : dict_get d k = Some v -> In (k, v) d.
Proof.
  induction d as [|[k' v'] d IH]; simpl; [discriminate|].
  destruct (String.eqb k k') eqn:E.
  - apply String.eqb_eq in E. intros [= ->]. subst. auto.
  - auto.
Qed.

End DictFacts.

(** ** Floats: order and sign *)

Lemma float_lt_trans (a b c : binary64) :
  float_lt a b = true -> float_lt b c = true -> float_lt a c = true.
Proof.
  unfold float_lt, SFltb, SFcompare.
  destruct a as [[]|[]| |[] ma ea], b as [[]|[]| |[] mb eb],
           c as [[]|[]| |[] mc ec];
    try discriminate; try reflexivity;
    change (Pos.compare_cont Eq ?x ?y) with (Pos.compare x y);
    intros H1 H2;
    destruct (Z.compare_spec ea eb); try discriminate;
    destruct (Z.compare_spec eb ec); try discriminate;
    destruct (Z.compare_spec ea ec); try lia; try reflexivity;
    try discriminate; subst;
    destruct (Pos.compare_spec ma mb); try discriminate;
    destruct (Pos.compare_spec mb mc); try discriminate;
    destruct (Pos.compare_spec ma mc); try lia; try reflexivity.
Qed.

Lemma float_lt_irrefl (a : binary64) : float_lt a a = false.
Proof.
  unfold float_lt, SFltb, SFcompare.
  destruct a as [[]|[]| |[] m e]; try reflexivity;
    rewrite Z.compare_refl;
    change (Pos.compare_cont Eq m m) with (Pos.compare m m);
    rewrite Pos.compare_refl; reflexivity.
Qed.

Lemma shr_1_nonneg mrs : 0 <= shr_m mrs -> 0 <= shr_m (shr_1 mrs).
Proof.
  destruct mrs as [m r s]. simpl.
  destruct m as [|[p|p|]|[p|p|]]; simpl; lia.
Qed.

Lemma iter_pos_shr_1_nonneg n : forall mrs,
  0 <= shr_m mrs -> 0 <= shr_m (iter_pos shr_1 n mrs).
Proof.
  induction n; intros mrs H; simpl; auto using shr_1_nonneg.
Qed.

Lemma shr_fexp_nonneg prec emax m e l :
  0 <= m -> 0 <= shr_m (fst (shr_fexp prec emax m e l)).
Proof.
  intros H. unfold shr_fexp, shr.
  assert (H0 : 0 <= shr_m (shr_record_of_loc m l))
    by (destruct l as [|[]]; simpl; exact H).
  destruct (fexp prec emax (Zdigits2 m + e) - e); simpl; auto.
  apply iter_pos_shr_1_nonneg; exact H0.
Qed.

Lemma round_nearest_even_nonneg m l : 0 <= m -> 0 <= round_nearest_even m l.
Proof.
  intros H. destruct l as [|[]]; simpl; try lia.
  destruct (Z.even m); lia.
Qed.

Lemma binary_round_aux_nonneg prec emax m e l :
  0 <= m -> nonneg_float (binary_round_aux prec emax false m e l).
Proof.
  intros H. unfold binary_round_aux.
  pose proof (shr_fexp_nonneg prec emax m e l H) as H1.
  destruct (shr_fexp prec emax m e l) as [mrs' e'] eqn:E1. simpl in H1.
  pose proof (shr_fexp_nonneg prec emax
                (round_nearest_even (shr_m mrs') (loc_of_shr_record mrs')) e'
                loc_Exact (round_nearest_even_nonneg _ _ H1)) as H2.
  destruct (shr_fexp prec emax _ e' loc_Exact) as [mrs'' e''] eqn:E2.
  simpl in H2.
  destruct (shr_m mrs''); simpl; auto; try lia.
  destruct (e'' <=? emax - prec); simpl; auto.
Qed.

Lemma SFdiv_pos_nonneg p q :
  nonneg_float (SFdiv 53 1024 (S754_finite false p 0) (S754_finite false q 0)).
Proof.
  unfold SFdiv.
  destruct (SFdiv_core_binary 53 1024 (Z.pos p) 0 (Z.pos q) 0)
    as [[mz ez] lz] eqn:E.
  apply binary_round_aux_nonneg.
  unfold SFdiv_core_binary in E.
  set (m' := match _ - _ - _ with Z0 => _ | Zpos _ => _ | Zneg _ => _ end) in E.
  assert (Hm : 0 <= m').
  { subst m'. destruct (_ - _ - _); try lia. apply Z.shiftl_nonneg. lia. }
  pose proof (Z_div_mod m' (Z.pos q) ltac:(lia)) as Hd.
  destruct (Z.div_eucl m' (Z.pos q)) as [q0 r0]. inversion E; subst.
  destruct Hd as [Hd1 Hd2]. nia.
Qed.

(** [float(s)] never gives a negative number or a NaN. *)
Lemma py_float_nonneg s x : py_float s = Ok x -> nonneg_float x.
Proof.
  unfold py_float.
  destruct (read_decimal s 0 None 0) as [[[m k] [|n]]|]; try discriminate.
  intros [= <-]. unfold float_of_decimal.
  destruct m; simpl; auto. apply SFdiv_pos_nonneg.
Qed.

Lemma round_half_even_shift_nonneg m sh :
  0 <= m -> 0 <= round_half_even_shift m sh.
Proof.
  intros H. unfold round_half_even_shift.
  assert (Hd : 0 <= 2 ^ sh) by (apply Z.pow_nonneg; lia).
  assert (Hq : 0 <= m / 2 ^ sh).
  { destruct (Z.eq_dec (2 ^ sh) 0) as [E|E].
    - rewrite E, Z.div_0_r. lia.
    - apply Z.div_pos; lia. }
  destruct (2 * (m mod 2 ^ sh) ?= 2 ^ sh); try lia.
  destruct (Z.even _); lia.
Qed.

(** [int(round(x))] of a float that is not negative is not negative. *)
Lemma py_int_round_nonneg x r :
  nonneg_float x -> py_int_round x = Ok r -> 0 <= r.
Proof.
  destruct x as [[]|[]| |[] m e]; unfold nonneg_float, py_int_round;
    try contradiction; try discriminate.
  - intros _ [= <-]. lia.
  - intros _. set (a := if 0 <=? e then _ else _).
    assert (Ha : 0 <= a); [subst a | intros [= <-]; exact Ha].
    destruct (0 <=? e).
    + apply Z.mul_nonneg_nonneg; [lia | apply Z.pow_nonneg; lia].
    + apply round_half_even_shift_nonneg. lia.
Qed.


(** ** From matches to the table *)

Lemma canonical_mem k :
  dict_mem empty_pricing k = true <-> In k canonical_sizes.
Proof.
  unfold dict_mem, empty_pricing, canonical_sizes. simpl. split.
  - repeat match goal with
           | |- context [String.eqb k ?s] =>
               destruct (String.eqb_spec k s); [subst; simpl; tauto|]
           end.
    discriminate.
  - intros H. repeat (destruct H as [<-|H]; [reflexivity|]). destruct H.
Qed.

Lemma dict_keys_set_In {V : Type} (d : dict V) k v k' :
  In k' (dict_keys (dict_set d k v)) -> k' = k \/ In k' (dict_keys d).
Proof.
  unfold dict_keys. induction d as [|[k0 v0] d IH]; simpl.
  - intros [<-|[]]. auto.
  - destruct (String.eqb k k0) eqn:E; simpl.
    + intros [<-|H]; auto.
    + intros [<-|H]; auto. destruct (IH H); auto.
Qed.

Lemma dict_get_None_keys {V : Type} (d : dict V) k :
  dict_get d k = None <-> ~ In k (dict_keys d).
Proof.
  unfold dict_keys. induction d as [|[k0 v0] d IH]; simpl.
  - tauto.
  - destruct (String.eqb_spec k k0) as [->|Hne].
    + split; [discriminate | intros H; exfalso; apply H; auto].
    + rewrite IH. split.
      * intros H [E|H']; [congruence | auto].
      * intros H H'. apply H. auto.
Qed.

Lemma dict_keys_set_NoDup {V : Type} (d : dict V) k v :
  NoDup (dict_keys d) -> NoDup (dict_keys (dict_set d k v)).
Proof.
  unfold dict_keys. induction d as [|[k0 v0] d IH]; simpl; intros H.
  - constructor; [simpl; tauto | constructor].
  - inversion H as [|? ? Hnotin Hnd]; subst.
    destruct (String.eqb_spec k k0) as [->|Hne]; simpl.
    + constructor; auto.
    + constructor; auto.
      intros Hin. apply (dict_keys_set_In d k v k0) in Hin.
      destruct Hin as [E|Hin]; [congruence | auto].
Qed.

(** *** The cheapest price per size *)

Lemma keep_cheapest_keys sp k p k' :
  In k' (dict_keys (keep_cheapest sp k p)) -> k' = k \/ In k' (dict_keys sp).
Proof.
  unfold keep_cheapest.
  destruct (dict_get sp k) as [cur|]; [destruct (float_lt p cur)|];
    solve [apply dict_keys_set_In | auto].
Qed.

Lemma keep_cheapest_NoDup sp k p :
  NoDup (dict_keys sp) -> NoDup (dict_keys (keep_cheapest sp k p)).
Proof.
  unfold keep_cheapest.
  destruct (dict_get sp k) as [cur|]; [destruct (float_lt p cur)|];
    solve [apply dict_keys_set_NoDup | auto].
Qed.

Lemma cheapest_of_snoc obs kp sp :
  cheapest_of (obs ++ [kp]) sp = keep_cheapest (cheapest_of obs sp) (fst kp) (snd kp).
Proof. unfold cheapest_of. rewrite fold_left_app. reflexivity. Qed.

Lemma cheapest_of_app obs1 obs2 sp :
  cheapest_of (obs1 ++ obs2) sp = cheapest_of obs2 (cheapest_of obs1 sp).
Proof. unfold cheapest_of. apply fold_left_app. Qed.

Lemma cheapest_of_keys obs : forall sp k,
  In k (dict_keys (cheapest_of obs sp)) ->
  In k (dict_keys sp) \/ In k (map fst obs).
Proof.
  induction obs as [|[k1 p1] obs IH]; intros sp k; simpl; auto.
  intros H. apply IH in H. destruct H as [H|H]; auto.
  apply keep_cheapest_keys in H. simpl in H. destruct H; auto.
Qed.

Lemma cheapest_of_NoDup obs : forall sp,
  NoDup (dict_keys sp) -> NoDup (dict_keys (cheapest_of obs sp)).
Proof.
  induction obs as [|[k1 p1] obs IH]; intros sp H; simpl; auto.
  apply IH. apply keep_cheapest_NoDup. exact H.
Qed.

Lemma prices_for_snoc size obs k p :
  prices_for size (obs ++ [(k, p)]) =
  (prices_for size obs ++ (if String.eqb size k then [p] else []))%list.
Proof.
  unfold prices_for. rewrite filter_app, map_app. simpl.
  destruct (String.eqb size k); reflexivity.
Qed.

(** After a pass from the empty dict, the price kept for a size is a
    cheapest one among those observed for it. *)
Lemma cheapest_of_spec obs size :
  match dict_get (cheapest_of obs []) size with
  | None => prices_for size obs = []
  | Some p => cheapest p (prices_for size obs)
  end.
Proof.
  induction obs as [|[k1 p1] obs IH] using rev_ind; [reflexivity|].
  rewrite cheapest_of_snoc, prices_for_snoc. simpl.
  set (sp := cheapest_of obs []) in *.
  unfold keep_cheapest.
  destruct (String.eqb_spec size k1) as [->|Hne].
  - destruct (dict_get sp k1) as [cur|] eqn:Ecur.
    + destruct IH as [Hin Hmin].
      destruct (float_lt p1 cur) eqn:Elt.
      * rewrite dict_get_set_same. split; [apply in_or_app; simpl; auto|].
        intros q Hq. apply in_app_or in Hq. destruct Hq as [Hq|[<-|[]]].
        -- destruct (float_lt q p1) eqn:Eq; [|reflexivity].
           rewrite <- (Hmin q Hq). symmetry.
           apply (float_lt_trans q p1 cur); assumption.
        -- apply float_lt_irrefl.
      * rewrite Ecur. split; [apply in_or_app; auto|].
        intros q Hq. apply in_app_or in Hq. destruct Hq as [Hq|[<-|[]]]; auto.
    + rewrite dict_get_set_same, IH. simpl. split; [simpl; auto|].
      intros q [<-|[]]. apply float_lt_irrefl.
  - rewrite app_nil_r.
    assert (E : forall d, dict_get (dict_set d k1 p1) size = dict_get d size)
      by (intros d; apply dict_get_set_other; congruence).
    destruct (dict_get sp k1) as [cur|]; [destruct (float_lt p1 cur)|];
      rewrite ?E; exact IH.
Qed.

(** *** Rounding into the table *)

Lemma store_rounded_spec size_prices : forall pricing tbl,
  NoDup (dict_keys size_prices) ->
  (forall k, In k (dict_keys size_prices) -> dict_mem pricing k = true) ->
  store_rounded pricing size_prices = Ok tbl ->
  dict_keys tbl = dict_keys pricing /\
  forall k,
    match dict_get size_prices k with
    | Some p => exists r, py_int_round p = Ok r /\ dict_get tbl k = Some (Some r)
    | None => dict_get tbl k = dict_get pricing k
    end.
Proof.
  unfold store_rounded.
  induction size_prices as [|[k1 p1] sp IH]; intros pricing tbl Hnd Hmem H.
  - simpl in H. injection H as <-. split; [reflexivity|]. intros k. reflexivity.
  - simpl in H. bind_inv H. bind_inv E. injection E as <-.
    simpl in Hnd. inversion Hnd as [|? ? Hnotin Hnd']; subst.
    apply IH in H; auto.
    + destruct H as [Hkeys Hget]. split.
      * rewrite Hkeys. apply dict_keys_set_known. apply Hmem. simpl. auto.
      * intros k. simpl. specialize (Hget k).
        destruct (String.eqb_spec k k1) as [->|Hne].
        -- apply dict_get_None_keys in Hnotin. rewrite Hnotin in Hget.
           rewrite Hget, dict_get_set_same. eauto.
        -- destruct (dict_get sp k); auto.
           rewrite Hget. apply dict_get_set_other. congruence.
    + intros k Hk. apply dict_mem_set. apply Hmem. simpl. auto.
Qed.

Lemma store_rounded_known_eq size_prices : forall pricing,
  (forall k, In k (dict_keys size_prices) -> dict_mem pricing k = true) ->
  store_rounded_known pricing size_prices = store_rounded pricing size_prices.
Proof.
  unfold store_rounded_known, store_rounded.
  induction size_prices as [|[k1 p1] sp IH]; intros pricing Hmem; [reflexivity|].
  simpl. rewrite (Hmem k1) by (simpl; auto).
  destruct (py_int_round p1) as [r|e]; simpl; [|reflexivity].
  apply IH. intros k Hk. apply dict_mem_set. apply Hmem. simpl. auto.
Qed.

Lemma prices_for_In size obs p :
  In p (prices_for size obs) -> In (size, p) obs.
Proof.
  unfold prices_for. rewrite in_map_iff. intros [[k q] [<- H]].
  apply filter_In in H. destruct H as [H E]. simpl in *.
  apply String.eqb_eq in E. subst. exact H.
Qed.

(** The table built from the cheapest prices: the five sizes, each with the
    rounded cheapest observation or [None]. *)
Lemma cheapest_table obs tbl :
  (forall k, In k (map fst obs) -> In k canonical_sizes) ->
  store_rounded empty_pricing (cheapest_of obs []) = Ok tbl ->
  dict_keys tbl = canonical_sizes /\ stores_rounded cheapest obs tbl.
Proof.
  intros Hcanon H.
  assert (Hkeys : forall k, In k (dict_keys (cheapest_of obs [])) ->
                            dict_mem empty_pricing k = true).
  { intros k Hk. apply canonical_mem.
    apply cheapest_of_keys in Hk. destruct Hk as [[]|Hk]. auto. }
  apply store_rounded_spec in H; auto.
  2:{ apply cheapest_of_NoDup. constructor. }
  destruct H as [Hk Hget]. split; [exact Hk|].
  intros size. specialize (Hget size).
  pose proof (cheapest_of_spec obs size) as Hsp.
  unfold dict_get_flat.
  destruct (dict_get (cheapest_of obs []) size) as [p|].
  - destruct Hget as (r & Hr & ->). eauto.
  - rewrite Hget.
    destruct (dict_get empty_pricing size) as [v|] eqn:Ev; [|exact Hsp].
    apply dict_get_In in Ev. simpl in Ev.
    repeat (destruct Ev as [[= <- <-]|Ev]; [exact Hsp|]). destruct Ev.
Qed.

(** ** Each scraper's loop, as a pass over its observations *)

Lemma collect_observations collect observe :
  keeps_cheapest_of collect observe ->
  forall blocks sp0 sp,
    for_each blocks collect sp0 = Ok sp ->
    exists obs, observations observe blocks = Ok obs /\ sp = cheapest_of obs sp0.
Proof.
  intros Hc. induction blocks as [|b bs IH]; intros sp0 sp H; simpl in *.
  - injection H as <-. exists []. auto.
  - bind_inv H. rewrite Hc in E. bind_inv E. injection E as <-.
    apply IH in H. destruct H as (obs & Hobs & ->).
    rewrite E0, Hobs. simpl. destruct a0 as [kp|]; eauto.
Qed.

Lemma observations_tracked observe :
  observes_tracked observe ->
  forall blocks obs, observations observe blocks = Ok obs ->
  forall k p, In (k, p) obs -> In k canonical_sizes /\ nonneg_float p.
Proof.
  intros Ho. induction blocks as [|b bs IH]; intros obs H k p Hin; simpl in H.
  - injection H as <-. destruct Hin.
  - bind_inv H. bind_inv H. injection H as <-.
    destruct a as [[k1 p1]|]; [destruct Hin as [[= -> ->]|Hin]|]; eauto.
Qed.

Lemma size_map_get_tracked w d mapped :
  size_map_get ps_size_map w d = Some mapped ->
  In mapped canonical_sizes /\ truthy (Some mapped) = true.
Proof.
  unfold ps_size_map. simpl.
  repeat match goal with
         | |- context [if ?c then _ else _] =>
             destruct c; [intros [= <-]; simpl; tauto|]
         end.
  discriminate.
Qed.

Lemma ps_collect_cheapest : keeps_cheapest_of ps_collect ps_observe.
Proof.
  intros sp [[w d] price]. unfold ps_collect, ps_observe.
  destruct (py_int w) as [w'|]; cbn [bind]; [|reflexivity].
  destruct (py_int d) as [d'|]; cbn [bind]; [|reflexivity].
  destruct (py_float price) as [x|]; cbn [bind]; [|reflexivity].
  destruct (size_map_get ps_size_map w' d') as [m|] eqn:E; [|reflexivity].
  apply size_map_get_tracked in E. destruct E as [_ ->]. reflexivity.
Qed.

Lemma ps_observe_tracked : observes_tracked ps_observe.
Proof.
  intros [[w d] price] k p. unfold ps_observe. intros H.
  bind_inv H. bind_inv H. bind_inv H.
  destruct (size_map_get ps_size_map a a0) as [m|] eqn:Em; [|discriminate].
  injection H as <- <-. split.
  - apply size_map_get_tracked in Em. tauto.
  - eapply py_float_nonneg; eauto.
Qed.

Lemma direct_collect_cheapest :
  keeps_cheapest_of lockaway_collect_direct direct_observe.
Proof.
  intros sp [[w d] price]. unfold lockaway_collect_direct, direct_observe.
  destruct (py_float price) as [x|]; cbn [bind]; [|reflexivity].
  destruct (dict_mem empty_pricing (size_key w d)); reflexivity.
Qed.

Lemma montgomery_collect_cheapest :
  keeps_cheapest_of montgomery_collect direct_observe.
Proof.
  intros sp [[w d] price]. unfold montgomery_collect, direct_observe.
  destruct (py_float price) as [x|]; cbn [bind]; [|reflexivity].
  destruct (dict_mem empty_pricing (size_key w d)); reflexivity.
Qed.

Lemma direct_observe_tracked : observes_tracked direct_observe.
Proof.
  intros [[w d] price] k p. unfold direct_observe. intros H. bind_inv H.
  destruct (dict_mem empty_pricing (size_key w d)) eqn:Em; [|discriminate].
  injection H as <- <-. split.
  - apply canonical_mem. exact Em.
  - eapply py_float_nonneg; eauto.
Qed.

Lemma lockaway_map_tracked key m :
  dict_get_flat lockaway_map key = Some m ->
  In m canonical_sizes /\ truthy (Some m) = true.
Proof.
  unfold dict_get_flat, lockaway_map. simpl.
  repeat match goal with
         | |- context [if ?c then _ else _] =>
             destruct c; [intros [= <-]; simpl; tauto|]
         | |- context [if ?c then _ else _] =>
             destruct c; [discriminate|]
         end.
  discriminate.
Qed.

Lemma mapped_collect_cheapest :
  keeps_cheapest_of lockaway_collect_mapped lockaway_mapped_observe.
Proof.
  intros sp [[w d] price]. unfold lockaway_collect_mapped, lockaway_mapped_observe.
  destruct (dict_get_flat lockaway_map (size_key w d)) as [m|] eqn:E;
    [|reflexivity].
  apply lockaway_map_tracked in E. destruct E as [_ ->].
  destruct (py_float price); reflexivity.
Qed.

Lemma mapped_observe_tracked : observes_tracked lockaway_mapped_observe.
Proof.
  intros [[w d] price] k p. unfold lockaway_mapped_observe. intros H.
  destruct (dict_get_flat lockaway_map (size_key w d)) as [m|] eqn:Em;
    [|discriminate].
  bind_inv H. injection H as <- <-. split.
  - apply lockaway_map_tracked in Em. tauto.
  - eapply py_float_nonneg; eauto.
Qed.

Lemma woodlands_collect_cheapest :
  keeps_cheapest_of woodlands_collect woodlands_observe.
Proof.
  intros sp [[w d] price]. unfold woodlands_collect, woodlands_observe.
  destruct (py_float price) as [x|]; cbn [bind]; [|reflexivity].
  destruct (dict_mem empty_pricing (woodlands_mapped (size_key w d)));
    reflexivity.
Qed.

Lemma woodlands_observe_tracked : observes_tracked woodlands_observe.
Proof.
  intros [[w d] price] k p. unfold woodlands_observe. intros H. bind_inv H.
  destruct (dict_mem empty_pricing (woodlands_mapped (size_key w d))) eqn:Em;
    [|discriminate].
  injection H as <- <-. split.
  - apply canonical_mem. exact Em.
  - eapply py_float_nonneg; eauto.
Qed.

Lemma tracked_keys obs :
  (forall k p, In (k, p) obs -> In k canonical_sizes /\ nonneg_float p) ->
  forall k, In k (map fst obs) -> In k canonical_sizes.
Proof.
  intros H k Hk. apply in_map_iff in Hk. destruct Hk as [[k' p] [<- Hin]].
  apply (H k' p Hin).
Qed.

Lemma ps_reduce_spec blocks tbl :
  ps_reduce blocks = Ok (Some tbl) ->
  exists obs, observations ps_observe blocks = Ok obs /\ cheapest_result obs tbl.
Proof.
  unfold ps_reduce. intros H. bind_inv H. bind_inv H. injection H as <-.
  apply (collect_observations _ _ ps_collect_cheapest) in E.
  destruct E as (obs & Hobs & ->). exists obs. split; [exact Hobs|].
  pose proof (observations_tracked _ ps_observe_tracked _ _ Hobs) as Ht.
  destruct (cheapest_table obs a0 (tracked_keys obs Ht) E0). repeat split; auto;
    apply (Ht k p H1).
Qed.

Lemma montgomery_reduce_spec blocks tbl :
  montgomery_reduce blocks = Ok (Some tbl) ->
  exists obs, observations direct_observe blocks = Ok obs /\ cheapest_result obs tbl.
Proof.
  unfold montgomery_reduce. intros H. bind_inv H. bind_inv H. injection H as <-.
  apply (collect_observations _ _ montgomery_collect_cheapest) in E.
  destruct E as (obs & Hobs & ->). exists obs. split; [exact Hobs|].
  pose proof (observations_tracked _ direct_observe_tracked _ _ Hobs) as Ht.
  destruct (cheapest_table obs a0 (tracked_keys obs Ht) E0). repeat split; auto;
    apply (Ht k p H1).
Qed.

Lemma woodlands_reduce_spec blocks tbl :
  woodlands_reduce blocks = Ok (Some tbl) ->
  exists obs, observations woodlands_observe blocks = Ok obs /\ cheapest_result obs tbl.
Proof.
  unfold woodlands_reduce. intros H. bind_inv H. bind_inv H. injection H as <-.
  apply (collect_observations _ _ woodlands_collect_cheapest) in E.
  destruct E as (obs & Hobs & ->). exists obs. split; [exact Hobs|].
  pose proof (observations_tracked _ woodlands_observe_tracked _ _ Hobs) as Ht.
  destruct (cheapest_table obs a0 (tracked_keys obs Ht) E0). repeat split; auto;
    apply (Ht k p H1).
Qed.

Lemma lockaway_reduce_spec blocks tbl :
  lockaway_reduce blocks = Ok (Some tbl) ->
  exists obs, lockaway_observations blocks = Ok obs /\ cheapest_result obs tbl.
Proof.
  unfold lockaway_reduce, lockaway_observations. intros H.
  bind_inv H. bind_inv H. bind_inv H. injection H as <-.
  apply (collect_observations _ _ direct_collect_cheapest) in E.
  destruct E as (obs1 & Hobs1 & ->).
  apply (collect_observations _ _ mapped_collect_cheapest) in E0.
  destruct E0 as (obs2 & Hobs2 & ->).
  rewrite <- cheapest_of_app in E1.
  exists (obs1 ++ obs2)%list. rewrite Hobs1, Hobs2. split; [reflexivity|].
  assert (Ht : forall k p, In (k, p) (obs1 ++ obs2) ->
                           In k canonical_sizes /\ nonneg_float p).
  { intros k p Hin. apply in_app_or in Hin. destruct Hin as [Hin|Hin].
    - apply (observations_tracked _ direct_observe_tracked _ _ Hobs1 k p Hin).
    - apply (observations_tracked _ mapped_observe_tracked _ _ Hobs2 k p Hin). }
  rewrite store_rounded_known_eq in E1.
  - destruct (cheapest_table _ a1 (tracked_keys _ Ht) E1). repeat split; auto;
      apply (Ht k p H1).
  - intros k Hk. apply canonical_mem. apply cheapest_of_keys in Hk.
    destruct Hk as [[]|Hk]. apply (tracked_keys _ Ht k Hk).
Qed.

(** *** Honea Egypt: the last match of a size is the one stored *)

Lemma observations_snoc observe bs b obs o :
  observations observe bs = Ok obs ->
  observe b = Ok o ->
  observations observe (bs ++ [b]) =
  Ok (obs ++ match o with Some kp => [kp] | None => [] end)%list.
Proof.
  revert obs. induction bs as [|b0 bs IH]; intros obs H Ho; simpl in *.
  - injection H as <-. rewrite Ho. simpl. destruct o; reflexivity.
  - bind_inv H. bind_inv H. injection H as <-.
    rewrite E, (IH _ E0 Ho). simpl. destruct a; reflexivity.
Qed.

Lemma dict_mem_keys {V : Type} (d : dict V) k :
  dict_mem d k = true <-> In k (dict_keys d).
Proof.
  unfold dict_mem. pose proof (dict_get_None_keys d k) as H.
  destruct (dict_get d k).
  - split; [|reflexivity]. intros _.
    destruct (in_dec string_dec k (dict_keys d)) as [Hin|Hout]; [exact Hin|].
    apply H in Hout. discriminate.
  - split; [discriminate|]. intros Hin. exfalso. apply H; auto.
Qed.

Lemma honea_loop_spec blocks pricing :
  for_each blocks honea_store empty_pricing = Ok pricing ->
  exists obs, observations honea_observe blocks = Ok obs /\
              latest_result obs pricing.
Proof.
  revert pricing. induction blocks as [|[[w d] price] bs IH] using rev_ind;
    intros pricing H.
  - simpl in H. injection H as <-. exists []. split; [reflexivity|].
    split; [reflexivity|]. split.
    + intros size. unfold dict_get_flat, empty_pricing. simpl.
      repeat match goal with
             | |- context [if ?c then _ else _] => destruct c; [reflexivity|]
             end.
      reflexivity.
    + intros k p [].
  - rewrite for_each_app in H. bind_inv H. simpl in H. bind_inv H.
    injection H as <-.
    destruct (IH _ E) as (obs & Hobs & Hkeys & Hst & Htr).
    unfold honea_store in E0.
    assert (Emem : dict_mem a (size_key w d) = dict_mem empty_pricing (size_key w d)).
    { destruct (dict_mem empty_pricing (size_key w d)) eqn:Em.
      - apply dict_mem_keys. rewrite Hkeys. apply canonical_mem. exact Em.
      - destruct (dict_mem a (size_key w d)) eqn:Ea; [|reflexivity].
        apply dict_mem_keys in Ea. rewrite Hkeys in Ea.
        apply canonical_mem in Ea. congruence. }
    rewrite Emem in E0.
    destruct (dict_mem empty_pricing (size_key w d)) eqn:Em.
    + bind_inv E0. bind_inv E0. injection E0 as <-.
      exists (obs ++ [(size_key w d, a1)])%list. split.
      * apply (observations_snoc _ _ _ _ (Some (size_key w d, a1)) Hobs).
        unfold honea_observe. rewrite Em, E1. reflexivity.
      * split; [|split].
        -- rewrite dict_keys_set_known; [exact Hkeys|]. congruence.
        -- intros size. rewrite prices_for_snoc. unfold dict_get_flat.
           rewrite dict_get_set. rewrite (String.eqb_sym size).
           destruct (String.eqb (size_key w d) size).
           ++ exists a1. split; [|exact E2]. exists (prices_for size obs).
              reflexivity.
           ++ rewrite app_nil_r. apply Hst.
        -- intros k p Hin. apply in_app_or in Hin.
           destruct Hin as [Hin|[[= <- <-]|[]]]; [eauto|]. split.
           ++ apply canonical_mem. exact Em.
           ++ eapply py_float_nonneg; eauto.
    + injection E0 as <-. exists obs. split.
      * rewrite <- (app_nil_r obs).
        apply (observations_snoc _ _ _ _ None Hobs).
        unfold honea_observe. rewrite Em. reflexivity.
      * repeat split; auto; apply (Htr k p H).
Qed.

Lemma honea_reduce_spec blocks tbl :
  honea_reduce blocks = Ok (Some tbl) ->
  exists obs, observations honea_observe blocks = Ok obs /\ latest_result obs tbl.
Proof.
  unfold honea_reduce. intros H. bind_inv H. injection H as <-.
  apply honea_loop_spec. exact E.
Qed.

(** ** Every table a scraper returns is well formed *)

Lemma NoDup_keys_get {V : Type} (d : dict V) k v :
  NoDup (dict_keys d) -> In (k, v) d -> dict_get d k = Some v.
Proof.
  unfold dict_keys. induction d as [|[k0 v0] d IH]; simpl; intros Hnd Hin.
  - destruct Hin.
  - inversion Hnd as [|? ? Hnotin Hnd']; subst.
    destruct Hin as [[= -> ->]|Hin].
    + rewrite String.eqb_refl. reflexivity.
    + destruct (String.eqb_spec k k0) as [->|Hne]; [|auto].
      exfalso. apply Hnotin. apply in_map_iff. exists (k0, v). auto.
Qed.

Lemma canonical_sizes_NoDup : NoDup canonical_sizes.
Proof.
  unfold canonical_sizes.
  repeat (constructor; [simpl; intros H;
                        repeat (destruct H as [H|H]; [discriminate|]); exact H|]).
  constructor.
Qed.

Lemma stored_table_ok select obs tbl :
  (forall p ps, select p ps -> In p ps) ->
  dict_keys tbl = canonical_sizes ->
  stores_rounded select obs tbl ->
  (forall k p, In (k, p) obs -> In k canonical_sizes /\ nonneg_float p) ->
  table_ok tbl.
Proof.
  intros Hsel Hkeys Hst Htr. split; [exact Hkeys|].
  apply Forall_forall. intros [k [v|]] Hin; simpl; [|exact I].
  apply NoDup_keys_get in Hin; [|rewrite Hkeys; apply canonical_sizes_NoDup].
  specialize (Hst k). unfold dict_get_flat in Hst. rewrite Hin in Hst.
  destruct Hst as (p & Hp & Hr).
  apply Hsel, prices_for_In, Htr in Hp.
  eapply py_int_round_nonneg; [apply Hp | exact Hr].
Qed.

Lemma cheapest_result_ok obs tbl : cheapest_result obs tbl -> table_ok tbl.
Proof.
  intros (Hk & Hst & Htr).
  apply (stored_table_ok cheapest obs tbl); auto.
  intros p ps [Hin _]. exact Hin.
Qed.

Lemma latest_result_ok obs tbl : latest_result obs tbl -> table_ok tbl.
Proof.
  intros (Hk & Hst & Htr).
  apply (stored_table_ok latest obs tbl); auto.
  intros p ps [before ->]. apply in_or_app. simpl. auto.
Qed.

Lemma empty_pricing_ok : table_ok empty_pricing.
Proof.
  split; [reflexivity|]. unfold empty_pricing.
  repeat (constructor; [exact I|]). constructor.
Qed.

(** ** The loop over the targets *)

Lemma dict_get_json_of_pricing tbl size :
  dict_get (map (fun kv => (fst kv, json_of_price (snd kv))) tbl) size
  = option_map json_of_price (dict_get tbl size).
Proof.
  induction tbl as [|[k v] tbl IHt]; simpl; [reflexivity|].
  destruct (String.eqb size k); auto.
Qed.

Lemma compare_same name tbl : forall sizes changes,
  for_each sizes (compare_size name (json_of_pricing tbl) tbl) changes = Ok changes.
Proof.
  induction sizes as [|size sizes IH]; intros changes; simpl; [reflexivity|].
  unfold compare_size at 1. simpl. unfold dict_get_flat.
  rewrite dict_get_json_of_pricing.
  destruct (dict_get tbl size) as [[n|]|]; simpl;
    rewrite ?Z.eqb_refl; simpl; apply IH.
Qed.

(** Changes are appended, never removed, and each new one carries the name
    given to [compare_size]. *)
Lemma compare_size_changes name old new : forall sizes changes changes',
  for_each sizes (compare_size name old new) changes = Ok changes' ->
  exists added, changes' = (changes ++ added)%list /\
                Forall (fun ch => ch_name ch = name) added.
Proof.
  induction sizes as [|size sizes IH]; intros changes changes' H; simpl in H.
  - injection H as <-. exists []. rewrite app_nil_r. auto.
  - bind_inv H. unfold compare_size in E. bind_inv E.
    destruct (py_ne a0 (dict_get_flat new size)); injection E as <-.
    + apply IH in H. destruct H as (added & -> & Hall).
      eexists. rewrite <- app_assoc. split; [reflexivity|].
      constructor; [reflexivity | exact Hall].
    + apply IH in H. exact H.
Qed.

(** One turn of the loop, by what the scraper returned. *)
Lemma scrape_target_skip w existing updated changes t :
  scraped_by w t = None \/ scraped_by w t = Some (Ok None) ->
  scrape_target w existing (updated, changes) t =
  Ok ((updated ++ [(t_name t, old_pricing_of existing (t_name t))])%list, changes).
Proof.
  unfold scraped_by, scrape_target.
  destruct (t_scraper t) as [s|]; intros [H|H]; try discriminate;
    [injection H as ->|]; reflexivity.
Qed.

Lemma scrape_target_ok w existing st st' t :
  scrape_target w existing st t = Ok st' ->
  (scraped_by w t = None \/ exists r, scraped_by w t = Some (Ok r)) /\
  fst st' = (fst st ++ [(t_name t, new_pricing_of w existing t)])%list /\
  exists added,
    snd st' = (snd st ++ added)%list /\
    Forall (fun ch => ch_name ch = t_name t) added /\
    (added <> [] -> exists tbl, scraped_by w t = Some (Ok (Some tbl))).
Proof.
  destruct st as [updated changes].
  unfold scrape_target, new_pricing_of, scraped_by.
  destruct (t_scraper t) as [s|].
  - intros H. bind_inv H. rewrite E. destruct a as [tbl|].
    + bind_inv H. injection H as <-. simpl.
      apply compare_size_changes in E0. destruct E0 as (added & -> & Hall).
      split; [eauto|]. split; [reflexivity|]. exists added. eauto.
    + injection H as <-. simpl. split; [eauto|]. split; [reflexivity|].
      exists []. rewrite app_nil_r. repeat split; auto. congruence.
  - intros [= <-]. simpl. split; [auto|]. split; [reflexivity|].
    exists []. rewrite app_nil_r. repeat split; auto. congruence.
Qed.

(** The whole loop: one entry per target, in order, and only changes named
    after a target whose scraper returned a table. *)
Lemma scrape_loop_ok w existing : forall targets st st',
  for_each targets (scrape_target w existing) st = Ok st' ->
  (forall t, In t targets ->
     scraped_by w t = None \/ exists r, scraped_by w t = Some (Ok r)) /\
  fst st' = (fst st ++ map (fun t => (t_name t, new_pricing_of w existing t))
                           targets)%list /\
  exists added,
    snd st' = (snd st ++ added)%list /\
    forall ch, In ch added ->
      exists t tbl, In t targets /\ ch_name ch = t_name t /\
                    scraped_by w t = Some (Ok (Some tbl)).
Proof.
  induction targets as [|t ts IH]; intros st st' H; simpl in H.
  - injection H as <-. split; [intros t []|]. split.
    + simpl. rewrite app_nil_r. reflexivity.
    + exists []. rewrite app_nil_r. split; [reflexivity | intros ch []].
  - bind_inv H. apply scrape_target_ok in E.
    destruct E as (Hs & Hu & added1 & Hc & Hnames & Hsome).
    apply IH in H. destruct H as (Hs' & Hu' & added2 & Hc' & Hnames').
    split; [|split].
    + intros t' [<-|Hin]; auto.
    + rewrite Hu', Hu. simpl. rewrite <- app_assoc. reflexivity.
    + exists (added1 ++ added2)%list. split.
      * rewrite Hc', Hc, app_assoc. reflexivity.
      * intros ch Hin. apply in_app_or in Hin. destruct Hin as [Hin|Hin].
        -- destruct Hsome as [tbl Htbl].
           { intros ->. destruct Hin. }
           exists t, tbl. rewrite Forall_forall in Hnames.
           repeat split; simpl; auto.
        -- destruct (Hnames' ch Hin) as (t' & tbl & Hin' & Hn & Hsc).
           exists t', tbl. simpl. auto.
Qed.

(** When the store already holds what each scraper returns, the loop
    reports nothing. *)
Lemma scrape_loop_stable w existing : forall targets updated changes,
  (forall t, In t targets ->
     scraped_by w t = None \/ scraped_by w t = Some (Ok None) \/
     exists tbl, scraped_by w t = Some (Ok (Some tbl)) /\
                 old_pricing_of existing (t_name t) = json_of_pricing tbl) ->
  exists updated',
    for_each targets (scrape_target w existing) (updated, changes)
    = Ok (updated', changes).
Proof.
  induction targets as [|t ts IH]; intros updated changes H; cbn [for_each].
  - eauto.
  - destruct (H t (or_introl eq_refl)) as [Hs|[Hs|(tbl & Hs & Hold)]].
    + rewrite scrape_target_skip by auto. cbn [bind]. apply IH.
      intros t' Hin. apply H. simpl. auto.
    + rewrite scrape_target_skip by auto. cbn [bind]. apply IH.
      intros t' Hin. apply H. simpl. auto.
    + unfold scrape_target at 1. unfold scraped_by in Hs.
      destruct (t_scraper t) as [s|]; [|discriminate].
      injection Hs as Hs. rewrite Hs. cbn [bind].
      rewrite Hold, compare_same. cbn [bind]. apply IH.
      intros t' Hin. apply H. simpl. auto.
Qed.

(** ** The lookup [existing] *)

Lemma index_competitor_ok existing c existing' :
  index_competitor existing c = Ok existing' ->
  existing' = existing \/
  exists n fields, c = JDict fields /\ dict_get fields "name" = Some (JStr n) /\
                   existing' = dict_set existing n fields.
Proof.
  unfold index_competitor. intros H. bind_inv H.
  destruct c as [| | | | | |fields]; simpl in E; try discriminate.
  destruct (dict_get fields "name") as [v|] eqn:En; [|discriminate].
  injection E as <-.
  destruct v; try discriminate; injection H as <-; auto.
  right. eexists _, _. eauto.
Qed.

Lemma existing_sound items : forall start existing,
  for_each items index_competitor start = Ok existing ->
  forall n c, dict_get existing n = Some c ->
    dict_get start n = Some c \/
    (In (JDict c) items /\ dict_get c "name" = Some (JStr n)).
Proof.
  induction items as [|c0 items IH]; intros start existing H n c Hget; simpl in H.
  - injection H as <-. auto.
  - bind_inv H. destruct (IH _ _ H n c Hget) as [Hs|[Hin Hn]].
    + apply index_competitor_ok in E.
      destruct E as [->|(n0 & fields & -> & Hname & ->)]; auto.
      rewrite dict_get_set in Hs.
      destruct (String.eqb_spec n0 n) as [->|Hne]; auto.
      injection Hs as <-. right. simpl. auto.
    + right. simpl. auto.
Qed.

Lemma existing_complete items : forall start existing,
  for_each items index_competitor start = Ok existing ->
  forall n, (dict_get start n <> None \/
             exists c, In (JDict c) items /\ dict_get c "name" = Some (JStr n)) ->
            dict_get existing n <> None.
Proof.
  induction items as [|c0 items IH]; intros start existing H n Hn; simpl in H.
  - injection H as <-. destruct Hn as [Hn|(c & [] & _)]. exact Hn.
  - bind_inv H. apply (IH _ _ H). pose proof E as E'.
    apply index_competitor_ok in E.
    destruct Hn as [Hn|(c & [->|Hin] & Hname)].
    + left. destruct E as [->|(n0 & fields & -> & _ & ->)]; auto.
      rewrite dict_get_set. destruct (String.eqb n0 n); congruence.
    + left. unfold index_competitor in E'. simpl in E'. rewrite Hname in E'.
      simpl in E'. injection E' as <-. rewrite dict_get_set_same. discriminate.
    + right. eauto.
Qed.

Lemma build_existing_filed data existing :
  build_existing data = Ok existing -> filed_by_name existing.
Proof.
  unfold build_existing. intros H. bind_inv H. intros n c Hget.
  destruct (existing_sound _ _ _ H n c Hget) as [Hs|[_ Hn]];
    [discriminate | exact Hn].
Qed.

Lemma entry_fields_name existing u :
  filed_by_name existing ->
  dict_get (entry_fields existing u) "name" = Some (JStr (fst u)).
Proof.
  intros Hf. unfold entry_fields.
  destruct (dict_get existing (fst u)) as [old|] eqn:E; [|reflexivity].
  rewrite dict_get_set_other by discriminate. apply Hf. exact E.
Qed.

Lemma entry_fields_pricing existing u :
  dict_get (entry_fields existing u) "pricing" = Some (snd u).
Proof.
  unfold entry_fields.
  destruct (dict_get existing (fst u)) as [old|]; [|reflexivity].
  apply dict_get_set_same.
Qed.

Lemma merge_competitor_fields existing u :
  merge_competitor existing u = JDict (entry_fields existing u).
Proof. destruct u as [name pricing]. unfold merge_competitor, entry_fields. simpl.
  destruct (dict_get existing name); reflexivity.
Qed.

(** Loading what a run wrote: each entry is filed under its target's name. *)
Lemma index_written existing :
  filed_by_name existing ->
  forall updated start,
    for_each (map (merge_competitor existing) updated) index_competitor start
    = Ok (index_entries existing updated start).
Proof.
  intros Hf. induction updated as [|u us IH]; intros start; simpl; [reflexivity|].
  unfold index_competitor at 1. rewrite merge_competitor_fields.
  cbn [json_getitem]. rewrite (entry_fields_name _ _ Hf). cbn [bind].
  apply IH.
Qed.

Lemma index_entries_other existing n : forall updated start,
  ~ In n (map fst updated) ->
  dict_get (index_entries existing updated start) n = dict_get start n.
Proof.
  induction updated as [|u us IH]; intros start Hn; simpl; [reflexivity|].
  unfold index_entries in *. simpl. rewrite IH.
  - apply dict_get_set_other. intros E. apply Hn. simpl. auto.
  - intros Hin. apply Hn. simpl. auto.
Qed.

Lemma index_entries_get existing : forall updated start u,
  NoDup (map fst updated) -> In u updated ->
  dict_get (index_entries existing updated start) (fst u)
  = Some (entry_fields existing u).
Proof.
  induction updated as [|u0 us IH]; intros start u Hnd Hin; [destruct Hin|].
  simpl in Hnd. inversion Hnd as [|? ? Hnotin Hnd']; subst.
  destruct Hin as [->|Hin].
  - unfold index_entries. simpl.
    change (fold_left _ us ?s) with (index_entries existing us s).
    rewrite index_entries_other by exact Hnotin. apply dict_get_set_same.
  - unfold index_entries. simpl. apply IH; auto.
Qed.

(** ** A run that returns *)

Lemma main_with_ok targets w f now out changes :
  main_with targets w f now = Ok (out, changes) ->
  exists d existing updated,
    load_data f = Ok (JDict d) /\
    build_existing (JDict d) = Ok existing /\
    for_each targets (scrape_target w existing) ([], []) = Ok (updated, changes) /\
    out = JDict (dict_set (dict_set d "lastUpdated" (JStr now)) "competitors"
                   (JList (map (merge_competitor existing) updated))).
Proof.
  unfold main_with. intros H. bind_inv H. bind_inv H. bind_inv H.
  destruct a1 as [updated changes']. destruct a as [| | | | | |d]; try discriminate.
  injection H as <- <-. exists d, a0, updated. auto.
Qed.

Lemma competitors_of_written d now full :
  competitors_of (JDict (dict_set (dict_set d "lastUpdated" (JStr now))
                           "competitors" (JList full))) = Ok full.
Proof.
  unfold competitors_of. simpl. rewrite dict_get_set_same. reflexivity.
Qed.

Lemma scrape_targets_NoDup : NoDup (map t_name scrape_targets).
Proof.
  unfold scrape_targets. simpl.
  repeat (constructor; [simpl; intros H;
                        repeat (destruct H as [H|H]; [discriminate|]); exact H|]).
  constructor.
Qed.

(** The shape of what a run writes: one entry per target, in the order of
    the targets, each with the fields of its previous entry and the pricing
    the loop chose; the changes are named after targets whose scraper
    returned a table. *)
Lemma run_shape targets w f now out changes :
  main_with targets w f now = Ok (out, changes) ->
  exists d existing,
    load_data f = Ok (JDict d) /\
    build_existing (JDict d) = Ok existing /\
    competitors_of out
    = Ok (map (fun t => JDict (entry_fields existing
                                 (t_name t, new_pricing_of w existing t)))
              targets) /\
    (forall t, In t targets ->
       scraped_by w t = None \/ exists r, scraped_by w t = Some (Ok r)) /\
    (forall ch, In ch changes ->
       exists t tbl, In t targets /\ ch_name ch = t_name t /\
                     scraped_by w t = Some (Ok (Some tbl))).
Proof.
  intros H. apply main_with_ok in H.
  destruct H as (d & existing & updated & Hload & Hex & Hloop & ->).
  apply scrape_loop_ok in Hloop. simpl in Hloop.
  destruct Hloop as (Hs & -> & added & -> & Hch).
  exists d, existing. repeat split; auto.
  rewrite competitors_of_written, map_map. f_equal.
  apply map_ext. intros t. apply merge_competitor_fields.
Qed.

Lemma main_with_idempotent targets w f now now' out changes :
  NoDup (map t_name targets) ->
  main_with targets w f now = Ok (out, changes) ->
  exists out', main_with targets w (File (Ok out)) now' = Ok (out', []).
Proof.
  intros Hnd H. apply main_with_ok in H.
  destruct H as (d & existing & updated & Hload & Hex & Hloop & ->).
  pose proof (build_existing_filed _ _ Hex) as Hfiled.
  apply scrape_loop_ok in Hloop. simpl in Hloop.
  destruct Hloop as (Hs & -> & _).
  set (updated := map (fun t => (t_name t, new_pricing_of w existing t)) targets).
  assert (Hnd' : NoDup (map fst updated)).
  { subst updated. rewrite map_map. simpl. exact Hnd. }
  unfold main_with. cbn [load_data bind]. unfold build_existing.
  rewrite competitors_of_written. cbn [bind].
  rewrite (index_written _ Hfiled). cbn [bind].
  destruct (scrape_loop_stable w (index_entries existing updated []) targets [] [])
    as [updated' Hloop'].
  { intros t Hin. destruct (Hs t Hin) as [Hn|[[tbl|] Hr]]; auto.
    right. right. exists tbl. split; [exact Hr|].
    unfold old_pricing_of.
    assert (Hin' : In (t_name t, new_pricing_of w existing t) updated)
      by (subst updated; apply in_map_iff; exists t; auto).
    pose proof (index_entries_get existing updated [] _ Hnd' Hin') as Hg.
    cbn [fst] in Hg. rewrite Hg, entry_fields_pricing. cbn [snd].
    unfold new_pricing_of. rewrite Hr. reflexivity. }
  rewrite Hloop'. cbn [bind]. eauto.
Qed.

(** ** Fetching the page *)

Lemma with_page_no_page w u body :
  not_html (http_get w u) = true -> with_page w (Some u) body = ([], Ok None).
Proof. unfold with_page, fetch. intros ->. reflexivity. Qed.

Lemma with_page_page w u page body :
  http_get w u = Some page -> page <> "" ->
  with_page w (Some u) body = body page.
Proof.
  unfold with_page, fetch. intros -> Hne.
  destruct page; [congruence | reflexivity].
Qed.

Lemma scrapers_no_page w u s :
  In s scrapers -> not_html (http_get w u) = true -> s w (Some u) = ([], Ok None).
Proof.
  intros Hin Hno. unfold scrapers in Hin. simpl in Hin.
  repeat (destruct Hin as [<-|Hin]; [apply with_page_no_page; exact Hno|]).
  destruct Hin.
Qed.

Lemma target_scraper_known t s :
  In t scrape_targets -> t_scraper t = Some s -> In s scrapers.
Proof.
  unfold scrape_targets, scrapers. simpl. intros Hin.
  repeat (destruct Hin as [<-|Hin];
          [simpl; intros [= <-]; tauto || discriminate|]).
  destruct Hin.
Qed.

Lemma target_without_url t :
  In t scrape_targets -> t_url t = None -> t_scraper t = None.
Proof.
  unfold scrape_targets. simpl. intros Hin.
  repeat (destruct Hin as [<-|Hin]; [simpl; intros H; discriminate || reflexivity|]).
  destruct Hin.
Qed.

(** A target without scraper, or whose page could not be read, is skipped. *)
Lemma target_skipped w t :
  In t scrape_targets ->
  t_scraper t = None \/ t_url t = None \/
  (exists u, t_url t = Some u /\ not_html (http_get w u) = true) ->
  scraped_by w t = None \/ scraped_by w t = Some (Ok None).
Proof.
  intros Hin H. unfold scraped_by.
  destruct (t_scraper t) as [s|] eqn:Es; [|auto].
  destruct H as [H|[H|(u & Hu & Hno)]].
  - discriminate.
  - apply (target_without_url t Hin) in H. congruence.
  - right. rewrite Hu, (scrapers_no_page w u s); auto.
    apply (target_scraper_known t s Hin Es).
Qed.

Lemma NoDup_map_inj {A B : Type} (f : A -> B) (l : list A) x y :
  NoDup (map f l) -> In x l -> In y l -> f x = f y -> x = y.
Proof.
  induction l as [|a l IH]; simpl; intros Hnd Hx Hy E; [destruct Hx|].
  inversion Hnd as [|? ? Hnotin Hnd']; subst.
  destruct Hx as [->|Hx], Hy as [->|Hy]; auto.
  - exfalso. apply Hnotin. rewrite E. apply in_map. exact Hy.
  - exfalso. apply Hnotin. rewrite <- E. apply in_map. exact Hx.
Qed.

(** A competitor that was skipped keeps its pricing and is not reported. *)
Lemma carried_forward w f now out changes t :
  main w f now = Ok (out, changes) ->
  In t scrape_targets ->
  scraped_by w t = None \/ scraped_by w t = Some (Ok None) ->
  carries_forward f out changes (t_name t).
Proof.
  intros H Hin Hskip. apply run_shape in H.
  destruct H as (d & existing & Hload & Hex & Hout & Hs & Hch).
  pose proof (build_existing_filed _ _ Hex) as Hfiled.
  assert (Hsame : forall t', In t' scrape_targets -> t_name t' = t_name t -> t' = t).
  { intros t' Hin' E.
    apply (NoDup_map_inj t_name scrape_targets); auto using scrape_targets_NoDup. }
  split.
  - intros ch Hc E. destruct (Hch ch Hc) as (t' & tbl & Hin' & Hn & Hsc).
    rewrite (Hsame t' Hin') in Hsc by congruence.
    destruct Hskip as [Hk|Hk]; congruence.
  - exists (JDict d), existing. eexists. repeat split; [exact Hload|exact Hex|exact Hout| |].
    + exists (entry_fields existing (t_name t, new_pricing_of w existing t)).
      split.
      * apply in_map_iff. exists t. auto.
      * apply (entry_fields_name existing (t_name t, _) Hfiled).
    + intros e He Hname. apply in_map_iff in He.
      destruct He as (t' & [= <-] & Hin').
      rewrite (entry_fields_name existing (t_name t', _) Hfiled) in Hname.
      injection Hname as Hname. apply (Hsame t' Hin') in Hname. subst t'.
      rewrite entry_fields_pricing. simpl. unfold new_pricing_of.
      destruct Hskip as [->| ->]; reflexivity.
Qed.

(** ** When the loop returns *)

Lemma compare_size_total name d new : forall sizes changes,
  exists changes',
    for_each sizes (compare_size name (JDict d) new) changes = Ok changes'.
Proof.
  induction sizes as [|size sizes IH]; intros changes; cbn [for_each]; [eauto|].
  unfold compare_size at 1. cbn [json_get bind].
  destruct (py_ne _ _); cbn [bind]; apply IH.
Qed.

Lemma scrape_loop_total w existing : forall targets st,
  (forall t, In t targets ->
     scraped_by w t = None \/ exists r, scraped_by w t = Some (Ok r)) ->
  (forall t, In t targets -> exists d, old_pricing_of existing (t_name t) = JDict d) ->
  exists st', for_each targets (scrape_target w existing) st = Ok st'.
Proof.
  induction targets as [|t ts IH]; intros [updated changes] Hs Hold;
    cbn [for_each]; [eauto|].
  assert (Hstep : exists st1, scrape_target w existing (updated, changes) t = Ok st1).
  { destruct (Hs t (or_introl eq_refl)) as [Hn|[[tbl|] Hr]].
    - rewrite scrape_target_skip by auto. eauto.
    - unfold scrape_target. unfold scraped_by in Hr.
      destruct (t_scraper t) as [s|]; [|discriminate].
      injection Hr as ->. cbn [bind].
      destruct (Hold t (or_introl eq_refl)) as [d ->].
      destruct (compare_size_total (t_name t) d tbl canonical_sizes changes)
        as [changes' ->].
      cbn [bind]. eauto.
    - rewrite scrape_target_skip by auto. eauto. }
  destruct Hstep as [st1 ->]. cbn [bind]. apply IH.
  - intros t' Hin. apply Hs. simpl. auto.
  - intros t' Hin. apply Hold. simpl. auto.
Qed.

(** ** What the scrapers return *)

Lemma with_page_table w url body tbl :
  snd (with_page w url body) = Ok (Some tbl) ->
  exists page, snd (body page) = Ok (Some tbl).
Proof.
  unfold with_page. destruct (fetch w url) as [html|e]; [|discriminate].
  destruct (not_html html); [discriminate|].
  destruct html as [page|]; [eauto | discriminate].
Qed.

Lemma scraper_table_ok s w url tbl :
  In s scrapers -> snd (s w url) = Ok (Some tbl) -> table_ok tbl.
Proof.
  unfold scrapers. simpl. intros [<-|[<-|[<-|[<-|[<-|[]]]]]] H;
    apply with_page_table in H; destruct H as [page H].
  - simpl in H. apply lockaway_reduce_spec in H. destruct H as (obs & _ & H).
    apply (cheapest_result_ok obs tbl H).
  - assert (Hps : forall blocks, ps_reduce blocks = Ok (Some tbl) -> table_ok tbl).
    { intros blocks Hb. apply ps_reduce_spec in Hb. destruct Hb as (obs & _ & Hb).
      apply (cheapest_result_ok obs tbl Hb). }
    destruct (findall3 w ps_dims_then_price page) as [|b bs]; [|apply (Hps _ H)].
    destruct (map _ (findall3 w ps_price_then_dims page)) as [|b bs];
      [|apply (Hps _ H)].
    destruct (findall1 w ps_price_attr page); [|apply (Hps _ H)].
    simpl in H. injection H as <-. apply empty_pricing_ok.
  - simpl in H. apply honea_reduce_spec in H. destruct H as (obs & _ & H).
    apply (latest_result_ok obs tbl H).
  - simpl in H. apply montgomery_reduce_spec in H. destruct H as (obs & _ & H).
    apply (cheapest_result_ok obs tbl H).
  - simpl in H. apply woodlands_reduce_spec in H. destruct H as (obs & _ & H).
    apply (cheapest_result_ok obs tbl H).
Qed.

Lemma table_ok_pricing tbl : table_ok tbl -> pricing_ok (json_of_pricing tbl).
Proof.
  intros [Hk Hv]. exists tbl. split; [reflexivity|]. split; [|exact Hv].
  rewrite Hk. apply Permutation_refl.
Qed.


(** ** The number model against CPython *)

Example float_41 : py_float "41.0" = Ok (S754_finite false 5770237022568448 (-47)).
Proof. vm_compute. reflexivity. Qed.

Example float_checks :
  py_float "0.01" = Ok (S754_finite false 5764607523034235 (-59)) /\
  py_float "59.99" = Ok (S754_finite false 8442841926436127 (-47)) /\
  py_float "40.50" = Ok (S754_finite false 5699868278390784 (-47)) /\
  py_float "123456789012345678901234567890.12" = Ok (S754_finite false 7017705969039166 44) /\
  py_float "5." = Ok (S754_finite false 5629499534213120 (-50)) /\
  py_float ".5" = Ok (S754_finite false 4503599627370496 (-53)) /\
  py_float "." = Raise ValueError /\
  py_float "1.2.3" = Raise ValueError /\
  (x <- py_float "40.50" ;; py_int_round x) = Ok 40 /\
  (x <- py_float "41.50" ;; py_int_round x) = Ok 42 /\
  (x <- py_float "59.99" ;; py_int_round x) = Ok 60 /\
  (x <- py_float "123456789012345678901234567890.12" ;; py_int_round x) = Ok 123456789012345677877719597056.
Proof. vm_compute. repeat split; reflexivity. Qed.


Example float_rounding :
  (* a tie between two floats goes to the even mantissa: 2^53 + 1 *)
  py_float "9007199254740993" = Ok (S754_finite false 4503599627370496 1) /\
  (* the float nearest to this literal is 41.5, which then rounds to 42 *)
  (x <- py_float "41.4999999999999999999" ;; py_int_round x) = Ok 42 /\
  (x <- py_float "2.5" ;; py_int_round x) = Ok 2 /\
  (x <- py_float "3.5" ;; py_int_round x) = Ok 4 /\
  (x <- py_float "0.00" ;; py_int_round x) = Ok 0.
Proof. vm_compute. repeat split; reflexivity. Qed.

(** ** The merge on stores that are not a list of distinct targets *)

(** Two entries of the same name: the lookup keeps the second, and the
    written entry has its fields. *)
Example same_name_twice :
  exists out,
    main offline_world (File (Ok duplicate_store)) "2026-01-02 06:00 UTC"
      = Ok (out, []) /\
    competitors_of out =
    Ok (JDict [("name", JStr "Lockaway Storage"); ("phone", JStr "2");
               ("pricing", json_of_pricing empty_pricing)]
        :: map (fun t => JDict [("name", JStr (t_name t));
                                ("pricing", json_of_pricing empty_pricing)])
               (tl scrape_targets)).
Proof. eexists. split; vm_compute; reflexivity. Qed.

(** An entry whose name is not a target is not written back. *)
Example unknown_competitor_left_out :
  exists out,
    main offline_world (File (Ok closed_down_store)) "2026-01-02 06:00 UTC"
      = Ok (out, []) /\
    competitors_of out =
    Ok (map (fun t => JDict [("name", JStr (t_name t));
                             ("pricing", json_of_pricing empty_pricing)])
            scrape_targets).
Proof. eexists. split; vm_compute; reflexivity. Qed.

(** ** A scraper that raises *)

(** [float("1.2.3")] raises [ValueError] inside [scrape_public_storage];
    nothing catches it and the run stops. *)
Example bad_price_stops_the_run :
  snd (scrape_public_storage bad_price_world (Some public_storage_url))
    = Raise ValueError /\
  main bad_price_world NoFile "2026-01-02 06:00 UTC" = Raise ValueError.
Proof. split; vm_compute; reflexivity. Qed.

(** ** The loop and the lookup, case by case *)

Lemma compare_sizes_exact name old new : forall sizes changes,
  for_each sizes (compare_size name (JDict old) new) changes =
  Ok (changes ++
      flat_map
        (fun size =>
           let old_val := match dict_get old size with
                          | Some v => v
                          | None => JNull
                          end in
           let new_val := dict_get_flat new size in
           if py_ne old_val new_val
           then [ {| ch_name := name; ch_size := size;
                     ch_old := old_val; ch_new := new_val |} ]
           else [])
        sizes)%list.
Proof.
  induction sizes as [|size sizes IH]; intros changes; cbn [for_each flat_map].
  - rewrite app_nil_r. reflexivity.
  - unfold compare_size at 1. cbn [json_get bind].
    destruct (py_ne _ _); cbn [bind]; rewrite IH.
    + rewrite <- app_assoc. reflexivity.
    + reflexivity.
Qed.

Lemma compare_non_object name old_pricing new changes :
  (forall old, old_pricing <> JDict old) ->
  for_each canonical_sizes (compare_size name old_pricing new) changes
  = Raise AttributeError.
Proof.
  intros H. unfold canonical_sizes. cbn [for_each]. unfold compare_size at 1.
  destruct old_pricing; try reflexivity. exfalso. apply (H d). reflexivity.
Qed.

Lemma json_object_dec (v : json) :
  (exists d, v = JDict d) \/ (forall d, v <> JDict d).
Proof. destruct v; try (right; discriminate). left. eauto. Qed.

(** One turn of the loop, case by case. *)
Lemma scrape_target_exact w existing updated changes t :
  scrape_target w existing (updated, changes) t =
  match scraped_by w t with
  | Some (Raise e) => Raise e
  | Some (Ok (Some tbl)) =>
      match old_pricing_of existing (t_name t) with
      | JDict old =>
          Ok ((updated ++ [(t_name t, json_of_pricing tbl)])%list,
              (changes ++ changes_for (t_name t) old tbl)%list)
      | _ => Raise AttributeError
      end
  | _ =>
      Ok ((updated ++ [(t_name t, old_pricing_of existing (t_name t))])%list,
          changes)
  end.
Proof.
  unfold scrape_target, scraped_by.
  destruct (t_scraper t) as [s|]; [|reflexivity].
  destruct (snd (s w (t_url t))) as [[tbl|]|e]; cbn [bind]; try reflexivity.
  destruct (json_object_dec (old_pricing_of existing (t_name t))) as [[old ->]|Hno].
  - rewrite compare_sizes_exact. reflexivity.
  - rewrite compare_non_object by exact Hno.
    destruct (old_pricing_of existing (t_name t)); try reflexivity.
    exfalso. apply (Hno d). reflexivity.
Qed.

Lemma scrape_loop_changes w existing : forall targets updated changes st',
  for_each targets (scrape_target w existing) (updated, changes) = Ok st' ->
  snd st' = (changes ++ flat_map (target_changes w existing) targets)%list.
Proof.
  induction targets as [|t ts IH]; intros updated changes st' H;
    cbn [for_each flat_map] in *.
  - injection H as <-. simpl. rewrite app_nil_r. reflexivity.
  - rewrite scrape_target_exact in H. unfold target_changes at 1.
    destruct (scraped_by w t) as [[[tbl|]|e]|]; cbn [bind] in H;
      try discriminate;
      try (apply IH in H; rewrite H; reflexivity).
    destruct (old_pricing_of existing (t_name t)); try discriminate.
    cbn [bind] in H. apply IH in H. rewrite H, app_assoc. reflexivity.
Qed.

Lemma index_competitor_exact existing c :
  index_competitor existing c =
  match index_error c with
  | Some e => Raise e
  | None =>
      match c with
      | JDict fields =>
          match dict_get fields "name" with
          | Some (JStr n) => Ok (dict_set existing n fields)
          | _ => Ok existing
          end
      | _ => Ok existing
      end
  end.
Proof.
  unfold index_competitor, index_error.
  destruct c as [| | | | | |fields]; try reflexivity.
  cbn [json_getitem]. destruct (dict_get fields "name") as [v|]; [|reflexivity].
  cbn [bind]. destruct v; reflexivity.
Qed.

Lemma index_all_raises items : forall start e,
  for_each items index_competitor start = Raise e <->
  exists before c after,
    items = (before ++ c :: after)%list /\
    Forall (fun c => index_error c = None) before /\
    index_error c = Some e.
Proof.
  induction items as [|c0 items IH]; intros start e; cbn [for_each].
  - split; [discriminate|]. intros (before & c & after & H & _).
    destruct before; discriminate.
  - rewrite index_competitor_exact.
    destruct (index_error c0) as [e0|] eqn:E0; cbn [bind].
    + split.
      * intros [= <-]. exists [], c0, items. auto.
      * intros (before & c & after & H & Hall & Hc).
        destruct before as [|b before]; simpl in H; injection H as H1 H2;
          subst.
        -- congruence.
        -- inversion Hall; congruence.
    + assert (Hstep : exists e1,
                 match c0 with
                 | JDict fields =>
                     match dict_get fields "name" with
                     | Some (JStr n) => Ok (dict_set start n fields)
                     | _ => Ok start
                     end
                 | _ => Ok start
                 end = Ok e1).
      { destruct c0; eauto. destruct (dict_get d "name") as [[]|]; eauto. }
      destruct Hstep as [e1 ->]. cbn [bind]. rewrite IH. split.
      * intros (before & c & after & -> & Hall & Hc).
        exists (c0 :: before), c, after. auto.
      * intros (before & c & after & H & Hall & Hc).
        destruct before as [|b before]; simpl in H; injection H as H1 H2;
          subst.
        -- congruence.
        -- inversion Hall; subst. eauto 6.
Qed.


(** ** The lookup against the loaded list *)

(** The lookup holds, for each name, the last entry of the loaded list that
    carries it. *)
Lemma existing_previous_entry comps : forall existing,
  for_each comps index_competitor [] = Ok existing ->
  forall n, dict_get existing n = previous_entry comps n.
Proof.
  induction comps as [|c cs IH] using rev_ind; intros existing H n.
  - injection H as <-. reflexivity.
  - rewrite for_each_app in H. bind_inv H. cbn [for_each] in H. bind_inv H.
    injection H as <-. specialize (IH _ E n).
    unfold previous_entry in *. rewrite rev_app_distr. cbn [rev app find].
    rewrite index_competitor_exact in E0. unfold index_error in E0.
    destruct c as [| | | | | |fields]; try discriminate. cbn [named].
    destruct (dict_get fields "name") as [v|]; [|discriminate].
    destruct v; try discriminate; injection E0 as <-; try exact IH.
    rewrite dict_get_set. destruct (String.eqb s n); [reflexivity | exact IH].
Qed.

Lemma old_pricing_previous prev comps existing n :
  build_existing prev = Ok existing ->
  competitors_of prev = Ok comps ->
  old_pricing_of existing n = previous_pricing comps n.
Proof.
  unfold build_existing. intros H Hc. rewrite Hc in H. cbn [bind] in H.
  unfold old_pricing_of, previous_pricing.
  rewrite (existing_previous_entry comps existing H n).
  destruct (previous_entry comps n); reflexivity.
Qed.

Lemma previous_entry_none comps n :
  (forall c, In c comps -> named n c = false) -> previous_entry comps n = None.
Proof.
  intros H. unfold previous_entry.
  destruct (find (named n) (rev comps)) as [c|] eqn:E; [|reflexivity].
  apply find_some in E. destruct E as [Hin Hn].
  rewrite <- in_rev in Hin. rewrite (H c Hin) in Hn. discriminate.
Qed.

Lemma previous_entry_some comps n c :
  previous_entry comps n = Some c ->
  In (JDict c) comps /\ dict_get c "name" = Some (JStr n).
Proof.
  unfold previous_entry.
  destruct (find (named n) (rev comps)) as [e|] eqn:E; [|discriminate].
  apply find_some in E. destruct E as [Hin Hn]. rewrite <- in_rev in Hin.
  destruct e; try discriminate. intros [= <-]. split; [exact Hin|].
  cbn [named] in Hn. destruct (dict_get d "name") as [[]|]; try discriminate.
  apply String.eqb_eq in Hn. subst. reflexivity.
Qed.

(** A list of entries that can all be indexed is indexed. *)
Lemma index_all_total items start :
  Forall (fun c => index_error c = None) items ->
  exists existing, for_each items index_competitor start = Ok existing.
Proof.
  intros Hall.
  destruct (for_each items index_competitor start) as [existing|e] eqn:E;
    [eauto|].
  apply index_all_raises in E. destruct E as (before & c & after & -> & _ & Hc).
  rewrite Forall_forall in Hall. rewrite Hall in Hc; [discriminate|].
  apply in_elt.
Qed.

Lemma flat_map_ext_targets {A B : Type} (f g : A -> list B) (l : list A) :
  (forall a, In a l -> f a = g a) -> flat_map f l = flat_map g l.
Proof.
  induction l as [|a l IH]; simpl; intros H; [reflexivity|].
  rewrite (H a) by auto. f_equal. apply IH. auto.
Qed.

(** ** A run without prior data *)

(** What [main] loads and indexes when the store holds nothing about the
    configured competitors. *)
Lemma no_prior_data_loaded f :
  no_prior_data f ->
  exists d existing,
    load_data f = Ok (JDict d) /\
    build_existing (JDict d) = Ok existing /\
    forall t, In t scrape_targets -> dict_get existing (t_name t) = None.
Proof.
  intros [->|(d & comps & -> & Hc & Hall & Hnone)].
  - eexists _, []. split; [reflexivity|]. split; reflexivity.
  - destruct (index_all_total comps [] Hall) as [existing He].
    exists d, existing. split; [reflexivity|]. split.
    + unfold build_existing. rewrite Hc. exact He.
    + intros t Ht. rewrite (existing_previous_entry comps existing He).
      apply previous_entry_none. intros c Hin. apply (Hnone c t Hin Ht).
Qed.

Lemma first_changes_exact w existing t :
  dict_get existing (t_name t) = None ->
  target_changes w existing t = first_changes w t.
Proof.
  intros Hnone. unfold target_changes, first_changes, first_pricing, old_pricing_of.
  rewrite Hnone. cbn [dict_get].
  destruct (scraped_by w t) as [[[tbl|]|e]|]; try reflexivity.
  unfold json_of_pricing, changes_for, canonical_sizes. cbn.
  repeat match goal with
         | |- context [dict_get_flat tbl ?k] => destruct (dict_get_flat tbl k)
         end; reflexivity.
Qed.

Lemma first_entry_exact w existing t :
  dict_get existing (t_name t) = None ->
  JDict (entry_fields existing (t_name t, new_pricing_of w existing t))
  = first_entry w t.
Proof.
  intros Hnone. unfold entry_fields, first_entry, new_pricing_of, first_pricing,
    old_pricing_of. cbn [fst snd]. rewrite Hnone. cbn [dict_get].
  destruct (scraped_by w t) as [[[tbl|]|e]|]; reflexivity.
Qed.

(** * The claims of the specification *)

(** ** C1: the reducer keeps the cheapest price *)

(** The four scrapers that collect [size_prices] store, for each size, a
    cheapest observed price, rounded; a size that was not observed keeps
    [None]. *)
Lemma cheapest_price_stored :
  (forall blocks tbl, ps_reduce blocks = Ok (Some tbl) ->
     exists obs, observations ps_observe blocks = Ok obs /\
                 cheapest_result obs tbl) /\
  (forall blocks tbl, lockaway_reduce blocks = Ok (Some tbl) ->
     exists obs, lockaway_observations blocks = Ok obs /\
                 cheapest_result obs tbl) /\
  (forall blocks tbl, montgomery_reduce blocks = Ok (Some tbl) ->
     exists obs, observations direct_observe blocks = Ok obs /\
                 cheapest_result obs tbl) /\
  (forall blocks tbl, woodlands_reduce blocks = Ok (Some tbl) ->
     exists obs, observations woodlands_observe blocks = Ok obs /\
                 cheapest_result obs tbl).
Proof.
  repeat split; intros blocks tbl H.
  - apply ps_reduce_spec; exact H.
  - apply lockaway_reduce_spec; exact H.
  - apply montgomery_reduce_spec; exact H.
  - apply woodlands_reduce_spec; exact H.
Qed.

(** C1 (fails for one scraper).  On a page that lists the 5x10 unit at
    50.00 and then at 60.00, [scrape_honea_egypt] returns a table (the pass
    succeeds) whose 5x10 price is 60, the last match, although 50.00 is the
    cheapest observation for that size and rounds to 50;
    [scrape_montgomery], which runs the same pattern, stores 50 on the same
    matches. *)
Theorem honea_egypt_stores_last_match :
  http_get two_prices_world honea_url = Some two_prices_page /\
  findall3 two_prices_world dims_price two_prices_page
    = [("5", "10", "50.00"); ("5", "10", "60.00")] /\
  observations honea_observe [("5", "10", "50.00"); ("5", "10", "60.00")]
    = Ok [("5x10", S754_finite false 7036874417766400 (-47));
          ("5x10", S754_finite false 8444249301319680 (-47))] /\
  cheapest (S754_finite false 7036874417766400 (-47))
    (prices_for "5x10" [("5x10", S754_finite false 7036874417766400 (-47));
                        ("5x10", S754_finite false 8444249301319680 (-47))]) /\
  py_int_round (S754_finite false 7036874417766400 (-47)) = Ok 50 /\
  snd (scrape_honea_egypt two_prices_world (Some honea_url)) =
    Ok (Some [("5x10", Some 60); ("10x10", None); ("10x15", None);
              ("10x20", None); ("10x30", None)]) /\
  snd (scrape_montgomery two_prices_world (Some montgomery_url)) =
    Ok (Some [("5x10", Some 50); ("10x10", None); ("10x15", None);
              ("10x20", None); ("10x30", None)]).
Proof.
  split; [reflexivity|]. split; [reflexivity|].
  split; [vm_compute; reflexivity|]. split.
  - split; [simpl; auto|].
    intros q [<-|[<-|[]]]; vm_compute; reflexivity.
  - split; [vm_compute; reflexivity|].
    split; vm_compute; reflexivity.
Qed.

(** ** C2: fallback patterns *)

(** C2 (as stated, fails).  [scrape_lockaway] has a single pattern: on a
    page where it matches nothing, no other pattern is run. *)
Lemma lockaway_has_no_fallback :
  ~ (forall s primary, In (s, primary) strategies ->
     forall w u page,
       http_get w u = Some page -> page <> "" ->
       findall3 w primary page = [] ->
       exists p, p <> primary /\ In p (fst (s w (Some u)))).
Proof.
  intros H.
  destruct (H scrape_lockaway lockaway_dims_price
              ltac:(unfold strategies; simpl; tauto)
              no_match_world lockaway_url
              "<html><body>Call us for rates</body></html>"
              eq_refl ltac:(discriminate) eq_refl) as (p & Hne & Hin).
  simpl in Hin. destruct Hin as [<-|[]]. apply Hne. reflexivity.
Qed.

(** C2 (amended).  On a page that was fetched: when its first pattern
    matches nothing, [scrape_public_storage] runs the price-before-dimensions
    pattern, and when that matches nothing either, the two unpaired patterns;
    the four other scrapers run one pattern and nothing else.  For each of
    the five, when the patterns it ran matched nothing it returns the table
    with every size absent, which is a normal return. *)
Theorem fallback_only_in_public_storage w u page :
  http_get w u = Some page -> page <> "" ->
  (findall3 w ps_dims_then_price page = [] ->
     In ps_price_then_dims (fst (scrape_public_storage w (Some u))) /\
     (findall3 w ps_price_then_dims page = [] ->
        fst (scrape_public_storage w (Some u))
        = [ps_dims_then_price; ps_price_then_dims; ps_price_attr; ps_dims] /\
        snd (scrape_public_storage w (Some u)) = Ok (Some empty_pricing))) /\
  (fst (scrape_lockaway w (Some u)) = [lockaway_dims_price] /\
   (findall3 w lockaway_dims_price page = [] ->
      snd (scrape_lockaway w (Some u)) = Ok (Some empty_pricing))) /\
  (fst (scrape_honea_egypt w (Some u)) = [dims_price] /\
   fst (scrape_montgomery w (Some u)) = [dims_price] /\
   fst (scrape_woodlands_sao w (Some u)) = [dims_price] /\
   (findall3 w dims_price page = [] ->
      snd (scrape_honea_egypt w (Some u)) = Ok (Some empty_pricing) /\
      snd (scrape_montgomery w (Some u)) = Ok (Some empty_pricing) /\
      snd (scrape_woodlands_sao w (Some u)) = Ok (Some empty_pricing))).
Proof.
  intros Hget Hne.
  unfold scrape_public_storage, scrape_lockaway, scrape_honea_egypt,
    scrape_montgomery, scrape_woodlands_sao.
  rewrite !(with_page_page w u page _ Hget Hne).
  split; [|split].
  - intros ->. destruct (findall3 w ps_price_then_dims page) as [|b bs] eqn:E2.
    + simpl. split.
      * destruct (findall1 w ps_price_attr page); simpl; tauto.
      * intros _. destruct (findall1 w ps_price_attr page); split; reflexivity.
    + simpl. split; [tauto | discriminate].
  - split; [reflexivity|]. intros ->. reflexivity.
  - repeat split; try reflexivity; rewrite H; reflexivity.
Qed.

Lemma fallback_only_in_public_storage_witness :
  http_get no_match_world lockaway_url
    = Some "<html><body>Call us for rates</body></html>" /\
  fst (scrape_public_storage no_match_world (Some lockaway_url))
    = [ps_dims_then_price; ps_price_then_dims; ps_price_attr; ps_dims] /\
  snd (scrape_public_storage no_match_world (Some lockaway_url))
    = Ok (Some empty_pricing) /\
  fst (scrape_lockaway no_match_world (Some lockaway_url)) = [lockaway_dims_price].
Proof.
  pose proof (fallback_only_in_public_storage no_match_world lockaway_url
                "<html><body>Call us for rates</body></html>"
                eq_refl ltac:(discriminate)) as (Hps & Hlock & _).
  destruct (Hps eq_refl) as [_ Hps2]. destruct (Hps2 eq_refl) as [Ht Hr].
  destruct Hlock as [Hl _].
  repeat split; assumption.
Defined.

(** ** C3: a second run reports nothing *)

(** C3.  When a run returns, a second run that loads the store it wrote, in
    the same world (the scrapers return what they returned the first time),
    returns too and reports no change.  [json.load] is taken to give back
    what [json.dump] was given. *)
Theorem merge_idempotent w f now now' out changes :
  main w f now = Ok (out, changes) ->
  exists out', main w (File (Ok out)) now' = Ok (out', []).
Proof.
  apply main_with_idempotent. apply scrape_targets_NoDup.
Qed.

Lemma merge_idempotent_witness :
  exists out changes,
    main montgomery_world (File (Ok example_store)) "2026-01-02 06:00 UTC"
      = Ok (out, changes) /\
    changes <> [] /\
    exists out',
      main montgomery_world (File (Ok out)) "2026-01-03 06:00 UTC" = Ok (out', []).
Proof.
  eexists _, _. split; [vm_compute; reflexivity|]. split; [discriminate|].
  eapply (merge_idempotent montgomery_world (File (Ok example_store))
            "2026-01-02 06:00 UTC").
  vm_compute. reflexivity.
Defined.

(** ** C4: the merge keeps the metadata *)

(** C4 (as stated, fails).  Not every entry of the loaded store comes back.
    Of two entries with one name the first is lost: the written entry has
    the phone of the second.  And an entry whose name is not a configured
    competitor has no entry at all in what is written. *)
Lemma metadata_lost_outside_lookup :
  (exists out,
     main offline_world (File (Ok duplicate_store)) "2026-01-02 06:00 UTC"
       = Ok (out, []) /\
     ~ keeps_metadata (File (Ok duplicate_store)) out) /\
  (exists out,
     main offline_world (File (Ok closed_down_store)) "2026-01-02 06:00 UTC"
       = Ok (out, []) /\
     ~ keeps_metadata (File (Ok closed_down_store)) out).
Proof.
  split; eexists; (split; [vm_compute; reflexivity|]); intros H.
  - destruct (H duplicate_store
                [JDict [("name", JStr "Lockaway Storage"); ("phone", JStr "1")];
                 JDict [("name", JStr "Lockaway Storage"); ("phone", JStr "2")]]
                [("name", JStr "Lockaway Storage"); ("phone", JStr "1")]
                "Lockaway Storage" eq_refl eq_refl (or_introl eq_refl) eq_refl)
      as (out_comps & e & Hout & Hin & Hn & Hw).
    vm_compute in Hout. injection Hout as <-.
    repeat (destruct Hin as [Hin|Hin];
            [injection Hin as <-; vm_compute in Hn, Hw;
             first [discriminate Hn | discriminate Hw]|]).
    destruct Hin.
  - destruct (H closed_down_store
                [JDict [("name", JStr "Closed Down Storage"); ("phone", JStr "3")]]
                [("name", JStr "Closed Down Storage"); ("phone", JStr "3")]
                "Closed Down Storage" eq_refl eq_refl (or_introl eq_refl) eq_refl)
      as (out_comps & e & Hout & Hin & Hn & Hw).
    vm_compute in Hout. injection Hout as <-.
    repeat (destruct Hin as [Hin|Hin];
            [injection Hin as <-; vm_compute in Hn; discriminate Hn|]).
    destruct Hin.
Qed.

(** C4 (amended).  The merge goes through the configured competitors and
    looks each one up by name.  For a name that is configured, what is
    written has an entry of that name, and every such entry has the items of
    the entry that the loaded store holds for the name (the last one that
    carries it), in the same order, except for [pricing], which it has.  A
    name that is not configured has no entry in what is written. *)
Theorem merge_preserves_metadata w f now out changes :
  main w f now = Ok (out, changes) ->
  exists prev comps out_comps,
    load_data f = Ok prev /\
    competitors_of prev = Ok comps /\
    competitors_of out = Ok out_comps /\
    forall n,
      (In n (map t_name scrape_targets) ->
       (exists e, In (JDict e) out_comps /\ dict_get e "name" = Some (JStr n)) /\
       forall c e,
         previous_entry comps n = Some c ->
         In (JDict e) out_comps ->
         dict_get e "name" = Some (JStr n) ->
         dict_without e "pricing" = dict_without c "pricing" /\
         exists p, dict_get e "pricing" = Some p) /\
      (~ In n (map t_name scrape_targets) ->
       forall e, In (JDict e) out_comps -> dict_get e "name" <> Some (JStr n)).
Proof.
  intros H. apply run_shape in H.
  destruct H as (d & existing & Hload & Hex & Hout & _ & _).
  pose proof (build_existing_filed _ _ Hex) as Hfiled.
  unfold build_existing in Hex. bind_inv Hex. rename a into comps.
  pose proof (existing_previous_entry comps existing Hex) as Hprev.
  exists (JDict d), comps. eexists.
  split; [exact Hload|]. split; [exact E|]. split; [exact Hout|].
  intros n. split.
  - intros Hn. split.
    + apply in_map_iff in Hn. destruct Hn as (t & <- & Ht).
      exists (entry_fields existing (t_name t, new_pricing_of w existing t)).
      split.
      * apply in_map_iff. exists t. auto.
      * apply (entry_fields_name existing (t_name t, _) Hfiled).
    + intros c e Hc He Hen. apply in_map_iff in He.
      destruct He as (t & [= <-] & Ht).
      rewrite (entry_fields_name existing (t_name t, _) Hfiled) in Hen.
      injection Hen as Hen. split; [|eexists; apply entry_fields_pricing].
      unfold entry_fields. cbn [fst snd].
      rewrite Hen, Hprev, Hc. apply dict_without_set.
  - intros Hn e He Hen. apply Hn. apply in_map_iff in He.
    destruct He as (t & [= <-] & Ht).
    rewrite (entry_fields_name existing (t_name t, _) Hfiled) in Hen.
    injection Hen as <-. apply in_map. exact Ht.
Qed.

Lemma merge_preserves_metadata_witness :
  exists out changes out_comps,
    main montgomery_world (File (Ok example_store)) "2026-01-02 06:00 UTC"
      = Ok (out, changes) /\
    competitors_of out = Ok out_comps /\
    (exists e, In (JDict e) out_comps /\
               dict_get e "name" = Some (JStr "Montgomery Self Storage")) /\
    forall e, In (JDict e) out_comps ->
              dict_get e "name" = Some (JStr "Montgomery Self Storage") ->
              dict_without e "pricing"
              = [("name", JStr "Montgomery Self Storage");
                 ("address", JStr "33003 FM 2978, Magnolia, TX");
                 ("phone", JStr "(281) 555-0142")] /\
              exists p, dict_get e "pricing" = Some p.
Proof.
  destruct (merge_preserves_metadata montgomery_world
              (File (Ok example_store)) "2026-01-02 06:00 UTC" _ _
              ltac:(vm_compute; reflexivity))
    as (prev & comps & out_comps & Hload & Hcomps & Hout & Hkeep).
  injection Hload as <-. vm_compute in Hcomps. injection Hcomps as <-.
  destruct (Hkeep "Montgomery Self Storage") as [Htarget _].
  destruct Htarget as [Hex Hsame].
  - unfold scrape_targets. simpl. tauto.
  - eexists _, _, out_comps. split; [vm_compute; reflexivity|].
    split; [exact Hout|]. split; [exact Hex|].
    intros e He Hn. apply (Hsame montgomery_fields e eq_refl He Hn).
Defined.

(** ** C5: no extraction, no change *)

(** C5.  A target without URL or without scraper, or whose fetch failed,
    has in the written store the pricing that the loaded store held for it
    (the [pricing] of the last loaded entry of its name, as it was loaded,
    or the table with every size absent when the store had none), and no
    change of the run carries its name. *)
Theorem skipped_competitor_carried_forward w f now out changes t :
  main w f now = Ok (out, changes) ->
  In t scrape_targets ->
  (t_url t = None \/ t_scraper t = None \/
   exists u, t_url t = Some u /\ http_get w u = None) ->
  keeps_previous_pricing f out changes (t_name t).
Proof.
  intros H Hin Hskip.
  assert (Hcarried : carries_forward f out changes (t_name t)).
  { apply (carried_forward w f now out changes t H Hin).
    apply (target_skipped w t Hin).
    destruct Hskip as [Hu|[Hs|(u & Hu & Hget)]]; auto.
    right. right. exists u. rewrite Hget. auto. }
  destruct Hcarried
    as (Hch & prev & existing & out_comps & Hload & Hex & Hout & He & Hall).
  split; [exact Hch|].
  pose proof Hex as Hex'. unfold build_existing in Hex'. bind_inv Hex'.
  rename a into comps.
  exists prev, comps, out_comps.
  split; [exact Hload|]. split; [exact E|]. split; [exact Hout|].
  split; [exact He|].
  intros e Hine Hn.
  rewrite <- (old_pricing_previous prev comps existing (t_name t) Hex E).
  apply Hall; assumption.
Qed.

Lemma skipped_competitor_carried_forward_witness :
  http_get offline_world montgomery_url = None /\
  exists out out_comps,
    main offline_world (File (Ok example_store)) "2026-01-02 06:00 UTC"
      = Ok (out, []) /\
    competitors_of out = Ok out_comps /\
    (exists e, In (JDict e) out_comps /\
               dict_get e "name" = Some (JStr "Montgomery Self Storage")) /\
    forall e, In (JDict e) out_comps ->
              dict_get e "name" = Some (JStr "Montgomery Self Storage") ->
              dict_get e "pricing"
              = Some (JDict [("5x10", JInt 59); ("10x10", JNull);
                             ("10x15", JInt 89); ("10x20", JNull);
                             ("10x30", JNull)]).
Proof.
  split; [reflexivity|].
  destruct (skipped_competitor_carried_forward offline_world
              (File (Ok example_store)) "2026-01-02 06:00 UTC" _ []
              montgomery_target ltac:(vm_compute; reflexivity))
    as (_ & prev & comps & out_comps & Hload & Hcomps & Hout & He & Hall).
  - unfold scrape_targets, montgomery_target, montgomery_url. simpl. tauto.
  - right. right. exists montgomery_url. split; reflexivity.
  - injection Hload as <-. vm_compute in Hcomps. injection Hcomps as <-.
    eexists _, out_comps. split; [vm_compute; reflexivity|].
    split; [exact Hout|]. split; [exact He|]. exact Hall.
Defined.

(** The pricing is carried as it was loaded, whatever it is: a skipped
    competitor whose stored pricing is [null] keeps [null]. *)
Example null_pricing_carried_forward :
  exists out,
    main offline_world
      (File (Ok (JDict [("competitors",
                         JList [JDict [("name", JStr "SmartStop Self Storage");
                                       ("pricing", JNull)]])])))
      "2026-01-02 06:00 UTC" = Ok (out, []) /\
    competitors_of out =
    Ok (map (fun t =>
               JDict [("name", JStr (t_name t));
                      ("pricing",
                       if String.eqb (t_name t) "SmartStop Self Storage"
                       then JNull else json_of_pricing empty_pricing)])
            scrape_targets).
Proof. eexists. split; vm_compute; reflexivity. Qed.

(** ** C6: the store at load time *)

(** C6 (as stated, fails).  With every fetch failing, the run returns when
    there is no [data.json]; it stops with the exception of [json.load] when
    the file is not JSON, and with [AttributeError] when the file holds a
    JSON list. *)
Lemma undecodable_store_stops_the_run :
  (exists out, main offline_world NoFile "2026-01-02 06:00 UTC" = Ok (out, [])) /\
  main offline_world (File (Raise JSONDecodeError)) "2026-01-02 06:00 UTC"
    = Raise JSONDecodeError /\
  main offline_world (File (Ok (JList []))) "2026-01-02 06:00 UTC"
    = Raise AttributeError.
Proof.
  split; [eexists; vm_compute; reflexivity|].
  split; vm_compute; reflexivity.
Qed.

(** C6 (amended).  When there is no [data.json], or it holds an object
    with nothing about the configured competitors (no [competitors] key, an
    empty list, or only entries of other names), the run treats it as no
    prior data.  The store never makes it fail: it returns whenever no
    scraper raises.  And it starts from the empty pricing for every
    competitor: what it writes is, for each target in order, a new entry
    with the table of its scraper, or with every size absent when there is
    none; what it reports is every price found, as a change from [None]. *)
Theorem missing_store_is_no_prior_data w f now :
  no_prior_data f ->
  ((forall t, In t scrape_targets ->
      scraped_by w t = None \/ exists r, scraped_by w t = Some (Ok r)) ->
   exists out changes, main w f now = Ok (out, changes)) /\
  forall out changes,
    main w f now = Ok (out, changes) ->
    competitors_of out = Ok (map (first_entry w) scrape_targets) /\
    changes = flat_map (first_changes w) scrape_targets.
Proof.
  intros Hno. destruct (no_prior_data_loaded f Hno)
    as (d & existing & Hload & Hex & Hnone).
  split.
  - intros Hs. unfold main, main_with. rewrite Hload. cbn [bind].
    rewrite Hex. cbn [bind].
    destruct (scrape_loop_total w existing scrape_targets ([], []) Hs)
      as [[updated changes] ->].
    + intros t Ht. unfold old_pricing_of. rewrite (Hnone t Ht).
      eexists. reflexivity.
    + cbn [bind]. eauto.
  - intros out changes H. split.
    + apply run_shape in H.
      destruct H as (d' & existing' & Hload' & Hex' & Hout & _ & _).
      rewrite Hload in Hload'. injection Hload' as <-.
      rewrite Hex in Hex'. injection Hex' as <-.
      rewrite Hout. f_equal. apply map_ext_in. intros t Ht.
      apply first_entry_exact. apply (Hnone t Ht).
    + apply main_with_ok in H.
      destruct H as (d' & existing' & updated & Hload' & Hex' & Hloop & _).
      rewrite Hload in Hload'. injection Hload' as <-.
      rewrite Hex in Hex'. injection Hex' as <-.
      apply scrape_loop_changes in Hloop. cbn [snd app] in Hloop.
      rewrite Hloop. apply flat_map_ext_targets. intros t Ht.
      apply first_changes_exact. apply (Hnone t Ht).
Qed.

Lemma missing_store_is_no_prior_data_witness :
  no_prior_data NoFile /\
  exists out,
    main montgomery_world NoFile "2026-01-02 06:00 UTC"
    = Ok (out,
          [ {| ch_name := "Montgomery Self Storage"; ch_size := "5x10";
               ch_old := JNull; ch_new := Some 55 |};
            {| ch_name := "Montgomery Self Storage"; ch_size := "10x15";
               ch_old := JNull; ch_new := Some 89 |};
            {| ch_name := "Montgomery Self Storage"; ch_size := "10x20";
               ch_old := JNull; ch_new := Some 120 |} ]) /\
    competitors_of out = Ok (map (first_entry montgomery_world) scrape_targets).
Proof.
  split; [left; reflexivity|].
  destruct (missing_store_is_no_prior_data montgomery_world NoFile
              "2026-01-02 06:00 UTC" (or_introl eq_refl)) as [_ Hrun].
  eexists. split; [vm_compute; reflexivity|].
  apply (Hrun _ _ ltac:(vm_compute; reflexivity)).
Defined.

(** An object without any key is such a store: the run is the run without
    file.  So is a store that only lists a competitor that is not
    configured. *)
Example store_without_keys_is_no_prior_data :
  no_prior_data (File (Ok (JDict []))) /\
  no_prior_data (File (Ok closed_down_store)) /\
  forall w now, main w (File (Ok (JDict []))) now = main w NoFile now.
Proof.
  split; [|split].
  - right. exists [], []. split; [reflexivity|]. split; [reflexivity|].
    split; [constructor|]. intros c t [].
  - right. eexists _, _. split; [reflexivity|]. split; [reflexivity|].
    split; [repeat constructor|].
    intros c t [<-|[]] Ht. unfold scrape_targets in Ht. simpl in Ht.
    repeat (destruct Ht as [<-|Ht]; [reflexivity|]). destruct Ht.
  - reflexivity.
Qed.

(** ** C7: an empty page *)

(** C7 (as stated, fails).  A fetch that returns an empty page is not
    extracted: [scrape_lockaway] returns [None] as for a failed fetch, and
    the run keeps the previous prices of Lockaway Storage instead of
    replacing them by a table with every size absent. *)
Lemma empty_page_is_not_extracted :
  ~ (forall w u s, In s scrapers -> http_get w u = Some "" ->
                   snd (s w (Some u)) = Ok (Some empty_pricing)).
Proof.
  intros H.
  specialize (H empty_page_world lockaway_url scrape_lockaway
                ltac:(unfold scrapers; simpl; tauto) eq_refl).
  vm_compute in H. discriminate H.
Qed.

(** C7 (amended).  [fetch] tells a failure ([None]) from an empty page (the
    empty string), but every scraper handles the two alike: it returns
    [None] without running a pattern, so that [main] keeps the previous
    pricing of the competitor and reports no change for it.  On a page that
    is not empty a scraper runs at least one pattern. *)
Theorem empty_page_handled_as_failed_fetch w u :
  (http_get w u = None \/ http_get w u = Some "" ->
   fetch w (Some u) = Ok (http_get w u) /\
   (forall s, In s scrapers -> s w (Some u) = ([], Ok None)) /\
   (forall f now out changes t,
      main w f now = Ok (out, changes) ->
      In t scrape_targets -> t_url t = Some u ->
      carries_forward f out changes (t_name t))) /\
  (forall page s, http_get w u = Some page -> page <> "" -> In s scrapers ->
                  fst (s w (Some u)) <> []).
Proof.
  split.
  - intros Hget.
    assert (Hno : not_html (http_get w u) = true)
      by (destruct Hget as [-> | ->]; reflexivity).
    split; [reflexivity|]. split.
    + intros s Hs. apply scrapers_no_page; assumption.
    + intros f now out changes t H Hin Hu.
      apply (carried_forward w f now out changes t H Hin).
      apply (target_skipped w t Hin). right. right. exists u. auto.
  - intros page s Hget Hne Hs. unfold scrapers in Hs. simpl in Hs.
    destruct Hs as [<-|[<-|[<-|[<-|[<-|[]]]]]];
      unfold scrape_lockaway, scrape_public_storage, scrape_honea_egypt,
        scrape_montgomery, scrape_woodlands_sao;
      rewrite (with_page_page w u page _ Hget Hne); try discriminate.
    destruct (findall3 w ps_dims_then_price page); [|discriminate].
    destruct (map _ (findall3 w ps_price_then_dims page)); [|discriminate].
    destruct (findall1 w ps_price_attr page); discriminate.
Qed.

Lemma empty_page_handled_as_failed_fetch_witness :
  http_get empty_page_world lockaway_url = Some "" /\
  scrape_lockaway empty_page_world (Some lockaway_url) = ([], Ok None) /\
  exists out,
    main empty_page_world (File (Ok example_store)) "2026-01-02 06:00 UTC"
      = Ok (out, []) /\
    carries_forward (File (Ok example_store)) out [] "Lockaway Storage".
Proof.
  destruct (empty_page_handled_as_failed_fetch empty_page_world lockaway_url)
    as [Hempty _].
  destruct (Hempty (or_intror eq_refl)) as (_ & Hs & Hrun).
  split; [reflexivity|]. split.
  - apply Hs. unfold scrapers. simpl. tauto.
  - eexists. split; [vm_compute; reflexivity|].
    apply (Hrun (File (Ok example_store)) "2026-01-02 06:00 UTC" _ []
             lockaway_target).
    + vm_compute. reflexivity.
    + unfold scrape_targets, lockaway_target, lockaway_url. simpl. tauto.
    + reflexivity.
Defined.

(** ** C8: the worked example *)

(** C8.  For a competitor whose previous pricing is
    [{5x10: 59, 10x10: null, 10x15: 89, 10x20: null, 10x30: null}] and whose
    scraper returns
    [{5x10: 55, 10x10: null, 10x15: 89, 10x20: 120, 10x30: null}], the turn
    of the loop appends exactly two changes, 5x10 from 59 to 55 and 10x20
    from [None] to 120, in this order; nothing is reported for 10x15. *)
Theorem worked_example_changes w existing t updated changes :
  scraped_by w t = Some (Ok (Some example_new)) ->
  old_pricing_of existing (t_name t) = example_previous ->
  scrape_target w existing (updated, changes) t =
  Ok ((updated ++ [(t_name t, json_of_pricing example_new)])%list,
      (changes ++
       [ {| ch_name := t_name t; ch_size := "5x10";
            ch_old := JInt 59; ch_new := Some 55 |};
         {| ch_name := t_name t; ch_size := "10x20";
            ch_old := JNull; ch_new := Some 120 |} ])%list).
Proof.
  intros Hs Hold. unfold scrape_target. unfold scraped_by in Hs.
  destruct (t_scraper t) as [s|]; [|discriminate].
  injection Hs as ->. rewrite Hold. cbn. rewrite <- app_assoc. reflexivity.
Qed.

Lemma worked_example_changes_witness :
  scraped_by montgomery_world montgomery_target = Some (Ok (Some example_new)) /\
  old_pricing_of [("Montgomery Self Storage", montgomery_fields)]
    "Montgomery Self Storage" = example_previous /\
  scrape_target montgomery_world
    [("Montgomery Self Storage", montgomery_fields)] ([], []) montgomery_target =
  Ok ([("Montgomery Self Storage", json_of_pricing example_new)],
      [ {| ch_name := "Montgomery Self Storage"; ch_size := "5x10";
           ch_old := JInt 59; ch_new := Some 55 |};
        {| ch_name := "Montgomery Self Storage"; ch_size := "10x20";
           ch_old := JNull; ch_new := Some 120 |} ]).
Proof.
  split; [vm_compute; reflexivity|]. split; [reflexivity|].
  apply (worked_example_changes montgomery_world
           [("Montgomery Self Storage", montgomery_fields)]
           montgomery_target [] []).
  - vm_compute. reflexivity.
  - reflexivity.
Defined.

(** The same example through a whole run: only the Montgomery page is
    served, and the run reports the two changes. *)
Example worked_example_run :
  exists out,
    main montgomery_world (File (Ok example_store)) "2026-01-02 06:00 UTC" =
    Ok (out,
        [ {| ch_name := "Montgomery Self Storage"; ch_size := "5x10";
             ch_old := JInt 59; ch_new := Some 55 |};
          {| ch_name := "Montgomery Self Storage"; ch_size := "10x20";
             ch_old := JNull; ch_new := Some 120 |} ]).
Proof. eexists. vm_compute. reflexivity. Qed.

(** ** C9: the shape of a pricing table *)

(** C9 (as stated, fails).  The pricing of a competitor that is not scraped
    is written back as it was loaded: with every fetch failing, the negative
    price that the store holds for Montgomery Self Storage is written
    again, and what is written is not well formed. *)
Lemma malformed_pricing_written_back :
  exists out,
    main offline_world (File (Ok negative_price_store)) "2026-01-02 06:00 UTC"
      = Ok (out, []) /\
    ~ store_pricing_ok out.
Proof.
  eexists. split; [vm_compute; reflexivity|].
  intros (comps & Hc & Hall). vm_compute in Hc. injection Hc as <-.
  destruct (Hall (JDict [("name", JStr "Montgomery Self Storage");
                         ("pricing",
                          JDict [("5x10", JInt (-5)); ("10x10", JNull);
                                 ("10x15", JNull); ("10x20", JNull);
                                 ("10x30", JNull)])]))
    as (fields & p & Hf & Hp & tbl & Ht & _ & Hprice).
  - simpl. tauto.
  - injection Hf as <-. vm_compute in Hp. injection Hp as <-.
    destruct tbl as [|[k v] tbl]; [discriminate|].
    unfold json_of_pricing in Ht. cbn [map fst snd] in Ht.
    injection Ht as _ Hv _.
    destruct v as [n|]; [|discriminate]. injection Hv as <-.
    inversion Hprice as [|? ? Hneg _]. simpl in Hneg. lia.
Qed.

(** C9 (amended).  A table returned by a scraper has the five sizes as
    keys, in the order of [canonical_sizes], each with [None] or an integer
    that is not negative; [None] is stored as [null], never as a number, and
    the comparison of [main] tells [None] from 0.  A pricing that is written
    to the store is such a table or the pricing that the loaded store held
    for the competitor, as it was loaded (the table with every size absent
    when it held none).  So what is written has the shape when every loaded
    pricing had it. *)
Theorem pricing_tables_well_formed :
  (forall s w url tbl,
     In s scrapers -> snd (s w url) = Ok (Some tbl) -> table_ok tbl) /\
  (forall n, json_of_price None <> json_of_price (Some n)) /\
  (py_ne (JInt 0) None = true /\ py_ne JNull (Some 0) = true) /\
  (forall w f now out changes,
     main w f now = Ok (out, changes) ->
     exists prev comps out_comps,
       load_data f = Ok prev /\
       competitors_of prev = Ok comps /\
       competitors_of out = Ok out_comps /\
       (forall e, In e out_comps ->
          exists fields n p,
            e = JDict fields /\
            dict_get fields "name" = Some (JStr n) /\
            dict_get fields "pricing" = Some p /\
            (pricing_ok p \/ p = previous_pricing comps n)) /\
       (competitors_ok comps -> store_pricing_ok out)).
Proof.
  split; [intros s w url tbl; apply scraper_table_ok|].
  split; [discriminate|]. split; [split; reflexivity|].
  intros w f now out changes H. apply run_shape in H.
  destruct H as (d & existing & Hload & Hex & Hout & Hs & _).
  pose proof (build_existing_filed _ _ Hex) as Hfiled.
  pose proof Hex as Hex'. unfold build_existing in Hex'. bind_inv Hex'.
  rename a into comps.
  assert (Hwritten : forall t, In t scrape_targets ->
            pricing_ok (new_pricing_of w existing t) \/
            new_pricing_of w existing t = previous_pricing comps (t_name t)).
  { intros t Ht. unfold new_pricing_of, scraped_by.
    rewrite (old_pricing_previous (JDict d) comps existing (t_name t) Hex E).
    destruct (t_scraper t) as [s|] eqn:Es; [|auto].
    destruct (snd (s w (t_url t))) as [[tbl|]|] eqn:Er; auto.
    left. apply table_ok_pricing.
    apply (scraper_table_ok s w (t_url t) tbl (target_scraper_known t s Ht Es) Er). }
  exists (JDict d), comps. eexists.
  split; [exact Hload|]. split; [exact E|]. split; [exact Hout|]. split.
  - intros e He. apply in_map_iff in He. destruct He as (t & <- & Ht).
    eexists _, (t_name t), _. split; [reflexivity|].
    split; [apply (entry_fields_name existing (t_name t, _) Hfiled)|].
    split; [apply entry_fields_pricing|]. apply (Hwritten t Ht).
  - intros Hok. eexists. split; [exact Hout|].
    intros e He. apply in_map_iff in He. destruct He as (t & <- & Ht).
    eexists _, _. split; [reflexivity|]. split; [apply entry_fields_pricing|].
    cbn [snd]. destruct (Hwritten t Ht) as [Hp| ->]; [exact Hp|].
    unfold previous_pricing.
    destruct (previous_entry comps (t_name t)) as [c|] eqn:Ec;
      [|apply table_ok_pricing, empty_pricing_ok].
    destruct (dict_get c "pricing") as [p|] eqn:Ep;
      [|apply table_ok_pricing, empty_pricing_ok].
    apply previous_entry_some in Ec. destruct Ec as [Hin _].
    apply (Hok c p Hin Ep).
Qed.

Lemma pricing_tables_well_formed_witness :
  table_ok example_new /\
  exists out,
    main montgomery_world (File (Ok example_store)) "2026-01-02 06:00 UTC"
      = Ok (out, [ {| ch_name := "Montgomery Self Storage"; ch_size := "5x10";
                      ch_old := JInt 59; ch_new := Some 55 |};
                   {| ch_name := "Montgomery Self Storage"; ch_size := "10x20";
                      ch_old := JNull; ch_new := Some 120 |} ]) /\
    store_pricing_ok out.
Proof.
  destruct pricing_tables_well_formed as (Htable & _ & _ & Hstore). split.
  - apply (Htable scrape_montgomery montgomery_world (Some montgomery_url)).
    + unfold scrapers. simpl. tauto.
    + vm_compute. reflexivity.
  - destruct (Hstore montgomery_world (File (Ok example_store))
                "2026-01-02 06:00 UTC" _ _
                ltac:(vm_compute; reflexivity))
      as (prev & comps & out_comps & Hload & Hcomps & _ & _ & Hok).
    injection Hload as <-. vm_compute in Hcomps. injection Hcomps as <-.
    eexists. split; [vm_compute; reflexivity|]. apply Hok.
    intros c p Hin Hp.
    assert (Hp' : p = example_previous).
    { destruct Hin as [[= <-]|[[= <-]|[]]]; vm_compute in Hp;
        injection Hp as <-; reflexivity. }
    subst p.
    exists [("5x10", Some 59); ("10x10", None); ("10x15", Some 89);
            ("10x20", None); ("10x30", None)].
    split; [reflexivity|]. split; [apply Permutation_refl|].
    repeat constructor; simpl; lia.
Defined.

(** ** C10: halves round to even *)



(** The text page has no price attribute: on it [scrape_public_storage]
    runs its four patterns and returns the table with every size absent. *)
Example public_storage_reads_attributes_only :
  forall u,
    scrape_public_storage halves_world (Some u) =
    ([ps_dims_then_price; ps_price_then_dims; ps_price_attr; ps_dims],
     Ok (Some empty_pricing)).
Proof. intros u. vm_compute. reflexivity. Qed.

(** * Further properties of the code *)

(** ** What [main] writes *)

(** The written store lists the targets of [scrape_targets], one entry
    each, in their order, whatever the loaded store listed. *)
Theorem written_store_lists_targets w f now out changes :
  main w f now = Ok (out, changes) ->
  exists out_comps,
    competitors_of out = Ok out_comps /\
    Forall2 (fun e t => exists fields,
               e = JDict fields /\
               dict_get fields "name" = Some (JStr (t_name t)))
            out_comps scrape_targets.
Proof.
  intros H. apply run_shape in H.
  destruct H as (d & existing & _ & Hex & Hout & _ & _).
  pose proof (build_existing_filed _ _ Hex) as Hfiled.
  eexists. split; [exact Hout|]. clear Hout.
  induction scrape_targets as [|t ts IH]; simpl; constructor; [|exact IH].
  eexists. split; [reflexivity|].
  apply (entry_fields_name existing (t_name t, _) Hfiled).
Qed.

Lemma written_store_lists_targets_witness :
  exists out out_comps,
    main montgomery_world (File (Ok example_store)) "2026-01-02 06:00 UTC"
      = Ok (out, [ {| ch_name := "Montgomery Self Storage"; ch_size := "5x10";
                      ch_old := JInt 59; ch_new := Some 55 |};
                   {| ch_name := "Montgomery Self Storage"; ch_size := "10x20";
                      ch_old := JNull; ch_new := Some 120 |} ]) /\
    competitors_of out = Ok out_comps /\
    Forall2 (fun e t => exists fields,
               e = JDict fields /\
               dict_get fields "name" = Some (JStr (t_name t)))
            out_comps scrape_targets.
Proof.
  destruct (written_store_lists_targets montgomery_world
              (File (Ok example_store)) "2026-01-02 06:00 UTC" _ _
              ltac:(vm_compute; reflexivity)) as (out_comps & Hout & Hall).
  eexists _, out_comps. split; [vm_compute; reflexivity|].
  split; [exact Hout | exact Hall].
Defined.

(** At the top level of the store, [lastUpdated] is set to the time of the
    run and every key other than [lastUpdated] and [competitors] keeps the
    value that was loaded. *)
Theorem store_top_level_kept w f now out changes :
  main w f now = Ok (out, changes) ->
  exists d d',
    load_data f = Ok (JDict d) /\ out = JDict d' /\
    dict_get d' "lastUpdated" = Some (JStr now) /\
    forall k, k <> "lastUpdated" -> k <> "competitors" ->
              dict_get d' k = dict_get d k.
Proof.
  intros H. apply main_with_ok in H.
  destruct H as (d & existing & updated & Hload & _ & _ & ->).
  eexists d, _. split; [exact Hload|]. split; [reflexivity|]. split.
  - rewrite dict_get_set_other by discriminate. apply dict_get_set_same.
  - intros k H1 H2. rewrite !dict_get_set_other by congruence. reflexivity.
Qed.

Lemma store_top_level_kept_witness :
  exists out d',
    main offline_world
      (File (Ok (JDict [("owner", JStr "Magnolia Storage");
                        ("lastUpdated", JNull)])))
      "2026-01-02 06:00 UTC" = Ok (out, []) /\
    out = JDict d' /\
    dict_get d' "lastUpdated" = Some (JStr "2026-01-02 06:00 UTC") /\
    dict_get d' "owner" = Some (JStr "Magnolia Storage").
Proof.
  destruct (store_top_level_kept offline_world
              (File (Ok (JDict [("owner", JStr "Magnolia Storage");
                                ("lastUpdated", JNull)])))
              "2026-01-02 06:00 UTC" _ _ ltac:(vm_compute; reflexivity))
    as (d & d' & Hload & Hout & Hlast & Hkeep).
  injection Hload as <-.
  eexists _, d'. split; [vm_compute; reflexivity|].
  split; [exact Hout|]. split; [exact Hlast|].
  rewrite Hkeep by discriminate. reflexivity.
Defined.

(** A target that the loaded store does not list gets an entry with two
    keys, [name] and [pricing]; the pricing is the table of its scraper, or
    the table with every size absent when the scraper returned none. *)
Theorem new_competitor_entry w f now out changes prev comps t :
  main w f now = Ok (out, changes) ->
  load_data f = Ok prev ->
  competitors_of prev = Ok comps ->
  In t scrape_targets ->
  (forall c, In (JDict c) comps -> dict_get c "name" <> Some (JStr (t_name t))) ->
  exists out_comps p,
    competitors_of out = Ok out_comps /\
    In (JDict [("name", JStr (t_name t)); ("pricing", p)]) out_comps /\
    (p = json_of_pricing empty_pricing \/
     exists tbl, scraped_by w t = Some (Ok (Some tbl)) /\ p = json_of_pricing tbl).
Proof.
  intros H Hload Hcomps Hin Hnew. apply run_shape in H.
  destruct H as (d & existing & Hload' & Hex & Hout & _ & _).
  rewrite Hload in Hload'. injection Hload' as ->.
  unfold build_existing in Hex. rewrite Hcomps in Hex. cbn [bind] in Hex.
  assert (Hnone : dict_get existing (t_name t) = None).
  { destruct (dict_get existing (t_name t)) as [c|] eqn:E; [|reflexivity].
    destruct (existing_sound _ _ _ Hex _ _ E) as [Hs|[Hc Hn]]; [discriminate|].
    exfalso. apply (Hnew c Hc Hn). }
  eexists _, (new_pricing_of w existing t). split; [exact Hout|]. split.
  - apply in_map_iff. exists t. split; [|exact Hin].
    unfold entry_fields. cbn [fst snd]. rewrite Hnone. reflexivity.
  - unfold new_pricing_of, old_pricing_of. rewrite Hnone. cbn [dict_get].
    destruct (scraped_by w t) as [[[tbl|]|]|]; eauto.
Qed.

Lemma new_competitor_entry_witness :
  exists out changes out_comps,
    main montgomery_world NoFile "2026-01-02 06:00 UTC" = Ok (out, changes) /\
    competitors_of out = Ok out_comps /\
    In (JDict [("name", JStr "Montgomery Self Storage");
               ("pricing", json_of_pricing example_new)]) out_comps.
Proof.
  destruct (new_competitor_entry montgomery_world NoFile
              "2026-01-02 06:00 UTC" _ _ _ [] montgomery_target
              ltac:(vm_compute; reflexivity) eq_refl eq_refl)
    as (out_comps & p & Hout & Hin & Hp).
  - unfold scrape_targets, montgomery_target, montgomery_url. simpl. tauto.
  - intros c [].
  - eexists _, _, out_comps. split; [vm_compute; reflexivity|].
    split; [exact Hout|].
    destruct Hp as [->|(tbl & Hs & ->)].
    + vm_compute in Hout. injection Hout as <-.
      simpl in Hin. repeat (destruct Hin as [Hin|Hin]; [discriminate Hin|]).
      destruct Hin.
    + vm_compute in Hs. injection Hs as <-. exact Hin.
Defined.

(** When the scraper of a target returns a table, the written pricing of
    that competitor is this table, whole: a size that the table leaves
    absent is written as [null] whatever price the store had for it. *)
Theorem scraped_table_replaces_pricing w f now out changes t tbl :
  main w f now = Ok (out, changes) ->
  In t scrape_targets ->
  scraped_by w t = Some (Ok (Some tbl)) ->
  exists out_comps,
    competitors_of out = Ok out_comps /\
    (exists e, In (JDict e) out_comps /\
               dict_get e "name" = Some (JStr (t_name t))) /\
    forall e, In (JDict e) out_comps ->
              dict_get e "name" = Some (JStr (t_name t)) ->
              dict_get e "pricing" = Some (json_of_pricing tbl).
Proof.
  intros H Hin Hs. apply run_shape in H.
  destruct H as (d & existing & _ & Hex & Hout & _ & _).
  pose proof (build_existing_filed _ _ Hex) as Hfiled.
  eexists. split; [exact Hout|]. split.
  - exists (entry_fields existing (t_name t, new_pricing_of w existing t)).
    split; [apply in_map_iff; exists t; auto|].
    apply (entry_fields_name existing (t_name t, _) Hfiled).
  - intros e He Hname. apply in_map_iff in He.
    destruct He as (t' & [= <-] & Hin').
    rewrite (entry_fields_name existing (t_name t', _) Hfiled) in Hname.
    injection Hname as Hname.
    apply (NoDup_map_inj t_name scrape_targets t' t scrape_targets_NoDup Hin' Hin)
      in Hname. subst t'.
    rewrite entry_fields_pricing. cbn [snd]. unfold new_pricing_of.
    rewrite Hs. reflexivity.
Qed.

Lemma scraped_table_replaces_pricing_witness :
  exists out changes out_comps,
    main no_match_world (File (Ok example_store)) "2026-01-02 06:00 UTC"
      = Ok (out, changes) /\
    competitors_of out = Ok out_comps /\
    forall e, In (JDict e) out_comps ->
              dict_get e "name" = Some (JStr "Montgomery Self Storage") ->
              dict_get e "pricing" = Some (json_of_pricing empty_pricing).
Proof.
  destruct (scraped_table_replaces_pricing no_match_world
              (File (Ok example_store)) "2026-01-02 06:00 UTC" _ _
              montgomery_target empty_pricing
              ltac:(vm_compute; reflexivity))
    as (out_comps & Hout & _ & Hall).
  - unfold scrape_targets, montgomery_target, montgomery_url. simpl. tauto.
  - vm_compute. reflexivity.
  - eexists _, _, out_comps. split; [vm_compute; reflexivity|].
    split; [exact Hout | exact Hall].
Defined.

(** ** The change list, exactly *)

(** The changes of a run are, target by target in the order of
    [scrape_targets] and size by size in the order of [canonical_sizes],
    the sizes for which the stored value and the scraped value differ; a
    target whose scraper returned no table contributes none. *)
Theorem changes_are_the_differences w f now out changes :
  main w f now = Ok (out, changes) ->
  exists prev existing,
    load_data f = Ok prev /\
    build_existing prev = Ok existing /\
    changes = flat_map (target_changes w existing) scrape_targets.
Proof.
  intros H. apply main_with_ok in H.
  destruct H as (d & existing & updated & Hload & Hex & Hloop & _).
  exists (JDict d), existing. split; [exact Hload|]. split; [exact Hex|].
  apply scrape_loop_changes in Hloop. exact Hloop.
Qed.

Lemma changes_are_the_differences_witness :
  exists out,
    main montgomery_world (File (Ok example_store)) "2026-01-02 06:00 UTC"
      = Ok (out,
            flat_map (target_changes montgomery_world
                        [("Montgomery Self Storage", montgomery_fields);
                         ("Lockaway Storage", lockaway_fields)])
                     scrape_targets).
Proof.
  destruct (changes_are_the_differences montgomery_world
              (File (Ok example_store)) "2026-01-02 06:00 UTC" _ _
              ltac:(vm_compute; reflexivity))
    as (prev & existing & Hload & Hex & Hch).
  injection Hload as <-. vm_compute in Hex. injection Hex as <-.
  eexists. vm_compute. reflexivity.
Defined.

(** ** When a run returns *)

Lemma scrape_loop_returns w existing : forall targets st,
  (exists st', for_each targets (scrape_target w existing) st = Ok st') <->
  (forall t, In t targets ->
     scraped_by w t = None \/ exists r, scraped_by w t = Some (Ok r)) /\
  (forall t, In t targets -> ~ compares_non_object w existing t).
Proof.
  induction targets as [|t ts IH]; intros [updated changes]; cbn [for_each].
  - split; [|eauto]. intros _. split; intros t [].
  - rewrite scrape_target_exact. split.
    + intros [st' H].
      assert (Hhead : (scraped_by w t = None \/ exists r, scraped_by w t = Some (Ok r))
                      /\ ~ compares_non_object w existing t
                      /\ exists st1, for_each ts (scrape_target w existing) st1 = Ok st').
      { destruct (scraped_by w t) as [[[tbl|]|e]|] eqn:Es; cbn [bind] in H;
          try discriminate.
        - destruct (old_pricing_of existing (t_name t)) eqn:Eo; try discriminate.
          cbn [bind] in H. split; [eauto|]. split; [|eauto].
          intros [_ Hno]. apply (Hno d). exact Eo.
        - split; [eauto|]. split; [|eauto]. intros [[tbl Ht] _]. congruence.
        - split; [eauto|]. split; [|eauto]. intros [[tbl Ht] _]. congruence. }
      destruct Hhead as (Hs & Hc & st1 & Hrest).
      destruct (proj1 (IH st1) (ex_intro _ st' Hrest)) as [Hs' Hc'].
      split; intros t' [<-|Hin]; auto.
    + intros [Hs Hc].
      assert (Hrest : forall st1, exists st',
                 for_each ts (scrape_target w existing) st1 = Ok st').
      { intros st1. apply IH. split; intros t' Hin.
        - apply Hs. simpl. auto.
        - apply Hc. simpl. auto. }
      specialize (Hs t (or_introl eq_refl)). specialize (Hc t (or_introl eq_refl)).
      destruct (scraped_by w t) as [[[tbl|]|e]|] eqn:Es; cbn [bind].
      * destruct (json_object_dec (old_pricing_of existing (t_name t)))
          as [[old ->]|Hno].
        -- cbn [bind]. apply Hrest.
        -- exfalso. apply Hc. split; [eauto | exact Hno].
      * apply Hrest.
      * destruct Hs as [Hs|[r Hs]]; discriminate.
      * apply Hrest.
Qed.

(** A run returns exactly when [data.json] is missing or decodes to an
    object, its competitors can be indexed by name, no scraper raises, and
    no competitor whose scraper returned a table has a stored pricing that
    is not an object.  Nothing else stops it. *)
Theorem main_returns_iff w f now :
  (exists r, main w f now = Ok r) <->
  exists d existing,
    load_data f = Ok (JDict d) /\
    build_existing (JDict d) = Ok existing /\
    (forall t, In t scrape_targets ->
       scraped_by w t = None \/ exists r, scraped_by w t = Some (Ok r)) /\
    (forall t, In t scrape_targets -> ~ compares_non_object w existing t).
Proof.
  split.
  - intros [[out changes] H]. apply main_with_ok in H.
    destruct H as (d & existing & updated & Hload & Hex & Hloop & _).
    exists d, existing. split; [exact Hload|]. split; [exact Hex|].
    apply (scrape_loop_returns w existing scrape_targets ([], [])). eauto.
  - intros (d & existing & Hload & Hex & Hs & Hc).
    destruct (proj2 (scrape_loop_returns w existing scrape_targets ([], []))
                (conj Hs Hc)) as [[updated changes] Hloop].
    unfold main, main_with. rewrite Hload. cbn [bind]. rewrite Hex. cbn [bind].
    rewrite Hloop. cbn [bind]. eauto.
Qed.

(** A stored pricing of [null] for a competitor whose page is then scraped
    stops the run. *)
Example null_pricing_stops_the_run :
  main montgomery_world
    (File (Ok (JDict [("competitors",
                       JList [JDict [("name", JStr "Montgomery Self Storage");
                                     ("pricing", JNull)]])])))
    "2026-01-02 06:00 UTC" = Raise AttributeError.
Proof. vm_compute. reflexivity. Qed.

(** ** Indexing the loaded competitors *)

(** The lookup [existing] cannot be built exactly when [competitors] is not
    iterable (or the store has no [get]), or some entry cannot be indexed;
    the exception is that of the first such entry: [TypeError] for an entry
    that is not an object or whose name is a list or an object, [KeyError]
    for an object without [name]. *)
Theorem build_existing_raises data e :
  build_existing data = Raise e <->
  competitors_of data = Raise e \/
  exists before c after,
    competitors_of data = Ok (before ++ c :: after)%list /\
    Forall (fun c => index_error c = None) before /\
    index_error c = Some e.
Proof.
  unfold build_existing.
  destruct (competitors_of data) as [items|e0]; cbn [bind].
  - rewrite index_all_raises. split.
    + intros (before & c & after & -> & H). right. eauto.
    + intros [H|(before & c & after & [= ->] & H)]; [discriminate | eauto].
  - split; [intros [= <-]; auto|].
    intros [[= <-]|(before & c & after & H & _)]; [reflexivity | discriminate].
Qed.

(** An entry without [name] after a good one: the run stops with
    [KeyError]. *)
Example nameless_entry_stops_the_run :
  main offline_world
    (File (Ok (JDict [("competitors",
                       JList [JDict montgomery_fields;
                              JDict [("phone", JStr "(281) 555-0199")]])])))
    "2026-01-02 06:00 UTC" = Raise KeyError.
Proof. vm_compute. reflexivity. Qed.

(** When two entries of the store carry the same name, the lookup holds the
    later one: [existing[c["name"]] = c] overwrites. *)
Theorem later_entry_wins data existing before c after n :
  build_existing data = Ok existing ->
  competitors_of data = Ok (before ++ JDict c :: after)%list ->
  dict_get c "name" = Some (JStr n) ->
  (forall c', In (JDict c') after -> dict_get c' "name" <> Some (JStr n)) ->
  dict_get existing n = Some c.
Proof.
  unfold build_existing. intros H Hcomps Hname Hlast.
  rewrite Hcomps in H. cbn [bind] in H.
  rewrite for_each_app in H. bind_inv H. cbn [for_each] in H. bind_inv H.
  rewrite index_competitor_exact in E0. unfold index_error in E0.
  rewrite Hname in E0. injection E0 as <-.
  destruct (dict_get existing n) as [c'|] eqn:Eg.
  - destruct (existing_sound _ _ _ H n c' Eg) as [Hs|[Hin Hn]].
    + rewrite dict_get_set_same in Hs. symmetry. exact Hs.
    + exfalso. apply (Hlast c' Hin Hn).
  - exfalso. apply (existing_complete _ _ _ H n); [|exact Eg].
    left. rewrite dict_get_set_same. discriminate.
Qed.

Lemma later_entry_wins_witness :
  build_existing duplicate_store
    = Ok [("Lockaway Storage",
           [("name", JStr "Lockaway Storage"); ("phone", JStr "2")])] /\
  dict_get [("Lockaway Storage",
             [("name", JStr "Lockaway Storage"); ("phone", JStr "2")])]
           "Lockaway Storage"
    = Some [("name", JStr "Lockaway Storage"); ("phone", JStr "2")].
Proof.
  split; [reflexivity|].
  apply (later_entry_wins duplicate_store _
           [JDict [("name", JStr "Lockaway Storage"); ("phone", JStr "1")]]
           [("name", JStr "Lockaway Storage"); ("phone", JStr "2")] []).
  - reflexivity.
  - reflexivity.
  - reflexivity.
  - intros c' [].
Defined.

(** ** Running again *)

Lemma dict_set_same_value {V : Type} (d : dict V) k v :
  dict_get d k = Some v -> dict_set d k v = d.
Proof.
  induction d as [|[k' v'] d IH]; simpl; [discriminate|].
  destruct (String.eqb k k') eqn:E.
  - intros [= ->]. reflexivity.
  - intros H. rewrite IH by exact H. reflexivity.
Qed.

Lemma main_with_again targets w f now now' out changes :
  NoDup (map t_name targets) ->
  main_with targets w f now = Ok (out, changes) ->
  exists d_out,
    out = JDict d_out /\
    main_with targets w (File (Ok out)) now'
    = Ok (JDict (dict_set d_out "lastUpdated" (JStr now')), []).
Proof.
  intros Hnd H.
  destruct (main_with_idempotent targets w f now now' out changes Hnd H)
    as [out' H2].
  apply main_with_ok in H.
  destruct H as (d & existing & updated & Hload & Hex & Hloop & ->).
  pose proof (build_existing_filed _ _ Hex) as Hfiled.
  apply scrape_loop_ok in Hloop. simpl in Hloop. destruct Hloop as (Hs & -> & _).
  set (updated := map (fun t => (t_name t, new_pricing_of w existing t)) targets)
    in *.
  set (full := map (merge_competitor existing) updated) in *.
  set (d_out := dict_set (dict_set d "lastUpdated" (JStr now)) "competitors"
                  (JList full)) in *.
  exists d_out. split; [reflexivity|]. rewrite H2. f_equal. f_equal.
  apply main_with_ok in H2.
  destruct H2 as (d2 & existing2 & updated2 & Hload2 & Hex2 & Hloop2 & ->).
  cbn [load_data] in Hload2. injection Hload2 as <-.
  assert (Hex2' : existing2 = index_entries existing updated []).
  { unfold build_existing in Hex2. subst d_out.
    rewrite competitors_of_written in Hex2. cbn [bind] in Hex2.
    subst full. rewrite (index_written _ Hfiled) in Hex2. congruence. }
  apply scrape_loop_ok in Hloop2. simpl in Hloop2. destruct Hloop2 as (_ & -> & _).
  assert (Hnd' : NoDup (map fst updated)).
  { subst updated. rewrite map_map. simpl. exact Hnd. }
  assert (Hget : forall t, In t targets ->
            dict_get existing2 (t_name t)
            = Some (entry_fields existing (t_name t, new_pricing_of w existing t))).
  { intros t Hin. rewrite Hex2'.
    apply (index_entries_get existing updated []
             (t_name t, new_pricing_of w existing t) Hnd').
    subst updated. apply in_map_iff. exists t. auto. }
  assert (Hnew : forall t, In t targets ->
            new_pricing_of w existing2 t = new_pricing_of w existing t).
  { intros t Hin. unfold new_pricing_of at 1 2.
    destruct (scraped_by w t) as [[[tbl|]|e]|] eqn:Es; try reflexivity;
      unfold old_pricing_of at 1; rewrite (Hget t Hin), entry_fields_pricing;
      cbn [snd]; unfold new_pricing_of; rewrite Es; reflexivity. }
  assert (Hfull : map (merge_competitor existing2)
                    (map (fun t => (t_name t, new_pricing_of w existing2 t)) targets)
                  = full).
  { subst full updated. rewrite !map_map. apply map_ext_in. intros t Hin.
    rewrite !merge_competitor_fields. f_equal.
    rewrite (Hnew t Hin). unfold entry_fields at 1. cbn [fst snd].
    rewrite (Hget t Hin). apply dict_set_same_value. apply entry_fields_pricing. }
  rewrite Hfull. f_equal. apply dict_set_same_value.
  rewrite dict_get_set_other by discriminate.
  subst d_out. apply dict_get_set_same.
Qed.

(** A second run on the store that a run wrote, with the scrapers returning
    what they returned, writes the same store again: only [lastUpdated]
    moves, and no change is reported. *)
Theorem second_run_keeps_store w f now now' out changes :
  main w f now = Ok (out, changes) ->
  exists d_out,
    out = JDict d_out /\
    main w (File (Ok out)) now'
    = Ok (JDict (dict_set d_out "lastUpdated" (JStr now')), []).
Proof. apply main_with_again. apply scrape_targets_NoDup. Qed.

Lemma second_run_keeps_store_witness :
  exists out changes d_out,
    main montgomery_world (File (Ok example_store)) "2026-01-02 06:00 UTC"
      = Ok (out, changes) /\
    out = JDict d_out /\
    main montgomery_world (File (Ok out)) "2026-01-03 06:00 UTC"
    = Ok (JDict (dict_set d_out "lastUpdated" (JStr "2026-01-03 06:00 UTC")), []).
Proof.
  destruct (second_run_keeps_store montgomery_world (File (Ok example_store))
              "2026-01-02 06:00 UTC" "2026-01-03 06:00 UTC" _ _
              ltac:(vm_compute; reflexivity)) as (d_out & Hout & Hagain).
  eexists _, _, d_out. split; [vm_compute; reflexivity|].
  split; [exact Hout | exact Hagain].
Defined.

(** ** The order of the matches *)

Lemma float_lt_antisym (a b : binary64) :
  nonneg_float a -> nonneg_float b ->
  float_lt a b = false -> float_lt b a = false -> a = b.
Proof.
  unfold float_lt, SFltb, SFcompare, nonneg_float.
  destruct a as [[]|[]| |[] ma ea], b as [[]|[]| |[] mb eb];
    try contradiction; try discriminate; try reflexivity.
  intros _ _.
  change (Pos.compare_cont Eq ma mb) with (Pos.compare ma mb).
  change (Pos.compare_cont Eq mb ma) with (Pos.compare mb ma).
  destruct (Z.compare_spec ea eb); try discriminate;
    destruct (Z.compare_spec eb ea); try discriminate; try lia.
  destruct (Pos.compare_spec ma mb); try discriminate;
    destruct (Pos.compare_spec mb ma); try discriminate; try lia.
  intros _ _. subst. reflexivity.
Qed.

Lemma observations_permutation observe blocks blocks' :
  Permutation blocks blocks' ->
  forall obs, observations observe blocks = Ok obs ->
  exists obs', observations observe blocks' = Ok obs' /\ Permutation obs obs'.
Proof.
  induction 1 as [|b l l' Hp IH|b1 b2 l|l l' l'' Hp1 IH1 Hp2 IH2];
    intros obs H.
  - eauto.
  - cbn [observations] in *. bind_inv H. bind_inv H. injection H as <-.
    destruct (IH _ E0) as (obs' & -> & Hperm). rewrite E. cbn [bind].
    eexists. split; [reflexivity|]. destruct a; auto.
  - cbn [observations] in *. bind_inv H. bind_inv H. bind_inv E0. bind_inv E0.
    injection E0 as <-. injection H as <-.
    rewrite E1, E, E2. cbn [bind]. eexists. split; [reflexivity|].
    destruct a, a1; auto using perm_swap.
  - destruct (IH1 _ H) as (obs1 & H1 & Hperm1).
    destruct (IH2 _ H1) as (obs2 & H2 & Hperm2).
    exists obs2. split; [exact H2|]. eapply perm_trans; eassumption.
Qed.

Lemma prices_for_permutation size obs obs' :
  Permutation obs obs' ->
  Permutation (prices_for size obs) (prices_for size obs').
Proof.
  unfold prices_for. induction 1 as [|x l l' Hp IH|x y l|l l' l'' Hp1 IH1 Hp2 IH2];
    simpl.
  - constructor.
  - destruct (String.eqb size (fst x)); simpl; auto.
  - destruct (String.eqb size (fst x)), (String.eqb size (fst y)); simpl;
      auto using perm_swap.
  - eapply perm_trans; eassumption.
Qed.

Lemma observations_collect collect observe :
  keeps_cheapest_of collect observe ->
  forall blocks sp0 obs,
    observations observe blocks = Ok obs ->
    for_each blocks collect sp0 = Ok (cheapest_of obs sp0).
Proof.
  intros Hc. induction blocks as [|b bs IH]; intros sp0 obs H;
    cbn [observations for_each] in *.
  - injection H as <-. reflexivity.
  - bind_inv H. bind_inv H. injection H as <-.
    rewrite Hc, E. cbn [bind]. rewrite (IH _ _ E0).
    destruct a; reflexivity.
Qed.

(** Two passes that saw the same observations, in any order, keep the same
    price for every size. *)
Lemma cheapest_of_permutation obs obs' size :
  (forall k p, In (k, p) obs -> In k canonical_sizes /\ nonneg_float p) ->
  Permutation obs obs' ->
  dict_get (cheapest_of obs []) size = dict_get (cheapest_of obs' []) size.
Proof.
  intros Htr Hperm.
  pose proof (prices_for_permutation size _ _ Hperm) as Hpp.
  pose proof (cheapest_of_spec obs size) as H1.
  pose proof (cheapest_of_spec obs' size) as H2.
  destruct (dict_get (cheapest_of obs []) size) as [p|],
           (dict_get (cheapest_of obs' []) size) as [p'|].
  - destruct H1 as [Hin Hmin], H2 as [Hin' Hmin'].
    assert (Hp : In p' (prices_for size obs))
      by (eapply Permutation_in; [apply Permutation_sym; exact Hpp | exact Hin']).
    assert (Hp' : In p (prices_for size obs'))
      by (eapply Permutation_in; [exact Hpp | exact Hin]).
    f_equal. apply float_lt_antisym; auto.
    + apply (Htr size p). apply prices_for_In. exact Hin.
    + apply (Htr size p'). apply prices_for_In. exact Hp.
  - rewrite H2 in Hpp. apply Permutation_sym, Permutation_nil in Hpp.
    destruct H1 as [Hin _]. rewrite Hpp in Hin. destruct Hin.
  - rewrite H1 in Hpp. apply Permutation_nil in Hpp.
    destruct H2 as [Hin _]. rewrite Hpp in Hin. destruct Hin.
  - reflexivity.
Qed.

Lemma store_rounded_rounds size_prices : forall pricing tbl,
  store_rounded pricing size_prices = Ok tbl ->
  forall k p, In (k, p) size_prices -> exists r, py_int_round p = Ok r.
Proof.
  unfold store_rounded.
  induction size_prices as [|[k1 p1] sp IH]; intros pricing tbl H k p Hin;
    [destruct Hin|].
  cbn [for_each] in H. bind_inv H. bind_inv E.
  destruct Hin as [[= <- <-]|Hin]; eauto.
Qed.

Lemma store_rounded_total size_prices : forall pricing,
  (forall k p, In (k, p) size_prices -> exists r, py_int_round p = Ok r) ->
  exists tbl, store_rounded pricing size_prices = Ok tbl.
Proof.
  unfold store_rounded.
  induction size_prices as [|[k1 p1] sp IH]; intros pricing H; cbn [for_each].
  - eauto.
  - destruct (H k1 p1 (or_introl eq_refl)) as [r ->]. cbn [bind].
    apply IH. intros k p Hin. apply (H k p). simpl. auto.
Qed.

Lemma dict_ext {V : Type} : forall (a b : dict V),
  dict_keys a = dict_keys b ->
  NoDup (dict_keys a) ->
  (forall k, dict_get a k = dict_get b k) ->
  a = b.
Proof.
  unfold dict_keys.
  induction a as [|[k v] a IH]; intros [|[k' v'] b] Hk Hnd Hget;
    try discriminate; [reflexivity|].
  simpl in Hk. injection Hk as <- Hk.
  inversion Hnd as [|? ? Hnotin Hnd']; subst.
  pose proof (Hget k) as Hk0. simpl in Hk0. rewrite String.eqb_refl in Hk0.
  injection Hk0 as <-. f_equal. apply IH; auto.
  intros k0. specialize (Hget k0). simpl in Hget.
  destruct (String.eqb_spec k0 k) as [E|Hne]; [|exact Hget].
  rewrite E. clear Hget.
  assert (H1 : dict_get a k = None) by (apply dict_get_None_keys; exact Hnotin).
  assert (H2 : dict_get b k = None)
    by (apply dict_get_None_keys; unfold dict_keys; rewrite <- Hk; exact Hnotin).
  congruence.
Qed.

Lemma store_rounded_ext pricing sp sp' tbl :
  NoDup (dict_keys pricing) ->
  NoDup (dict_keys sp) -> NoDup (dict_keys sp') ->
  (forall k, dict_get sp k = dict_get sp' k) ->
  (forall k, In k (dict_keys sp) -> dict_mem pricing k = true) ->
  store_rounded pricing sp = Ok tbl ->
  store_rounded pricing sp' = Ok tbl.
Proof.
  intros Hndp Hnd Hnd' Hget Hmem H.
  assert (Hmem' : forall k, In k (dict_keys sp') -> dict_mem pricing k = true).
  { intros k Hk. apply Hmem.
    destruct (in_dec string_dec k (dict_keys sp)) as [Hin|Hout]; [exact Hin|].
    apply dict_get_None_keys in Hout. rewrite Hget in Hout.
    apply dict_get_None_keys in Hout. contradiction. }
  destruct (store_rounded_total sp' pricing) as [tbl' H'].
  { intros k p Hin. apply (store_rounded_rounds sp pricing tbl H k p).
    apply dict_get_In. rewrite Hget. apply NoDup_keys_get; assumption. }
  rewrite H'. f_equal.
  destruct (store_rounded_spec sp pricing tbl Hnd Hmem H) as [Hk1 Hg1].
  destruct (store_rounded_spec sp' pricing tbl' Hnd' Hmem' H') as [Hk2 Hg2].
  apply dict_ext.
  - congruence.
  - rewrite Hk2. exact Hndp.
  - intros k. specialize (Hg1 k). specialize (Hg2 k). rewrite <- Hget in Hg2.
    destruct (dict_get sp k) as [p|].
    + destruct Hg1 as (r1 & Hr1 & ->), Hg2 as (r2 & Hr2 & ->). congruence.
    + congruence.
Qed.

Lemma cheapest_table_permutation obs obs' tbl :
  (forall k p, In (k, p) obs -> In k canonical_sizes /\ nonneg_float p) ->
  Permutation obs obs' ->
  store_rounded empty_pricing (cheapest_of obs []) = Ok tbl ->
  store_rounded empty_pricing (cheapest_of obs' []) = Ok tbl.
Proof.
  intros Htr Hperm H.
  apply (store_rounded_ext empty_pricing (cheapest_of obs []) _ tbl); auto.
  - change (dict_keys empty_pricing) with canonical_sizes.
    apply canonical_sizes_NoDup.
  - apply cheapest_of_NoDup. constructor.
  - apply cheapest_of_NoDup. constructor.
  - intros k. apply cheapest_of_permutation; assumption.
  - intros k Hk. apply canonical_mem. apply cheapest_of_keys in Hk.
    destruct Hk as [[]|Hk]. apply (tracked_keys obs Htr k Hk).
Qed.

(** A pass that files its observations with [keep_cheapest] and then rounds
    returns the same table on the same matches in another order. *)
Lemma cheapest_pass_permutation collect observe blocks blocks' tbl :
  keeps_cheapest_of collect observe ->
  observes_tracked observe ->
  Permutation blocks blocks' ->
  (size_prices <- for_each blocks collect [] ;;
   pricing <- store_rounded empty_pricing size_prices ;;
   Ok (Some pricing)) = Ok (Some tbl) ->
  (size_prices <- for_each blocks' collect [] ;;
   pricing <- store_rounded empty_pricing size_prices ;;
   Ok (Some pricing)) = Ok (Some tbl).
Proof.
  intros Hc Ho Hperm H. bind_inv H. bind_inv H. injection H as <-.
  apply (collect_observations _ _ Hc) in E. destruct E as (obs & Hobs & ->).
  destruct (observations_permutation observe _ _ Hperm _ Hobs)
    as (obs' & Hobs' & Hp).
  rewrite (observations_collect _ _ Hc _ [] _ Hobs'). cbn [bind].
  rewrite (cheapest_table_permutation obs obs' a0
             (observations_tracked _ Ho _ _ Hobs) Hp E0).
  reflexivity.
Qed.

(** The four scrapers that keep the cheapest price return the same table
    when the same matches come in another order.  ([scrape_honea_egypt]
    does not: it keeps the last match.) *)
Theorem cheapest_scrapers_ignore_match_order blocks blocks' tbl :
  Permutation blocks blocks' ->
  (ps_reduce blocks = Ok (Some tbl) -> ps_reduce blocks' = Ok (Some tbl)) /\
  (lockaway_reduce blocks = Ok (Some tbl) ->
   lockaway_reduce blocks' = Ok (Some tbl)) /\
  (montgomery_reduce blocks = Ok (Some tbl) ->
   montgomery_reduce blocks' = Ok (Some tbl)) /\
  (woodlands_reduce blocks = Ok (Some tbl) ->
   woodlands_reduce blocks' = Ok (Some tbl)).
Proof.
  intros Hperm. split; [|split; [|split]].
  - apply (cheapest_pass_permutation _ _ _ _ _ ps_collect_cheapest
             ps_observe_tracked Hperm).
  - unfold lockaway_reduce. intros H. bind_inv H. bind_inv H. bind_inv H.
    injection H as <-.
    apply (collect_observations _ _ direct_collect_cheapest) in E.
    destruct E as (obs1 & Hobs1 & ->).
    apply (collect_observations _ _ mapped_collect_cheapest) in E0.
    destruct E0 as (obs2 & Hobs2 & ->).
    destruct (observations_permutation _ _ _ Hperm _ Hobs1) as (obs1' & Ho1 & Hp1).
    destruct (observations_permutation _ _ _ Hperm _ Hobs2) as (obs2' & Ho2 & Hp2).
    rewrite (observations_collect _ _ direct_collect_cheapest _ [] _ Ho1).
    cbn [bind].
    rewrite (observations_collect _ _ mapped_collect_cheapest _ _ _ Ho2).
    cbn [bind].
    rewrite <- cheapest_of_app in E1 |- *.
    assert (Ht : forall k p, In (k, p) (obs1 ++ obs2) ->
                             In k canonical_sizes /\ nonneg_float p).
    { intros k p Hin. apply in_app_or in Hin. destruct Hin as [Hin|Hin].
      - apply (observations_tracked _ direct_observe_tracked _ _ Hobs1 k p Hin).
      - apply (observations_tracked _ mapped_observe_tracked _ _ Hobs2 k p Hin). }
    assert (Hp : Permutation (obs1 ++ obs2) (obs1' ++ obs2'))
      by (apply Permutation_app; assumption).
    assert (Ht' : forall k p, In (k, p) (obs1' ++ obs2') ->
                              In k canonical_sizes /\ nonneg_float p).
    { intros k p Hin. apply (Ht k p).
      eapply Permutation_in; [apply Permutation_sym; exact Hp | exact Hin]. }
    assert (Hkeys : forall o, (forall k p, In (k, p) o ->
                                 In k canonical_sizes /\ nonneg_float p) ->
              forall k, In k (dict_keys (cheapest_of o [])) ->
                        dict_mem empty_pricing k = true).
    { intros o Hto k Hk. apply canonical_mem. apply cheapest_of_keys in Hk.
      destruct Hk as [[]|Hk]. apply (tracked_keys o Hto k Hk). }
    rewrite store_rounded_known_eq in E1 by (apply Hkeys; exact Ht).
    rewrite store_rounded_known_eq by (apply Hkeys; exact Ht').
    rewrite (cheapest_table_permutation _ _ a1 Ht Hp E1). reflexivity.
  - apply (cheapest_pass_permutation _ _ _ _ _ montgomery_collect_cheapest
             direct_observe_tracked Hperm).
  - apply (cheapest_pass_permutation _ _ _ _ _ woodlands_collect_cheapest
             woodlands_observe_tracked Hperm).
Qed.

Lemma cheapest_scrapers_ignore_match_order_witness :
  montgomery_reduce [("5", "10", "60.00"); ("10", "10", "80"); ("5", "10", "50.00")]
    = Ok (Some [("5x10", Some 50); ("10x10", Some 80); ("10x15", None);
                ("10x20", None); ("10x30", None)]) /\
  montgomery_reduce [("5", "10", "50.00"); ("5", "10", "60.00"); ("10", "10", "80")]
    = Ok (Some [("5x10", Some 50); ("10x10", Some 80); ("10x15", None);
                ("10x20", None); ("10x30", None)]) /\
  honea_reduce [("5", "10", "60.00"); ("10", "10", "80"); ("5", "10", "50.00")]
    <> honea_reduce [("5", "10", "50.00"); ("5", "10", "60.00"); ("10", "10", "80")].
Proof.
  assert (H : montgomery_reduce
                [("5", "10", "60.00"); ("10", "10", "80"); ("5", "10", "50.00")]
              = Ok (Some [("5x10", Some 50); ("10x10", Some 80); ("10x15", None);
                          ("10x20", None); ("10x30", None)]))
    by (vm_compute; reflexivity).
  split; [exact H|]. split.
  - refine (proj1 (proj2 (proj2
      (cheapest_scrapers_ignore_match_order
         [("5", "10", "60.00"); ("10", "10", "80"); ("5", "10", "50.00")]
         [("5", "10", "50.00"); ("5", "10", "60.00"); ("10", "10", "80")]
         _ _))) H).
    apply (Permutation_cons_app [("5", "10", "50.00")] [("10", "10", "80")]
             ("5", "10", "60.00")).
    apply perm_swap.
  - vm_compute. discriminate.
Defined.

(** ** [extract_between] *)

Lemma append_assoc (a b c : string) : (a ++ b) ++ c = a ++ b ++ c.
Proof. induction a as [|x a IH]; simpl; congruence. Qed.

Lemma append_empty_r s : s ++ "" = s.
Proof. induction s as [|c s IH]; simpl; congruence. Qed.

Lemma length_append (a b : string) :
  String.length (a ++ b) = (String.length a + String.length b)%nat.
Proof. induction a as [|x a IH]; simpl; congruence. Qed.

Lemma substring_prefix s1 : forall s2,
  substring 0 (String.length s1) s2 = s1 <-> exists b, s2 = s1 ++ b.
Proof.
  induction s1 as [|c s1 IH]; intros s2.
  - split; [intros _; exists s2; reflexivity|].
    intros _. destruct s2; reflexivity.
  - destruct s2 as [|c2 s2]; simpl.
    + split; [discriminate | intros [b H]; discriminate].
    + split.
      * intros H. injection H as H1 H2. subst c2.
        apply IH in H2. destruct H2 as [b ->]. eauto.
      * intros [b H]. injection H as H1 H2. subst. f_equal. apply IH. eauto.
Qed.

Lemma prefix_append s1 s2 : prefix s1 s2 = true <-> exists b, s2 = s1 ++ b.
Proof. rewrite prefix_correct. apply substring_prefix. Qed.

Lemma occurs_at_0 sub s : occurs_at sub s 0 <-> prefix sub s = true.
Proof.
  rewrite prefix_append. split.
  - intros (a & b & -> & Hl). destruct a; [|discriminate]. exists b. reflexivity.
  - intros [b ->]. exists "", b. auto.
Qed.

Lemma occurs_at_S sub c s p : occurs_at sub (String c s) (S p) <-> occurs_at sub s p.
Proof.
  split.
  - intros (a & b & H & Hl). destruct a as [|x a]; [discriminate|].
    simpl in H, Hl. injection H as <- ->. exists a, b. auto.
  - intros (a & b & -> & Hl). exists (String c a), b. simpl. auto.
Qed.

Lemma occurs_at_nil sub p : occurs_at sub "" p -> sub = "" /\ p = 0%nat.
Proof.
  intros (a & b & H & Hl). destruct a; [|discriminate].
  destruct sub; [|discriminate]. auto.
Qed.

(** [index n sub s] is the first position from [n] on at which [sub] occurs
    in [s]. *)
Lemma index_some s : forall n sub m,
  index n sub s = Some m ->
  (n <= m)%nat /\ occurs_at sub s m /\
  forall p, (n <= p)%nat -> (p < m)%nat -> ~ occurs_at sub s p.
Proof.
  induction s as [|c s IH]; intros n sub m; cbn [index].
  - destruct n; [|discriminate]. destruct sub; [|discriminate].
    intros [= <-]. split; [lia|]. split; [exists "", ""; auto|]. intros p _ Hp; lia.
  - destruct n as [|n].
    + destruct (prefix sub (String c s)) eqn:Ep.
      * intros [= <-]. split; [lia|]. split; [apply occurs_at_0; exact Ep|].
        intros p _ Hp; lia.
      * destruct (index 0 sub s) as [k|] eqn:Ek; [|discriminate].
        intros [= <-]. destruct (IH _ _ _ Ek) as (_ & Hat & Hmin).
        split; [lia|]. split; [apply occurs_at_S; exact Hat|].
        intros [|p] _ Hp Hocc.
        -- apply occurs_at_0 in Hocc. congruence.
        -- apply occurs_at_S in Hocc. apply (Hmin p); [lia | lia | exact Hocc].
    + destruct (index n sub s) as [k|] eqn:Ek; [|discriminate].
      intros [= <-]. destruct (IH _ _ _ Ek) as (Hle & Hat & Hmin).
      split; [lia|]. split; [apply occurs_at_S; exact Hat|].
      intros [|p] Hnp Hp Hocc; [lia|].
      apply occurs_at_S in Hocc. apply (Hmin p); [lia | lia | exact Hocc].
Qed.

Lemma index_none s : forall n sub,
  index n sub s = None -> forall p, (n <= p)%nat -> ~ occurs_at sub s p.
Proof.
  induction s as [|c s IH]; intros n sub; cbn [index].
  - destruct n.
    + destruct sub; [discriminate|]. intros _ p _ Hocc.
      apply occurs_at_nil in Hocc. destruct Hocc; discriminate.
    + intros _ p Hp Hocc. apply occurs_at_nil in Hocc. lia.
  - destruct n as [|n].
    + destruct (prefix sub (String c s)) eqn:Ep; [discriminate|].
      destruct (index 0 sub s) as [k|] eqn:Ek; [discriminate|].
      intros _ [|p] _ Hocc.
      * apply occurs_at_0 in Hocc. congruence.
      * apply occurs_at_S in Hocc. apply (IH _ _ Ek p); [lia | exact Hocc].
    + destruct (index n sub s) as [k|] eqn:Ek; [discriminate|].
      intros _ [|p] Hp Hocc; [lia|].
      apply occurs_at_S in Hocc. apply (IH _ _ Ek p); [lia | exact Hocc].
Qed.

Lemma substring_middle a : forall r c,
  substring (String.length a) (String.length r) (a ++ r ++ c) = r.
Proof.
  induction a as [|x a IH]; intros r c; simpl.
  - revert c. induction r as [|y r IHr]; intros c; simpl.
    + destruct c; reflexivity.
    + rewrite IHr. reflexivity.
  - apply IH.
Qed.

Lemma append_split a : forall b a' b',
  a ++ b = a' ++ b' -> (String.length a <= String.length a')%nat ->
  exists r, a' = a ++ r /\ b = r ++ b'.
Proof.
  induction a as [|x a IH]; intros b a' b' H Hl; simpl in *.
  - exists a'. auto.
  - destruct a' as [|x' a']; simpl in *; [lia|].
    injection H as <- H. destruct (IH _ _ _ H ltac:(lia)) as (r & -> & ->).
    exists r. auto.
Qed.

Lemma occurs_iff sub s : occurs sub s <-> exists p, occurs_at sub s p.
Proof.
  split.
  - intros (a & b & ->). exists (String.length a), a, b. auto.
  - intros (p & a & b & -> & _). exists a, b. reflexivity.
Qed.

Lemma occurs_at_prepend x sub s p :
  occurs_at sub (x ++ s) (String.length x + p) <-> occurs_at sub s p.
Proof.
  induction x as [|c x IH]; simpl; [tauto|].
  rewrite occurs_at_S. exact IH.
Qed.

(** [extract_between] returns [None] exactly when the start marker does
    not occur in the text; a missing end marker never gives [None]. *)
Theorem extract_between_none html start_marker end_marker :
  extract_between html start_marker end_marker = None <->
  ~ occurs start_marker html.
Proof.
  unfold extract_between. rewrite occurs_iff.
  destruct (index 0 start_marker html) as [i|] eqn:Ei.
  - split.
    + destruct (index _ end_marker html); discriminate.
    + intros H. exfalso. apply H. exists i. apply (index_some _ _ _ _ Ei).
  - split; [|reflexivity]. intros _ [p Hp].
    apply (index_none _ _ _ Ei p); [lia | exact Hp].
Qed.

(** What [extract_between] returns is the text between the first occurrence
    of the start marker and the first occurrence of the end marker after
    it; when the end marker does not occur after the start marker, it is
    the whole rest of the text. *)
Theorem extract_between_delimits html start_marker end_marker r :
  extract_between html start_marker end_marker = Some r ->
  exists before after,
    html = before ++ start_marker ++ r ++ after /\
    (forall p, (p < String.length before)%nat -> ~ occurs_at start_marker html p) /\
    ((exists rest, after = end_marker ++ rest /\
        forall p, (p < String.length r)%nat ->
                  ~ occurs_at end_marker (r ++ after) p) \/
     (after = "" /\ ~ occurs end_marker r)).
Proof.
  unfold extract_between.
  destruct (index 0 start_marker html) as [i|] eqn:Ei; [|discriminate].
  destruct (index_some _ _ _ _ Ei) as (_ & (a & b & Hhtml & Hla) & Hmin).
  assert (Hidx : (i + String.length start_marker)%nat
                 = String.length (a ++ start_marker))
    by (rewrite length_append; lia).
  rewrite Hidx.
  destruct (index (String.length (a ++ start_marker)) end_marker html)
    as [j|] eqn:Ej.
  - intros [= <-].
    destruct (index_some _ _ _ _ Ej) as (Hle & (a' & b' & Hhtml' & Hla') & Hmin').
    assert (Hsplit : exists r0, a' = (a ++ start_marker) ++ r0 /\
                                b = r0 ++ end_marker ++ b').
    { apply append_split; [|lia]. rewrite append_assoc. congruence. }
    destruct Hsplit as (r0 & -> & ->).
    assert (Hj : (j - String.length (a ++ start_marker))%nat = String.length r0)
      by (rewrite <- Hla', length_append; lia).
    rewrite Hj.
    assert (Hr : substring (String.length (a ++ start_marker)) (String.length r0) html
                 = r0).
    { rewrite Hhtml. rewrite <- append_assoc. apply substring_middle. }
    rewrite Hr. exists a, (end_marker ++ b'). split; [exact Hhtml|]. split.
    + intros p Hp. apply Hmin; lia.
    + left. exists b'. split; [reflexivity|]. intros p Hp Hocc.
      apply (Hmin' (String.length (a ++ start_marker) + p)%nat); [lia | lia |].
      rewrite Hhtml, <- append_assoc. apply occurs_at_prepend. exact Hocc.
  - intros [= <-].
    assert (Hr : substring (String.length (a ++ start_marker))
                   (String.length html - String.length (a ++ start_marker)) html
                 = b).
    { rewrite Hhtml. rewrite <- append_assoc.
      rewrite (length_append (a ++ start_marker) b).
      replace (String.length (a ++ start_marker) + String.length b
               - String.length (a ++ start_marker))%nat
        with (String.length b) by lia.
      rewrite <- (append_empty_r b) at 2. apply substring_middle. }
    rewrite Hr. exists a, "". split; [rewrite append_empty_r; exact Hhtml|]. split.
    + intros p Hp. apply Hmin; lia.
    + right. split; [reflexivity|]. rewrite occurs_iff. intros [p Hocc].
      apply (index_none _ _ _ Ej (String.length (a ++ start_marker) + p)%nat);
        [lia|].
      rewrite Hhtml, <- append_assoc. apply occurs_at_prepend. exact Hocc.
Qed.

(** Conversely, a text laid out as [before ++ start ++ r ++ end ++ rest],
    where the start marker does not occur earlier and the end marker does
    not occur in [r ++ end] before the end of [r], gives back [r]. *)
Theorem extract_between_finds before start_marker r end_marker rest :
  (forall p, (p < String.length before)%nat ->
     ~ occurs_at start_marker (before ++ start_marker ++ r ++ end_marker ++ rest) p) ->
  (forall p, (p < String.length r)%nat ->
     ~ occurs_at end_marker (r ++ end_marker ++ rest) p) ->
  extract_between (before ++ start_marker ++ r ++ end_marker ++ rest)
    start_marker end_marker = Some r.
Proof.
  intros Hs He. set (html := before ++ start_marker ++ r ++ end_marker ++ rest).
  assert (Hat : occurs_at start_marker html (String.length before))
    by (exists before, (r ++ end_marker ++ rest); auto).
  unfold extract_between.
  destruct (index 0 start_marker html) as [i|] eqn:Ei.
  2:{ exfalso. apply (index_none _ _ _ Ei (String.length before)); [lia | exact Hat]. }
  destruct (index_some _ _ _ _ Ei) as (_ & Hati & Hmin).
  assert (Hi : i = String.length before).
  { destruct (Nat.lt_trichotomy i (String.length before)) as [Hlt|[Heq|Hgt]].
    - exfalso. apply (Hs i Hlt). exact Hati.
    - exact Heq.
    - exfalso. apply (Hmin (String.length before)); [lia | exact Hgt | exact Hat]. }
  subst i.
  assert (Hidx : (String.length before + String.length start_marker)%nat
                 = String.length (before ++ start_marker))
    by (rewrite length_append; lia).
  rewrite Hidx.
  assert (Hhtml : html = (before ++ start_marker) ++ r ++ end_marker ++ rest)
    by (subst html; rewrite append_assoc; reflexivity).
  assert (Hate : occurs_at end_marker html
                   (String.length (before ++ start_marker) + String.length r)).
  { rewrite Hhtml. apply occurs_at_prepend. exists r, rest. auto. }
  destruct (index (String.length (before ++ start_marker)) end_marker html)
    as [j|] eqn:Ej.
  2:{ exfalso. apply (index_none _ _ _ Ej _ ltac:(apply Nat.le_add_r) Hate). }
  destruct (index_some _ _ _ _ Ej) as (Hle & Hatj & Hmin').
  assert (Hj : j = (String.length (before ++ start_marker) + String.length r)%nat).
  { destruct (Nat.lt_trichotomy j
                (String.length (before ++ start_marker) + String.length r))
      as [Hlt|[Heq|Hgt]].
    - exfalso.
      apply (He (j - String.length (before ++ start_marker))%nat); [lia|].
      apply (occurs_at_prepend (before ++ start_marker)).
      rewrite <- Hhtml.
      replace (String.length (before ++ start_marker)
               + (j - String.length (before ++ start_marker)))%nat with j by lia.
      exact Hatj.
    - exact Heq.
    - exfalso. apply (Hmin' _ ltac:(apply Nat.le_add_r) Hgt Hate). }
  subst j.
  replace (String.length (before ++ start_marker) + String.length r
           - String.length (before ++ start_marker))%nat
    with (String.length r) by lia.
  f_equal. rewrite Hhtml. apply substring_middle.
Qed.

Example extract_between_no_start :
  extract_between "<span class=price>$59</span>" "<b>" "</span>" = None.
Proof. reflexivity. Qed.

Lemma extract_between_delimits_witness :
  extract_between "<td><b>$59.00</b>/mo</td>" "<b>" "</b>" = Some "$59.00" /\
  exists before after,
    "<td><b>$59.00</b>/mo</td>" = before ++ "<b>" ++ "$59.00" ++ after /\
    (forall p, (p < String.length before)%nat ->
               ~ occurs_at "<b>" "<td><b>$59.00</b>/mo</td>" p) /\
    ((exists rest, after = "</b>" ++ rest /\
        forall p, (p < String.length "$59.00")%nat ->
                  ~ occurs_at "</b>" ("$59.00" ++ after) p) \/
     (after = "" /\ ~ occurs "</b>" "$59.00")).
Proof.
  split; [reflexivity|].
  apply (extract_between_delimits "<td><b>$59.00</b>/mo</td>" "<b>" "</b>").
  reflexivity.
Defined.

Lemma extract_between_finds_witness :
  extract_between ("<p>" ++ "<b>" ++ "$59" ++ "</b>" ++ "</p>") "<b>" "</b>"
  = Some "$59".
Proof.
  apply (extract_between_finds "<p>" "<b>" "$59" "</b>" "</p>").
  - intros [|[|[|p]]] Hp H; simpl in Hp; try lia;
      repeat (apply occurs_at_S in H); apply occurs_at_0 in H;
      vm_compute in H; discriminate H.
  - intros [|[|[|p]]] Hp H; simpl in Hp; try lia;
      repeat (apply occurs_at_S in H); apply occurs_at_0 in H;
      vm_compute in H; discriminate H.
Defined.

(** Without end marker after the start marker, the rest of the text. *)
Example extract_between_no_end :
  extract_between "total: $59" ": " "</td>" = Some "$59".
Proof. reflexivity. Qed.

(** ** Whole prices *)

Lemma digits2_pos_bounds p :
  2 ^ (Z.pos (digits2_pos p) - 1) <= Z.pos p < 2 ^ Z.pos (digits2_pos p).
Proof.
  induction p as [p IH|p IH|]; cbn [digits2_pos].
  - rewrite Pos2Z.inj_succ.
    replace (Z.succ (Z.pos (digits2_pos p)) - 1) with (Z.succ (Z.pos (digits2_pos p) - 1)) by lia.
    rewrite !Z.pow_succ_r by lia. lia.
  - rewrite Pos2Z.inj_succ.
    replace (Z.succ (Z.pos (digits2_pos p)) - 1) with (Z.succ (Z.pos (digits2_pos p) - 1)) by lia.
    rewrite !Z.pow_succ_r by lia. lia.
  - simpl. lia.
Qed.

Lemma Zdigits2_double x : 0 < x -> Zdigits2 (2 * x) = Zdigits2 x + 1.
Proof.
  destruct x as [|p|p]; try lia. intros _. cbn [Z.mul Pos.mul Zdigits2 digits2_pos].
  rewrite Pos2Z.inj_succ. lia.
Qed.

Lemma Zdigits2_shift n s : 0 < n -> 0 <= s -> Zdigits2 (n * 2 ^ s) = Zdigits2 n + s.
Proof.
  intros Hn Hs. revert s Hs. apply natlike_ind.
  - rewrite Z.mul_1_r. lia.
  - intros s Hs IH. rewrite Z.pow_succ_r by lia.
    replace (n * (2 * 2 ^ s)) with (2 * (n * 2 ^ s)) by lia.
    rewrite Zdigits2_double, IH; [lia|].
    apply Z.mul_pos_pos; [lia | apply Z.pow_pos_nonneg; lia].
Qed.

Lemma Zdigits2_small n : 0 < n < 2 ^ 53 -> 1 <= Zdigits2 n <= 53.
Proof.
  destruct n as [|p|p]; try lia. intros [_ H]. cbn [Zdigits2].
  pose proof (digits2_pos_bounds p) as [Hlo _]. split; [lia|].
  destruct (Z_le_gt_dec (Z.pos (digits2_pos p)) 53) as [Hle|Hgt]; [exact Hle|].
  exfalso. assert (2 ^ 53 <= 2 ^ (Z.pos (digits2_pos p) - 1))
    by (apply Z.pow_le_mono_r; lia). lia.
Qed.

Lemma shr_1_even a :
  0 < a ->
  shr_1 {| shr_m := 2 * a; shr_r := false; shr_s := false |}
  = {| shr_m := a; shr_r := false; shr_s := false |}.
Proof. destruct a as [|p|p]; try lia. reflexivity. Qed.

Lemma iter_pos_shr_1_exact p : forall a,
  0 < a ->
  iter_pos shr_1 p {| shr_m := a * 2 ^ Z.pos p; shr_r := false; shr_s := false |}
  = {| shr_m := a; shr_r := false; shr_s := false |}.
Proof.
  induction p as [p IH|p IH|]; intros a Ha; cbn [iter_pos].
  - replace (a * 2 ^ Z.pos p~1) with (2 * ((a * 2 ^ Z.pos p) * 2 ^ Z.pos p)).
    + assert (0 < a * 2 ^ Z.pos p) by (apply Z.mul_pos_pos; [lia | apply Z.pow_pos_nonneg; lia]).
      rewrite shr_1_even by (apply Z.mul_pos_pos; [lia | apply Z.pow_pos_nonneg; lia]).
      rewrite IH by lia. apply IH. exact Ha.
    + replace (Z.pos p~1) with (Z.pos p + Z.pos p + 1) by lia.
      rewrite !Z.pow_add_r by lia. change (2 ^ 1) with 2. ring.
  - replace (a * 2 ^ Z.pos p~0) with ((a * 2 ^ Z.pos p) * 2 ^ Z.pos p).
    + assert (0 < a * 2 ^ Z.pos p) by (apply Z.mul_pos_pos; [lia | apply Z.pow_pos_nonneg; lia]).
      rewrite IH by lia. apply IH. exact Ha.
    + replace (Z.pos p~0) with (Z.pos p + Z.pos p) by lia.
      rewrite Z.pow_add_r by lia. ring.
  - replace (a * 2 ^ 1) with (2 * a) by lia. apply shr_1_even. exact Ha.
Qed.

Lemma round_exact_shift n t : 0 < n -> 0 <= t ->
  py_int_round (S754_finite false (Z.to_pos (n * 2 ^ t)) (- t)) = Ok n.
Proof.
  intros Hn Ht. unfold py_int_round.
  assert (Hp : 0 < 2 ^ t) by (apply Z.pow_pos_nonneg; lia).
  assert (Hm : 0 < n * 2 ^ t) by (apply Z.mul_pos_pos; lia).
  rewrite Z2Pos.id by exact Hm. f_equal.
  destruct (0 <=? - t) eqn:E.
  - apply Z.leb_le in E. assert (t = 0) by lia. subst t.
    change (- 0) with 0. rewrite !Z.pow_0_r. lia.
  - unfold round_half_even_shift. rewrite Z.opp_involutive.
    rewrite Z.div_mul by lia. rewrite Z.mod_mul by lia.
    replace (2 * 0) with 0 by lia.
    destruct (Z.compare_spec 0 (2 ^ t)); lia.
Qed.

Lemma binary_round_exact n s : 0 < n < 2 ^ 53 -> 0 <= s ->
  exists t, 0 <= t /\
    binary_round_aux 53 1024 false (n * 2 ^ s) (- s) loc_Exact
    = S754_finite false (Z.to_pos (n * 2 ^ t)) (- t).
Proof.
  intros Hn Hs.
  pose proof (Zdigits2_small n Hn) as Hd.
  assert (Hpos : forall t, 0 <= t -> 0 < n * 2 ^ t)
    by (intros t Ht; apply Z.mul_pos_pos; [lia | apply Z.pow_pos_nonneg; lia]).
  assert (Hfexp : forall t, 0 <= t ->
            fexp 53 1024 (Zdigits2 (n * 2 ^ t) + - t) - - t = Zdigits2 n - 53 + t).
  { intros t Ht. rewrite Zdigits2_shift by lia. unfold fexp, emin.
    replace (Zdigits2 n + t + - t) with (Zdigits2 n) by lia. lia. }
  unfold binary_round_aux, shr_fexp. rewrite (Hfexp s Hs).
  cbn [shr_record_of_loc].
  destruct (Zdigits2 n - 53 + s) as [|k|k] eqn:Ek.
  - (* no shift *)
    cbn [shr shr_m loc_of_shr_record round_nearest_even shr_record_of_loc].
    rewrite (Hfexp s Hs), Ek. cbn [shr shr_m].
    specialize (Hpos s Hs). destruct (n * 2 ^ s) as [|m|m] eqn:Em; try lia.
    exists s. split; [lia|]. replace (- s <=? 1024 - 53) with true
      by (symmetry; apply Z.leb_le; lia). rewrite Em. reflexivity.
  - (* shift right by k *)
    cbn [shr].
    assert (Hs' : s = (53 - Zdigits2 n) + Z.pos k) by lia.
    set (t := 53 - Zdigits2 n) in *.
    assert (Ht : 0 <= t) by (subst t; lia).
    replace (n * 2 ^ s) with ((n * 2 ^ t) * 2 ^ Z.pos k)
      by (rewrite Hs', Z.pow_add_r by lia; ring).
    rewrite iter_pos_shr_1_exact by (apply Hpos; exact Ht).
    cbn [shr_m loc_of_shr_record round_nearest_even shr_record_of_loc].
    replace (- s + Z.pos k) with (- t) by lia.
    rewrite (Hfexp t Ht). replace (Zdigits2 n - 53 + t) with 0 by (subst t; lia).
    cbn [shr shr_m].
    specialize (Hpos t Ht). destruct (n * 2 ^ t) as [|m|m] eqn:Em; try lia.
    exists t. split; [lia|]. replace (- t <=? 1024 - 53) with true
      by (symmetry; apply Z.leb_le; lia). rewrite Em. reflexivity.
  - cbn [shr shr_m loc_of_shr_record round_nearest_even shr_record_of_loc].
    rewrite (Hfexp s Hs), Ek. cbn [shr shr_m].
    specialize (Hpos s Hs). destruct (n * 2 ^ s) as [|m|m] eqn:Em; try lia.
    exists s. split; [lia|]. replace (- s <=? 1024 - 53) with true
      by (symmetry; apply Z.leb_le; lia). rewrite Em. reflexivity.
Qed.

Lemma SFdiv_exact n q : 0 < n < 2 ^ 53 -> 0 < q ->
  exists t, 0 <= t /\
    SFdiv 53 1024 (S754_finite false (Z.to_pos (n * q)) 0)
                  (S754_finite false (Z.to_pos q) 0)
    = S754_finite false (Z.to_pos (n * 2 ^ t)) (- t).
Proof.
  intros Hn Hq. unfold SFdiv, SFdiv_core_binary.
  rewrite !Z2Pos.id by nia.
  set (e' := Z.min _ _).
  assert (He : e' <= 0) by (subst e'; lia).
  replace (0 - 0 - e') with (- e') by lia.
  set (m' := match - e' with Z0 => _ | Zpos _ => _ | Zneg _ => _ end).
  assert (Hm : m' = (n * 2 ^ (- e')) * q).
  { subst m'. destruct (- e') as [|p|p] eqn:E; try lia.
    change (IntDef.Z.shiftl (n * q) (Z.pos p)) with (Z.shiftl (n * q) (Z.pos p)).
    rewrite Z.shiftl_mul_pow2 by lia. ring. }
  rewrite Hm.
  pose proof (Z_div_mod (n * 2 ^ (- e') * q) q ltac:(lia)) as Hdm.
  destruct (Z.div_eucl (n * 2 ^ (- e') * q) q) as [q0 r0] eqn:Ed.
  assert (Hq0 : q0 = n * 2 ^ (- e') /\ r0 = 0).
  { destruct Hdm as [H1 H2].
    assert (r0 = 0).
    { assert (Hr : r0 = (n * 2 ^ (- e') - q0) * q) by lia.
      destruct (Z.eq_dec (n * 2 ^ (- e') - q0) 0) as [Hz|Hnz]; [nia|].
      exfalso. nia. }
    split; [nia | assumption]. }
  destruct Hq0 as [-> ->].
  assert (Hloc : new_location q 0 = loc_Exact).
  { unfold new_location, new_location_even, new_location_odd.
    destruct (Z.even q); reflexivity. }
  rewrite Hloc. cbn [xorb].
  destruct (binary_round_exact n (- e') Hn ltac:(lia)) as (t & Ht & H).
  rewrite Z.opp_involutive in H. exists t. auto.
Qed.

Lemma whole_price_exact n k :
  0 <= n < 2 ^ 53 ->
  py_int_round (float_of_decimal (n * 10 ^ Z.of_nat k) k) = Ok n.
Proof.
  intros Hn. destruct (Z.eq_dec n 0) as [->|Hnz]; [reflexivity|].
  assert (Hq : 0 < 10 ^ Z.of_nat k) by (apply Z.pow_pos_nonneg; lia).
  unfold float_of_decimal.
  assert (Hm : 0 < n * 10 ^ Z.of_nat k) by (apply Z.mul_pos_pos; lia).
  destruct (n * 10 ^ Z.of_nat k) as [|p|p] eqn:Em; try lia.
  replace p with (Z.to_pos (n * 10 ^ Z.of_nat k)) by (rewrite Em; reflexivity).
  destruct (SFdiv_exact n (10 ^ Z.of_nat k) ltac:(lia) Hq) as (t & Ht & ->).
  apply round_exact_shift; lia.
Qed.

Lemma digit_not_dot c n : digit_of_ascii c = Some n -> Ascii.eqb c "."%char = false.
Proof.
  intros H. destruct (Ascii.eqb_spec c "."%char) as [->|]; [|reflexivity].
  vm_compute in H. discriminate.
Qed.

Lemma digit_of_ascii_range c n : digit_of_ascii c = Some n -> 0 <= n <= 9.
Proof.
  unfold digit_of_ascii.
  destruct (48 <=? Z.of_N (N_of_ascii c)) eqn:E1; [|discriminate].
  destruct (Z.of_N (N_of_ascii c) <=? 57) eqn:E2; [|discriminate].
  simpl. intros [= <-]. apply Z.leb_le in E1, E2. lia.
Qed.

Lemma read_digits_nonneg s : forall acc v,
  0 <= acc -> read_digits s acc = Some v -> 0 <= v.
Proof.
  induction s as [|c s IH]; intros acc v Hacc; cbn [read_digits].
  - intros [= <-]. exact Hacc.
  - destruct (digit_of_ascii c) as [n|] eqn:E; [|discriminate].
    apply digit_of_ascii_range in E. apply IH. lia.
Qed.

Lemma read_decimal_app s rest : forall acc nd v,
  read_digits s acc = Some v ->
  read_decimal (s ++ rest) acc None nd
  = read_decimal rest v None (nd + String.length s).
Proof.
  induction s as [|c s IH]; intros acc nd v; cbn [read_digits append String.length].
  - intros [= <-]. rewrite Nat.add_0_r. reflexivity.
  - destruct (digit_of_ascii c) as [n|] eqn:E; [|discriminate].
    intros H. cbn [read_decimal]. rewrite (digit_not_dot c n E), E.
    rewrite (IH _ _ _ H). f_equal. lia.
Qed.

Lemma read_decimal_zeros f : forall acc k nd,
  all_zeros f = true ->
  read_decimal f acc (Some k) nd
  = Some (acc * 10 ^ Z.of_nat (String.length f), (k + String.length f)%nat,
          (nd + String.length f)%nat).
Proof.
  induction f as [|c f IH]; intros acc k nd; cbn [all_zeros read_decimal String.length].
  - intros _. rewrite !Nat.add_0_r. f_equal. f_equal. f_equal. simpl. lia.
  - intros H. apply andb_true_iff in H. destruct H as [Hc Hf].
    apply Ascii.eqb_eq in Hc. subst c.
    change (Ascii.eqb "0" ".") with false.
    change (digit_of_ascii "0") with (Some 0). cbv iota.
    rewrite (IH _ _ _ Hf). f_equal. f_equal; [f_equal|]; try lia.
    rewrite Nat2Z.inj_succ, Z.pow_succ_r by lia. lia.
Qed.

Lemma py_int_digits s n :
  py_int s = Ok n -> read_digits s 0 = Some n /\ (0 < String.length s)%nat /\ 0 <= n.
Proof.
  unfold py_int. destruct s as [|c s]; [discriminate|].
  destruct (read_digits (String c s) 0) as [v|] eqn:E; [|discriminate].
  intros [= <-]. split; [reflexivity|]. split; [simpl; lia|].
  apply (read_digits_nonneg (String c s) 0 v); [lia | exact E].
Qed.

(** A price written as a whole number below 2^53, with or without a dot
    followed by zeros (["59"], ["59."], ["59.0"], ["59.00"]), is stored as
    that number: [int(round(float(s)))] is [int] of its digits. *)
Theorem whole_prices_stored_exactly s f n :
  py_int s = Ok n -> n < 2 ^ 53 -> all_zeros f = true ->
  (x <- py_float s ;; py_int_round x) = Ok n /\
  (x <- py_float (s ++ "." ++ f) ;; py_int_round x) = Ok n.
Proof.
  intros Hs Hn Hf. apply py_int_digits in Hs. destruct Hs as (Hd & Hlen & H0).
  split.
  - unfold py_float. rewrite <- (append_empty_r s) at 1.
    rewrite (read_decimal_app s "" 0 0%nat n Hd). cbn [read_decimal].
    destruct (String.length s) as [|l] eqn:El; [lia|]. cbn [Nat.add bind].
    replace n with (n * 10 ^ Z.of_nat 0) at 1 by (simpl; lia).
    apply whole_price_exact. lia.
  - unfold py_float. rewrite (read_decimal_app s _ 0 0%nat n Hd).
    cbn [append read_decimal]. change (Ascii.eqb "." ".") with true. cbv iota.
    rewrite (read_decimal_zeros f n 0%nat _ Hf).
    destruct (String.length s) as [|l] eqn:El; [lia|]. cbn [Nat.add bind].
    apply whole_price_exact. lia.
Qed.

Lemma whole_prices_stored_exactly_witness :
  py_int "59" = Ok 59 /\
  (x <- py_float "59" ;; py_int_round x) = Ok 59 /\
  (x <- py_float "59.00" ;; py_int_round x) = Ok 59.
Proof.
  split; [reflexivity|].
  apply (whole_prices_stored_exactly "59" "00" 59).
  - reflexivity.
  - reflexivity.
  - reflexivity.
Defined.

(** ** What the scrapers keep *)

Lemma cheapest_price_stored_witness :
  woodlands_reduce [("12", "10", "95.00"); ("10", "10", "99.00"); ("7", "7", "30")]
  = Ok (Some [("5x10", None); ("10x10", Some 95); ("10x15", None);
              ("10x20", None); ("10x30", None)]) /\
  exists obs,
    observations woodlands_observe
      [("12", "10", "95.00"); ("10", "10", "99.00"); ("7", "7", "30")] = Ok obs /\
    cheapest_result obs
      [("5x10", None); ("10x10", Some 95); ("10x15", None);
       ("10x20", None); ("10x30", None)].
Proof.
  split; [vm_compute; reflexivity|].
  apply (proj2 (proj2 (proj2 cheapest_price_stored))).
  vm_compute. reflexivity.
Defined.

(** [scrape_honea_egypt] stores, for each size, the price of the last match
    of that size, rounded; a size without match keeps [None]. *)
Theorem honea_egypt_keeps_latest blocks tbl :
  honea_reduce blocks = Ok (Some tbl) ->
  exists obs,
    observations honea_observe blocks = Ok obs /\ latest_result obs tbl.
Proof. apply honea_reduce_spec. Qed.

Lemma honea_egypt_keeps_latest_witness :
  honea_reduce [("5", "10", "50.00"); ("10", "20", "120"); ("5", "10", "60.00")]
  = Ok (Some [("5x10", Some 60); ("10x10", None); ("10x15", None);
              ("10x20", Some 120); ("10x30", None)]) /\
  exists obs,
    observations honea_observe
      [("5", "10", "50.00"); ("10", "20", "120"); ("5", "10", "60.00")] = Ok obs /\
    latest_result obs
      [("5x10", Some 60); ("10x10", None); ("10x15", None);
       ("10x20", Some 120); ("10x30", None)].
Proof.
  split; [vm_compute; reflexivity|].
  apply honea_egypt_keeps_latest. vm_compute. reflexivity.
Defined.

(** ** What the text scrapers can raise *)

Lemma all_digits_read s : forall acc,
  all_digits s = true -> exists v, read_digits s acc = Some v.
Proof.
  induction s as [|c s IH]; intros acc; cbn [all_digits read_digits]; [eauto|].
  destruct (digit_of_ascii c); [apply IH | discriminate].
Qed.

Lemma read_decimal_cents f : forall acc k nd,
  all_digits f = true ->
  exists m, read_decimal f acc (Some k) nd
            = Some (m, (k + String.length f)%nat, (nd + String.length f)%nat).
Proof.
  induction f as [|c f IH]; intros acc k nd; cbn [all_digits read_decimal String.length].
  - intros _. rewrite !Nat.add_0_r. eauto.
  - destruct (digit_of_ascii c) as [n|] eqn:E; [|discriminate].
    intros H. rewrite (digit_not_dot c n E).
    destruct (IH (10 * acc + n) (S k) (S nd) H) as [m ->].
    exists m. f_equal. f_equal; [f_equal|]; lia.
Qed.

(** [float] does not raise on a captured price. *)
Lemma py_float_capture s : price_capture s -> exists x, py_float s = Ok x.
Proof.
  intros (whole & Hne & Hd & Hs).
  destruct (all_digits_read whole 0 Hd) as [v Hv].
  assert (Hlen : exists l, String.length whole = S l)
    by (destruct whole; [congruence | simpl; eauto]).
  destruct Hlen as [l Hl]. unfold py_float.
  destruct Hs as [->|(cents & Hc2 & Hcd & ->)].
  - rewrite <- (append_empty_r whole).
    rewrite (read_decimal_app whole "" 0 0%nat v Hv). cbn [read_decimal].
    rewrite Hl. cbn [Nat.add]. eauto.
  - rewrite (read_decimal_app whole _ 0 0%nat v Hv).
    cbn [append read_decimal]. change (Ascii.eqb "." ".") with true. cbv iota.
    destruct (read_decimal_cents cents v 0%nat (0 + String.length whole)%nat Hcd)
      as [m ->].
    rewrite Hl. cbn [Nat.add]. eauto.
Qed.

Lemma py_int_round_overflow x e :
  nonneg_float x -> py_int_round x = Raise e -> e = OverflowError.
Proof.
  destruct x as [[]|[]| |[] m ex]; unfold nonneg_float, py_int_round;
    try contradiction; try discriminate.
  intros _ [= <-]. reflexivity.
Qed.

Lemma observations_total observe blocks :
  Forall (fun b => exists o, observe b = Ok o) blocks ->
  exists obs, observations observe blocks = Ok obs.
Proof.
  induction 1 as [|b bs [o Ho] _ [obs IH]]; cbn [observations]; [eauto|].
  rewrite Ho, IH. cbn [bind]. eauto.
Qed.

Lemma store_rounded_outcome size_prices : forall pricing,
  (forall k p, In (k, p) size_prices -> nonneg_float p) ->
  (exists tbl, store_rounded pricing size_prices = Ok tbl) \/
  store_rounded pricing size_prices = Raise OverflowError.
Proof.
  unfold store_rounded.
  induction size_prices as [|[k1 p1] sp IH]; intros pricing H; cbn [for_each].
  - eauto.
  - destruct (py_int_round p1) as [r|e] eqn:E; cbn [bind].
    + apply IH. intros k p Hin. apply (H k p). simpl. auto.
    + right. f_equal.
      apply (py_int_round_overflow p1 e (H k1 p1 (or_introl eq_refl)) E).
Qed.

Lemma cheapest_of_nonneg obs :
  (forall k p, In (k, p) obs -> In k canonical_sizes /\ nonneg_float p) ->
  forall k p, In (k, p) (cheapest_of obs []) -> nonneg_float p.
Proof.
  intros Htr k p Hin.
  apply NoDup_keys_get in Hin; [|apply cheapest_of_NoDup; constructor].
  pose proof (cheapest_of_spec obs k) as Hsp. rewrite Hin in Hsp.
  destruct Hsp as [Hp _]. apply prices_for_In in Hp. apply (Htr k p Hp).
Qed.

Lemma cheapest_table_outcome obs :
  (forall k p, In (k, p) obs -> In k canonical_sizes /\ nonneg_float p) ->
  table_or_overflow (pricing <- store_rounded empty_pricing (cheapest_of obs []) ;;
                     Ok (Some pricing)).
Proof.
  intros Htr.
  destruct (store_rounded_outcome (cheapest_of obs []) empty_pricing
              (cheapest_of_nonneg obs Htr)) as [[tbl ->]| ->].
  - left. cbn [bind]. eauto.
  - right. reflexivity.
Qed.

Lemma direct_observe_total b :
  price_capture (snd b) -> exists o, direct_observe b = Ok o.
Proof.
  destruct b as [[w d] price]. intros H. apply py_float_capture in H.
  destruct H as [x Hx]. unfold direct_observe. cbn [snd] in Hx. rewrite Hx.
  cbn [bind]. destruct (dict_mem empty_pricing (size_key w d)); eauto.
Qed.

Lemma mapped_observe_total b :
  price_capture (snd b) -> exists o, lockaway_mapped_observe b = Ok o.
Proof.
  destruct b as [[w d] price]. intros H. apply py_float_capture in H.
  destruct H as [x Hx]. unfold lockaway_mapped_observe. cbn [snd] in Hx.
  destruct (dict_get_flat lockaway_map (size_key w d)); [|eauto].
  rewrite Hx. cbn [bind]. eauto.
Qed.

Lemma woodlands_observe_total b :
  price_capture (snd b) -> exists o, woodlands_observe b = Ok o.
Proof.
  destruct b as [[w d] price]. intros H. apply py_float_capture in H.
  destruct H as [x Hx]. unfold woodlands_observe. cbn [snd] in Hx. rewrite Hx.
  cbn [bind].
  destruct (dict_mem empty_pricing (woodlands_mapped (size_key w d))); eauto.
Qed.

Lemma honea_loop_outcome blocks : forall pricing,
  captured_prices blocks ->
  (forall kv, In kv pricing -> True) ->
  (exists pricing', for_each blocks honea_store pricing = Ok pricing') \/
  for_each blocks honea_store pricing = Raise OverflowError.
Proof.
  induction blocks as [|[[w d] price] bs IH]; intros pricing Hcap _;
    cbn [for_each]; [eauto|].
  inversion Hcap as [|? ? Hb Hbs]; subst. cbn [snd] in Hb.
  unfold honea_store at 1 3.
  destruct (dict_mem pricing (size_key w d)).
  - destruct (py_float_capture price Hb) as [x Hx]. rewrite Hx. cbn [bind].
    destruct (py_int_round x) as [r|e] eqn:Er; cbn [bind].
    + apply IH; auto.
    + right. f_equal.
      apply (py_int_round_overflow x e (py_float_nonneg price x Hx) Er).
  - cbn [bind]. apply IH; auto.
Qed.

(** On matches whose prices are as their pattern captures them, the
    Lockaway, Honea Egypt, Montgomery and Woodlands scrapers return a table
    or raise [OverflowError] (a price too large for a float rounds to no
    integer): [float] never raises there. *)
Theorem text_scrapers_raise_only_overflow blocks :
  captured_prices blocks ->
  table_or_overflow (lockaway_reduce blocks) /\
  table_or_overflow (honea_reduce blocks) /\
  table_or_overflow (montgomery_reduce blocks) /\
  table_or_overflow (woodlands_reduce blocks).
Proof.
  intros Hcap.
  assert (Hall : forall observe,
            (forall b, price_capture (snd b) -> exists o, observe b = Ok o) ->
            exists obs, observations observe blocks = Ok obs).
  { intros observe Ho. apply observations_total.
    unfold captured_prices in Hcap. rewrite Forall_forall in *.
    intros b Hb. apply Ho, Hcap, Hb. }
  split; [|split; [|split]].
  - destruct (Hall _ direct_observe_total) as [obs1 H1].
    destruct (Hall _ mapped_observe_total) as [obs2 H2].
    unfold lockaway_reduce.
    rewrite (observations_collect _ _ direct_collect_cheapest _ [] _ H1).
    cbn [bind].
    rewrite (observations_collect _ _ mapped_collect_cheapest _ _ _ H2).
    cbn [bind]. rewrite <- cheapest_of_app.
    assert (Ht : forall k p, In (k, p) (obs1 ++ obs2) ->
                             In k canonical_sizes /\ nonneg_float p).
    { intros k p Hin. apply in_app_or in Hin. destruct Hin as [Hin|Hin].
      - apply (observations_tracked _ direct_observe_tracked _ _ H1 k p Hin).
      - apply (observations_tracked _ mapped_observe_tracked _ _ H2 k p Hin). }
    rewrite store_rounded_known_eq.
    + apply cheapest_table_outcome. exact Ht.
    + intros k Hk. apply canonical_mem. apply cheapest_of_keys in Hk.
      destruct Hk as [[]|Hk]. apply (tracked_keys _ Ht k Hk).
  - unfold honea_reduce.
    destruct (honea_loop_outcome blocks empty_pricing Hcap (fun _ _ => I))
      as [[pricing ->]| ->].
    + left. cbn [bind]. eauto.
    + right. reflexivity.
  - destruct (Hall _ direct_observe_total) as [obs H].
    unfold montgomery_reduce.
    rewrite (observations_collect _ _ montgomery_collect_cheapest _ [] _ H).
    cbn [bind]. apply cheapest_table_outcome.
    apply (observations_tracked _ direct_observe_tracked _ _ H).
  - destruct (Hall _ woodlands_observe_total) as [obs H].
    unfold woodlands_reduce.
    rewrite (observations_collect _ _ woodlands_collect_cheapest _ [] _ H).
    cbn [bind]. apply cheapest_table_outcome.
    apply (observations_tracked _ woodlands_observe_tracked _ _ H).
Qed.

Lemma text_scrapers_raise_only_overflow_witness :
  captured_prices [("5", "10", "59.00"); ("10", "10", "89")] /\
  table_or_overflow (montgomery_reduce [("5", "10", "59.00"); ("10", "10", "89")]) /\
  montgomery_reduce [("5", "10", "59.00"); ("10", "10", "89")]
  = Ok (Some [("5x10", Some 59); ("10x10", Some 89); ("10x15", None);
              ("10x20", None); ("10x30", None)]).
Proof.
  assert (Hcap : captured_prices [("5", "10", "59.00"); ("10", "10", "89")]).
  { repeat constructor.
    - exists "59". split; [discriminate|]. split; [reflexivity|].
      right. exists "00". repeat split; reflexivity.
    - exists "89". split; [discriminate|]. split; [reflexivity|].
      left. reflexivity. }
  split; [exact Hcap|]. split.
  - apply (text_scrapers_raise_only_overflow _ Hcap).
  - vm_compute. reflexivity.
Defined.

(** A price of 400 digits is too large for a float: [OverflowError]. *)
Example huge_price_overflows :
  montgomery_reduce
    [("5", "10",
      "1000000000000000000000000000000000000000000000000000000000000000000000000000000000000000000000000000000000000000000000000000000000000000000000000000000000000000000000000000000000000000000000000000000000000000000000000000000000000000000000000000000000000000000000000000000000000000000000000000000000000000000000000000000000000000000000000000000000000000000000000000000000000000000000000000000000000")]
  = Raise OverflowError.
Proof. vm_compute. reflexivity. Qed.
